(** * Operational scripts of prismy-production: a shallow embedding

    Three entry points are embedded, each in a module of its own:

    - [Deploy]      : [deploy_via_python.py], the git deployment runner;
    - [Rotation]    : [infrastructure/lambda/package/rotate-secret.py],
                      the four-step secret rotation handler;
    - [Maintenance] : [infrastructure/lambda/package/db-maintenance.py],
                      the database maintenance handler.

    The scripts are glue code around external services (a shell, a secrets
    store, a database, a metrics sink, a notification topic).  Every external
    call is explicit: either an oracle of an environment record, whose
    answer the script cannot influence, or an operation on a state that is
    threaded through the script (the secrets store, the calls made so far).
    The Python control flow is kept as it is written; an exception is a
    value of [Exc], and [try]/[except] is [try_except].  Calls to [logger]
    have no effect on control flow or on any service and are left out.

    The facts proved about the three scripts follow the embedding, in
    [DeployFacts], [RotationFacts] and [MaintenanceFacts]; further
    properties of the same functions, and of the functions around them, are
    in [DeployMore], [RotationMore] and [MaintenanceMore]. *)

From Stdlib Require Import Ascii String.
From stdpp Require Import gmap strings list pretty.

(** Python truthiness of a string: the empty string is falsy. *)
Definition truthy (s : string) : bool :=
  match s with EmptyString => false | String _ _ => true end.

(** The double quote, as a one-character string. *)
Definition dquote : string := String (Ascii.ascii_of_nat 34) EmptyString.

(** ** Exceptions and the state-and-exception monad of the two handlers *)

(** The Python exceptions the handlers raise or receive.  [ClientError]
    carries the error code of a service error returned to boto3
    ([ResourceNotFoundException], ...); [ParamValidationError] is raised by
    botocore before any request is sent; [DriverError] stands for whatever a
    database driver (psycopg2, pymysql) raises. *)
Inductive Exc :=
| KeyError (key : string)
| IndexError (msg : string)
| TypeError (msg : string)
| ValueError (msg : string)
| PlainException (msg : string)
| ClientError (code : string)
| ParamValidationError (report : string)
| DriverError (msg : string).

#[export] Instance Exc_eq_dec : EqDecision Exc.
Proof. solve_decision. Defined.

(** [str(e)] *)
Definition str_exc (e : Exc) : string :=
  match e with
  | KeyError k => "'" +:+ k +:+ "'"
  | IndexError m | TypeError m | ValueError m | PlainException m => m
  | ClientError c => "An error occurred (" +:+ c +:+ ")"
  | ParamValidationError r => "Parameter validation failed:
" +:+ r
  | DriverError m => m
  end.

Inductive Result (A : Type) :=
| Ok (a : A)
| Err (e : Exc).
Arguments Ok {A}.
Arguments Err {A}.

(** A computation over a state [S] that returns or raises. *)
Definition M (S A : Type) : Type := S -> Result A * S.

Definition ret {S A} (a : A) : M S A := fun s => (Ok a, s).
Definition raise {S A} (e : Exc) : M S A := fun s => (Err e, s).
Definition bind {S A B} (m : M S A) (k : A -> M S B) : M S B :=
  fun s => match m s with
           | (Ok a, s) => k a s
           | (Err e, s) => (Err e, s)
           end.
(** [try: m  except Exception as e: h e] *)
Definition try_except {S A} (m : M S A) (h : Exc -> M S A) : M S A :=
  fun s => match m s with
           | (Ok a, s) => (Ok a, s)
           | (Err e, s) => h e s
           end.
(** A value that is already a [Result] (the answer of an oracle). *)
Definition lift {S A} (r : Result A) : M S A := fun s => (r, s).

Declare Scope py_scope.
Delimit Scope py_scope with py.
Notation "'do' x <- m ; k" := (bind m (fun x => k))
  (at level 10, x name, m at level 100, k at level 200, only parsing) : py_scope.

(* ===================================================================== *)
(** * The deployment runner ([deploy_via_python.py]) *)
(* ===================================================================== *)

Module Deploy.

(** What [subprocess.run(..., capture_output=True, text=True)] observes of a
    finished command. *)
Record Completed := mkCompleted {
  returncode : Z;
  stdout : string;
  stderr : string
}.

(** The operating system as the script sees it, over an abstract world [W]:
    [os.chdir] (which raises when the directory is missing), [os.getcwd] and
    the shell behind [subprocess.run(cmd, shell=True, cwd=...)], which runs
    the command to completion and may change the world. *)
Record Host (W : Type) := mkHost {
  chdir : string -> W -> option W;
  getcwd : W -> string;
  subprocess_run : string -> string -> W -> Completed * W
}.
Arguments chdir {W}.
Arguments getcwd {W}.
Arguments subprocess_run {W}.

(** One line written by [print].  [print(f"Error: {e}")] is kept structured:
    it carries the command and the return code of the [CalledProcessError]. *)
Inductive Line :=
| Text (s : string)
| ErrorOf (cmd : string) (rc : Z).

(** The state threaded through the script: the world, what was printed, and
    the commands handed to the shell with their return codes (oldest first). *)
Record Console (W : Type) := mkConsole {
  world : W;
  printed : list Line;
  ran : list (string * Z)
}.
Arguments mkConsole {W}.
Arguments world {W}.
Arguments printed {W}.
Arguments ran {W}.

(** Result of [main]: the value it returns (handed to [sys.exit]) or the
    exception that escapes it. *)
Inductive Outcome :=
| Return (status : Z)
| Raise (exc : string).

Definition project_dir : string := "/Users/mac/prismy/prismy-production".

Definition commit_message : string :=
"fix: comprehensive SSR and production deployment fixes

- Fixed next.config.js for production with proper webpack configurations
- Added PDF.js and Tesseract.js stubs for serverless environments
- Fixed all SSR browser API issues by replacing with serverless-compatible implementations
- Configured webpack to handle worker threads and problematic modules
- Added proper fallbacks and externals for Vercel deployment
- Optimized bundle splitting for better performance

These changes ensure stable deployment on Vercel serverless platform.

🤖 Generated with [Claude Code](https://claude.ai/code)

Co-Authored-By: Claude <noreply@anthropic.com>".

Definition cmd_status_porcelain : string := "git status --porcelain".
Definition cmd_add : string := "git add -A".
Definition cmd_commit : string :=
  "git commit -m " +:+ dquote +:+ commit_message +:+ dquote.
Definition cmd_status : string := "git status".
Definition cmd_push : string := "git push origin main".

Section Runner.
Context {W : Type}.
Variable host : Host W.

Definition print (l : Line) (s : Console W) : Console W :=
  mkConsole (world s) (printed s ++ [l]) (ran s).

Definition print_if (c : bool) (l : Line) (s : Console W) : Console W :=
  if c then print l s else s.

(** [run_command]: [check=True] turns a non-zero return code into a
    [CalledProcessError], which the [except] clause turns into [False]. *)
Definition run_command (cmd : string) (s : Console W) : bool * Console W :=
  let '(result, w) := subprocess_run host cmd project_dir (world s) in
  let s := mkConsole w (printed s) (ran s ++ [(cmd, returncode result)]) in
  if decide (returncode result = 0%Z) then
    let s := print (Text ("✓ " +:+ cmd)) s in
    let s := print_if (truthy (stdout result)) (Text (stdout result)) s in
    (true, s)
  else
    let s := print (Text ("✗ " +:+ cmd)) s in
    let s := print (ErrorOf cmd (returncode result)) s in
    let s := print_if (truthy (stderr result))
                      (Text ("Stderr: " +:+ stderr result)) s in
    (false, s).

Definition main (w : W) : Outcome * Console W :=
  let s := print (Text "Starting deployment process...") (mkConsole w [] []) in
  (* Change to project directory *)
  match chdir host project_dir (world s) with
  | None => (Raise "FileNotFoundError", s)
  | Some w =>
    let s := mkConsole w (printed s) (ran s) in
    let s := print (Text ("Working directory: " +:+ getcwd host (world s))) s in
    (* Git status *)
    let s := print (Text "
📊 Checking git status...") s in
    let '(_, s) := run_command cmd_status_porcelain s in
    (* Add all changes *)
    let s := print (Text "
📁 Adding all changes...") s in
    let '(added, s) := run_command cmd_add s in
    if negb added then
      let s := print (Text "Failed to add files") s in
      (Return 1%Z, s)
    else
      (* Commit with message *)
      let s := print (Text "
💾 Creating commit...") s in
      let '(committed, s) := run_command cmd_commit s in
      let s :=
        if negb committed then
          let s := print (Text "Failed to commit (possibly no changes)") s in
          (* Check if there are any changes *)
          snd (run_command cmd_status s)
        else s in
      (* Push to GitHub *)
      let s := print (Text "
🚀 Pushing to GitHub...") s in
      let '(pushed, s) := run_command cmd_push s in
      if negb pushed then
        let s := print (Text "Failed to push to GitHub") s in
        (Return 1%Z, s)
      else
        let s := print (Text "
✅ Deployment completed successfully!") s in
        let s := print (Text "Vercel will automatically deploy from GitHub.") s in
        (Return 0%Z, s)
  end.
End Runner.

(** A scripted host for concrete runs: [git status --porcelain] returns
    [status_rc]; the world is the list of return codes still to be handed
    out to the other commands, one per call (0 once the list is empty). *)
Definition scripted (status_rc : Z) : Host (list Z) :=
  mkHost (list Z)
    (fun _ w => Some w)
    (fun _ => project_dir)
    (fun cmd _ w =>
       if decide (cmd = cmd_status_porcelain) then (mkCompleted status_rc "" "", w)
       else match w with
            | [] => (mkCompleted 0%Z "" "", [])
            | rc :: w => (mkCompleted rc "" "", w)
            end).

(** Two hosts that differ at most in what [git status --porcelain] reports:
    they move the world alike, and answer every other command alike. *)
Definition same_but_status {W} (h1 h2 : Host W) : Prop :=
  (forall d w, chdir h1 d w = chdir h2 d w) /\
  (forall w, getcwd h1 w = getcwd h2 w) /\
  (forall cmd cwd w, snd (subprocess_run h1 cmd cwd w) = snd (subprocess_run h2 cmd cwd w)) /\
  (forall cmd cwd w, cmd <> cmd_status_porcelain ->
     subprocess_run h1 cmd cwd w = subprocess_run h2 cmd cwd w).

(** The ways a run can go once the directory change succeeded, told by the
    commands it ran and their return codes. *)
Inductive Run : list (string * Z) -> Outcome -> Prop :=
| add_failed r0 r1 :
    r1 <> 0%Z ->
    Run [(cmd_status_porcelain, r0); (cmd_add, r1)] (Return 1)
| committed r0 r3 :
    Run [(cmd_status_porcelain, r0); (cmd_add, 0%Z); (cmd_commit, 0%Z); (cmd_push, r3)]
        (Return (if decide (r3 = 0%Z) then 0 else 1))
| commit_failed r0 r2 r r3 :
    r2 <> 0%Z ->
    Run [(cmd_status_porcelain, r0); (cmd_add, 0%Z); (cmd_commit, r2);
         (cmd_status, r); (cmd_push, r3)]
        (Return (if decide (r3 = 0%Z) then 0 else 1)).

(** Two states that agree on everything but the first entry of [ran]. *)
Definition tail_eq {W} (s1 s2 : Console W) : Prop :=
  world s1 = world s2 /\
  exists a b t, ran s1 = a :: t /\ ran s2 = b :: t.

End Deploy.

(* ===================================================================== *)
(** * The rotation handler ([rotate-secret.py]) *)
(* ===================================================================== *)

Module Rotation.

Open Scope py_scope.

(** ** Secret records *)

(** The JSON scalars a secret record holds. *)
Inductive JVal :=
| JNull
| JBool (b : bool)
| JNum (n : Z)
| JStr (s : string).

#[export] Instance JVal_eq_dec : EqDecision JVal.
Proof. solve_decision. Defined.

(** [str(v)], as an f-string formats the value. *)
Definition str_jval (v : JVal) : string :=
  match v with
  | JNull => "None"
  | JBool true => "True"
  | JBool false => "False"
  | JNum n => pretty n
  | JStr s => s
  end.

(** A secret record: the dict [json.loads] yields. *)
Abbreviation dict := (gmap string JVal).

(** The text stored in a secret version: the serialisation of a record
    ([json.dumps] of a dict), or any other text. *)
Inductive SecretString :=
| JsonObject (d : dict)
| OtherText (text : string).

#[export] Instance SecretString_eq_dec : EqDecision SecretString.
Proof. solve_decision. Defined.

(** [json.loads(...)] followed by the uses the handler makes of the value:
    anything but an object makes the step raise. *)
Definition json_loads (t : SecretString) : Result dict :=
  match t with
  | JsonObject d => Ok d
  | OtherText _ => Err (TypeError "secret value is not a JSON object")
  end.

Definition json_dumps (d : dict) : SecretString := JsonObject d.

(** ** The secrets store *)

Record Version := mkVersion {
  version_id : string;
  secret_string : SecretString;
  stages : list string
}.

Record Secret := mkSecret {
  secret_name : string;
  versions : list Version
}.

(** The store, keyed by secret identifier. *)
Abbreviation Store := (gmap string Secret).

Definition has_id (vid : string) (v : Version) : bool :=
  bool_decide (version_id v = vid).
Definition has_stage (stage : string) (v : Version) : bool :=
  bool_decide (stage ∈ stages v).

Definition remove_stage (stage : string) (v : Version) : Version :=
  mkVersion (version_id v) (secret_string v)
            (filter (fun l => l ≠ stage) (stages v)).
Definition remove_stages (ls : list string) (v : Version) : Version :=
  mkVersion (version_id v) (secret_string v)
            (filter (fun l => l ∉ ls) (stages v)).
Definition add_stage (stage : string) (v : Version) : Version :=
  if has_stage stage v then v
  else mkVersion (version_id v) (secret_string v) (stages v ++ [stage]).

Definition AWSCURRENT : string := "AWSCURRENT".
Definition AWSPENDING : string := "AWSPENDING".
Definition AWSPREVIOUS : string := "AWSPREVIOUS".

Definition ResourceNotFoundException : Exc := ClientError "ResourceNotFoundException".
Definition ResourceExistsException : Exc := ClientError "ResourceExistsException".
Definition InvalidRequestException : Exc := ClientError "InvalidRequestException".
Definition InvalidParameterException : Exc := ClientError "InvalidParameterException".

(** ** Database calls and notifications *)

(** The keyword arguments of [psycopg2.connect] / [pymysql.connect]. *)
Record ConnParams := mkConn {
  host : option JVal;
  port : JVal;
  database : option JVal;
  user : option JVal;
  password : option JVal;
  connect_timeout : option Z
}.

(** One session with a database: connect, run one statement, close. *)
Inductive DbCall :=
| PgAlterUser (conn : ConnParams) (username new_password : option JVal)
| MysqlAlterUser (conn : ConnParams) (username new_password : option JVal)
| PgSelect1 (conn : ConnParams)
| MysqlSelect1 (conn : ConnParams).

Inductive Event :=
| Db (c : DbCall)
| Publish (topic subject message : string).

(** What the handler cannot decide itself: the entropy behind [secrets], the
    process environment, the database driver (an error message, or the first
    column of the row fetched) and the notification service. *)
Record Env := mkEnv {
  entropy : nat -> nat;
  environ : gmap string string;
  driver : DbCall -> string + Z;
  sns_publish : string -> string -> string -> option Exc
}.

(** The state the handler acts on: the secrets store, the number of random
    draws made so far, and the external calls made (oldest first). *)
Record St := mkSt {
  store : Store;
  drawn : nat;
  events : list Event
}.

Definition set_store (st : Store) (s : St) : St := mkSt st (drawn s) (events s).
Definition emit (e : Event) (s : St) : St := mkSt (store s) (drawn s) (events s ++ [e]).

(** ** The secrets-store client

    The operations of the Secrets Manager client the handler calls, on the
    store held in the state.  A response is the version found
    ([SecretString], [VersionId]). *)

Definition lookup_secret (sid : string) (s : St) : Result Secret :=
  match store s !! sid with
  | Some sec => Ok sec
  | None => Err ResourceNotFoundException
  end.

(** [describe_secret(SecretId=...)]: the metadata, of which [Name] is read. *)
Definition describe_secret (sid : string) : M St string :=
  fun s => match lookup_secret sid s with
           | Ok sec => (Ok (secret_name sec), s)
           | Err e => (Err e, s)
           end.

(** [get_secret_value(SecretId=..., VersionId=..., VersionStage=...)].  With
    both a version id and a stage, they must name the same version. *)
Definition get_secret_value (sid : string) (vid stage : option string)
  : M St Version :=
  fun s =>
    match lookup_secret sid s with
    | Err e => (Err e, s)
    | Ok sec =>
      match vid with
      | Some v =>
        match find (has_id v) (versions sec) with
        | None => (Err ResourceNotFoundException, s)
        | Some ver =>
          match stage with
          | Some l => if has_stage l ver then (Ok ver, s)
                      else (Err InvalidRequestException, s)
          | None => (Ok ver, s)
          end
        end
      | None =>
        match find (has_stage (default AWSCURRENT stage)) (versions sec) with
        | None => (Err ResourceNotFoundException, s)
        | Some ver => (Ok ver, s)
        end
      end
    end.

(** [put_secret_value(SecretId=..., ClientRequestToken=..., SecretString=...,
    VersionStages=...)].  The token is the id of the new version.  A version
    with that id and the same content makes the request a no-op, one with
    another content is an error; otherwise the version is created and the
    given labels move to it. *)
Definition put_secret_value (sid token : string) (text : SecretString)
    (labels : list string) : M St unit :=
  fun s =>
    match lookup_secret sid s with
    | Err e => (Err e, s)
    | Ok sec =>
      match find (has_id token) (versions sec) with
      | Some ver =>
        if decide (secret_string ver = text) then (Ok tt, s)
        else (Err ResourceExistsException, s)
      | None =>
        let vs := map (remove_stages labels) (versions sec)
                  ++ [mkVersion token text labels] in
        (Ok tt, set_store (<[sid := mkSecret (secret_name sec) vs]> (store s)) s)
      end
    end.

(** Keyword arguments, as the call site writes them. *)
Abbreviation kwargs := (list (string * string)).

Definition kwarg (name : string) (kw : kwargs) : option string :=
  snd <$> find (fun p => bool_decide (fst p = name)) kw.

(** The members of the input shape of [UpdateSecretVersionStage]. *)
Definition update_secret_version_stage_members : list string :=
  ["SecretId"; "VersionStage"; "RemoveFromVersionId"; "MoveToVersionId"].

(** botocore validates the keyword arguments against the input shape of the
    operation before anything is sent: a keyword that is not a member of the
    shape, or a missing required member, raises [ParamValidationError]. *)
Definition validate_kwargs (members required : list string) (kw : kwargs)
  : Result unit :=
  match find (fun p => bool_decide (fst p ∉ members)) kw with
  | Some p => Err (ParamValidationError
                     ("Unknown parameter in input: " +:+ dquote +:+ fst p +:+ dquote))
  | None =>
    match find (fun r => bool_decide (kwarg r kw = None)) required with
    | Some r => Err (ParamValidationError
                       ("Missing required parameter in input: " +:+ dquote +:+ r +:+ dquote))
    | None => Ok tt
    end
  end.

(** The service side of [UpdateSecretVersionStage]: the label is removed
    from [RemoveFromVersionId], which must hold it, and attached to
    [MoveToVersionId], which must exist; a label held by another version can
    only move when that version is named as [RemoveFromVersionId].  Moving
    [AWSCURRENT] moves [AWSPREVIOUS] to the version that lost it. *)
Definition relabel (stage : string) (rm mv : option string) (v : Version) : Version :=
  let v := if bool_decide (rm = Some (version_id v)) then remove_stage stage v else v in
  let v := if bool_decide (mv = Some (version_id v)) then add_stage stage v else v in
  if bool_decide (stage = AWSCURRENT /\ is_Some mv /\ is_Some rm /\ rm <> mv) then
    if bool_decide (rm = Some (version_id v)) then add_stage AWSPREVIOUS v
    else remove_stage AWSPREVIOUS v
  else v.

Definition move_stage (stage : string) (rm mv : option string)
    (vs : list Version) : Result (list Version) :=
  let holder := version_id <$> find (has_stage stage) vs in
  if bool_decide (is_Some rm /\ rm <> holder) then Err InvalidParameterException
  else if bool_decide (is_Some mv /\ from_option (fun m => find (has_id m) vs) None mv = None)
  then Err ResourceNotFoundException
  else if bool_decide (is_Some mv /\ is_Some holder /\ holder <> mv /\ rm <> holder)
  then Err InvalidParameterException
  else Ok (map (relabel stage rm mv) vs).

(** [update_secret_version_stage] called with the keywords [kw]. *)
Definition update_secret_version_stage (kw : kwargs) : M St unit :=
  fun s =>
    match validate_kwargs update_secret_version_stage_members
                          ["SecretId"; "VersionStage"] kw with
    | Err e => (Err e, s)
    | Ok _ =>
      let sid := default "" (kwarg "SecretId" kw) in
      let stage := default "" (kwarg "VersionStage" kw) in
      match lookup_secret sid s with
      | Err e => (Err e, s)
      | Ok sec =>
        match move_stage stage (kwarg "RemoveFromVersionId" kw)
                         (kwarg "MoveToVersionId" kw) (versions sec) with
        | Err e => (Err e, s)
        | Ok vs =>
          (Ok tt, set_store (<[sid := mkSecret (secret_name sec) vs]> (store s)) s)
        end
      end
    end.

(** ** The handler *)

Definition PASSWORD_LENGTH : nat := 32.

Definition ascii_lowercase : string := "abcdefghijklmnopqrstuvwxyz".
Definition ascii_uppercase : string := "ABCDEFGHIJKLMNOPQRSTUVWXYZ".
Definition ascii_letters : string := ascii_lowercase +:+ ascii_uppercase.
Definition digits : string := "0123456789".
Definition symbols : string := "!@#$%^&*".
Definition PASSWORD_CHARSET : string := ascii_letters +:+ digits +:+ symbols.

(** [s.split(':')[-1]]: what follows the last colon. *)
Fixpoint last_segment_from (acc s : string) : string :=
  match s with
  | EmptyString => acc
  | String c s =>
    if Ascii.eqb c ":"%char then last_segment_from EmptyString s
    else last_segment_from (acc +:+ String c EmptyString) s
  end.
Definition last_segment (s : string) : string := last_segment_from EmptyString s.

Section Handler.
Variable env : Env.

(** *** Randomness: [secrets] *)

(** [randbelow(n)]: one draw, reduced below [n]. *)
Definition randbelow (n : nat) : M St nat :=
  fun s => (Ok (entropy env (drawn s) mod n),
            mkSt (store s) (S (drawn s)) (events s)).

(** [secrets.choice(seq)] *)
Definition choice (seq : string) : M St ascii :=
  let seq := list_ascii_of_string seq in
  if bool_decide (length seq = 0) then
    raise (IndexError "Cannot choose from an empty sequence")
  else
    do k <- randbelow (length seq);
    match seq !! k with
    | Some c => ret c
    | None => raise (IndexError "string index out of range")
    end.

(** [x[i], x[j] = x[j], x[i]] *)
Definition swap (x : list ascii) (i j : nat) : M St (list ascii) :=
  match x !! j, x !! i with
  | Some xj, Some xi => ret (<[j := xi]> (<[i := xj]> x))
  | _, _ => raise (IndexError "list index out of range")
  end.

(** The loop of [shuffle]: [for i in reversed(range(1, n + 1))]. *)
Fixpoint shuffle_loop (n : nat) (x : list ascii) : M St (list ascii) :=
  match n with
  | 0 => ret x
  | S n' =>
    let i := n in
    do j <- randbelow (i + 1);
    do x <- swap x i j;
    shuffle_loop n' x
  end.

(** [secrets.SystemRandom().shuffle(x)] *)
Definition shuffle (x : list ascii) : M St (list ascii) :=
  shuffle_loop (length x - 1) x.

(** The loop [for _ in range(n): password.append(secrets.choice(...))]. *)
Fixpoint fill (n : nat) (password : list ascii) : M St (list ascii) :=
  match n with
  | 0 => ret password
  | S n' =>
    do c <- choice PASSWORD_CHARSET;
    fill n' (password ++ [c])
  end.

Definition generate_password : M St string :=
  (* Ensure password has at least one character from each category *)
  do c1 <- choice ascii_lowercase;
  do c2 <- choice ascii_uppercase;
  do c3 <- choice digits;
  do c4 <- choice symbols;
  let password := [c1; c2; c3; c4] in
  (* Fill remaining length with random characters *)
  do password <- fill (PASSWORD_LENGTH - 4) password;
  (* Shuffle the password *)
  do password <- shuffle password;
  ret (string_of_list_ascii password).

(** *** Database sessions *)

Definition db_call (c : DbCall) : M St Z :=
  fun s => (match driver env c with
            | inl msg => Err (DriverError msg)
            | inr z => Ok z
            end, emit (Db c) s).

(** The [except Exception as e: logger.error(...); raise] clauses only
    log: they leave outcome and state as they are. *)
Definition log_and_reraise {A} (m : M St A) : M St A :=
  try_except m (fun e => raise e).

Definition set_postgres_password (current_secret new_secret : dict) : M St unit :=
  log_and_reraise (
    (* Connect using current admin credentials *)
    let conn := mkConn (current_secret !! "host")
                       (default (JNum 5432) (current_secret !! "port"))
                       (Some (default (JStr "postgres") (current_secret !! "dbname")))
                       (current_secret !! "username")
                       (current_secret !! "password")
                       None in
    (* Update password for the user *)
    let username := new_secret !! "username" in
    let new_password := new_secret !! "password" in
    do _ <- db_call (PgAlterUser conn username new_password);
    ret tt).

Definition set_mysql_password (current_secret new_secret : dict) : M St unit :=
  log_and_reraise (
    let conn := mkConn (current_secret !! "host")
                       (default (JNum 3306) (current_secret !! "port"))
                       (current_secret !! "dbname")
                       (current_secret !! "username")
                       (current_secret !! "password")
                       None in
    let username := new_secret !! "username" in
    let new_password := new_secret !! "password" in
    do _ <- db_call (MysqlAlterUser conn username new_password);
    ret tt).

Definition test_postgres_connection (secret_data : dict) : M St unit :=
  log_and_reraise (
    let conn := mkConn (secret_data !! "host")
                       (default (JNum 5432) (secret_data !! "port"))
                       (Some (default (JStr "postgres") (secret_data !! "dbname")))
                       (secret_data !! "username")
                       (secret_data !! "password")
                       (Some 10%Z) in
    do result <- db_call (PgSelect1 conn);
    if bool_decide (result ≠ 1%Z) then
      raise (PlainException "Database test query failed")
    else ret tt).

Definition test_mysql_connection (secret_data : dict) : M St unit :=
  log_and_reraise (
    let conn := mkConn (secret_data !! "host")
                       (default (JNum 3306) (secret_data !! "port"))
                       (secret_data !! "dbname")
                       (secret_data !! "username")
                       (secret_data !! "password")
                       (Some 10%Z) in
    do result <- db_call (MysqlSelect1 conn);
    if bool_decide (result ≠ 1%Z) then
      raise (PlainException "Database test query failed")
    else ret tt).

(** *** Notification *)

(** [send_rotation_notification]: every exception is swallowed. *)
Definition send_rotation_notification (secret_arn status : string)
    (error_message : option string) : M St unit :=
  try_except (
    match environ env !! "SNS_TOPIC_ARN" with
    | None => ret tt
    | Some topic_arn =>
      if negb (truthy topic_arn) then ret tt
      else
        let secret_name := last_segment secret_arn in
        let '(subject, message) :=
          if bool_decide (status = "SUCCESS") then
            ("Secret Rotation Successful: " +:+ secret_name,
             "Secret rotation completed successfully for " +:+ secret_name)
          else
            ("Secret Rotation Failed: " +:+ secret_name,
             "Secret rotation failed for " +:+ secret_name +:+ ". Error: "
               +:+ default "None" error_message) in
        fun s => (match sns_publish env topic_arn subject message with
                  | None => Ok tt
                  | Some e => Err e
                  end, emit (Publish topic_arn subject message) s)
    end)
    (fun _ => (* Don't raise exception for notification failures *) ret tt).

(** *** The four steps *)

Definition get_current_version_id (secret_arn : string) : M St string :=
  log_and_reraise (
    do current_secret <- get_secret_value secret_arn None (Some AWSCURRENT);
    ret (version_id current_secret)).

(** Step 1: create new secret version with new password. *)
Definition create_secret (secret_arn client_request_token : string) : M St unit :=
  log_and_reraise (
    (* Check if pending secret already exists *)
    do exists_ <-
      try_except
        (do _ <- get_secret_value secret_arn (Some client_request_token)
                                  (Some AWSPENDING);
         ret true)
        (fun e => if decide (e = ResourceNotFoundException) then ret false
                  else raise e);
    if exists_ : bool then
      (* Pending secret already exists, skipping creation *)
      ret tt
    else
      (* Get current secret *)
      do current_secret <- get_secret_value secret_arn None (Some AWSCURRENT);
      do current_secret_data <- lift (json_loads (secret_string current_secret));
      (* Generate new password *)
      do new_password <- generate_password;
      (* Create new secret version *)
      let new_secret_data :=
        <["password" := JStr new_password]> current_secret_data in
      (* Store new secret version *)
      put_secret_value secret_arn client_request_token
                       (json_dumps new_secret_data) [AWSPENDING]).

Definition unsupported_engine (engine : JVal) : Exc :=
  ValueError ("Unsupported database engine: " +:+ str_jval engine).

(** Step 2: set the new password in the database. *)
Definition set_secret (secret_arn client_request_token : string) : M St unit :=
  log_and_reraise (
    (* Get pending secret *)
    do pending_secret <- get_secret_value secret_arn (Some client_request_token)
                                          (Some AWSPENDING);
    do pending_secret_data <- lift (json_loads (secret_string pending_secret));
    (* Get current secret for admin credentials *)
    do current_secret <- get_secret_value secret_arn None (Some AWSCURRENT);
    do current_secret_data <- lift (json_loads (secret_string current_secret));
    (* Determine database type and update password *)
    match current_secret_data !! "engine" with
    | Some engine =>
      if bool_decide (engine ∈ [JStr "postgres"; JStr "postgresql"]) then
        set_postgres_password current_secret_data pending_secret_data
      else if bool_decide (engine = JStr "mysql") then
        set_mysql_password current_secret_data pending_secret_data
      else raise (unsupported_engine engine)
    | None =>
      (* Default to PostgreSQL for Supabase *)
      set_postgres_password current_secret_data pending_secret_data
    end).

(** Step 3: test the new secret by connecting to the database. *)
Definition test_secret (secret_arn client_request_token : string) : M St unit :=
  log_and_reraise (
    (* Get pending secret *)
    do pending_secret <- get_secret_value secret_arn (Some client_request_token)
                                          (Some AWSPENDING);
    do pending_secret_data <- lift (json_loads (secret_string pending_secret));
    (* Test database connection with new credentials *)
    match pending_secret_data !! "engine" with
    | Some engine =>
      if bool_decide (engine ∈ [JStr "postgres"; JStr "postgresql"]) then
        test_postgres_connection pending_secret_data
      else if bool_decide (engine = JStr "mysql") then
        test_mysql_connection pending_secret_data
      else raise (unsupported_engine engine)
    | None =>
      (* Default to PostgreSQL for Supabase *)
      test_postgres_connection pending_secret_data
    end).

(** Step 4: finalize rotation by moving AWSPENDING to AWSCURRENT. *)
Definition finish_secret (secret_arn client_request_token : string) : M St unit :=
  try_except (
    (* Update version stages *)
    do current_version_id <- get_current_version_id secret_arn;
    do _ <- update_secret_version_stage
              [("SecretId", secret_arn);
               ("VersionStage", AWSCURRENT);
               ("ClientRequestToken", client_request_token);
               ("RemoveFromVersionId", current_version_id)];
    (* Send notification about successful rotation *)
    send_rotation_notification secret_arn "SUCCESS" None)
    (fun e =>
       (* Send failure notification *)
       do _ <- send_rotation_notification secret_arn "FAILED" (Some (str_exc e));
       raise e).

(** *** The entry point *)

Record Response := mkResponse {
  statusCode : Z;
  message : string;
  secretArn : string
}.

(** [event[key]] *)
Definition getitem (event : gmap string string) (key : string) : M St string :=
  match event !! key with
  | Some v => ret v
  | None => raise (KeyError key)
  end.

Definition lambda_handler (event : gmap string string) : M St Response :=
  log_and_reraise (
    (* Extract parameters from event *)
    do secret_arn <- getitem event "SecretId";
    do client_request_token <- getitem event "ClientRequestToken";
    do step <- getitem event "Step";
    (* Get secret metadata *)
    do secret_name <- describe_secret secret_arn;
    (* Route to appropriate step handler *)
    do _ <-
      (if bool_decide (step = "createSecret") then
         create_secret secret_arn client_request_token
       else if bool_decide (step = "setSecret") then
         set_secret secret_arn client_request_token
       else if bool_decide (step = "testSecret") then
         test_secret secret_arn client_request_token
       else if bool_decide (step = "finishSecret") then
         finish_secret secret_arn client_request_token
       else raise (ValueError ("Invalid step: " +:+ step)));
    ret (mkResponse 200
           ("Secret rotation step " +:+ step +:+ " completed successfully")
           secret_arn)).

(** *** The health check *)

(** What [health_check] returns: the keys ['services'] and ['error'] are
    there in one of the two answers only. *)
Record Health := mkHealth {
  health_status : string;
  health_timestamp : string;
  health_services : option (list (string * string));
  health_error : option string
}.

Definition hex_digits : string := "0123456789abcdef".

(** One byte as two lowercase hexadecimal digits, the high one first. *)
Definition hexlify_byte (b : nat) : string :=
  String (default "0"%char (list_ascii_of_string hex_digits !! (b / 16)))
    (String (default "0"%char (list_ascii_of_string hex_digits !! (b mod 16)))
       EmptyString).

(** [secrets.token_hex(nbytes)]: [nbytes] random bytes, in hexadecimal. *)
Fixpoint token_hex (nbytes : nat) : M St string :=
  match nbytes with
  | 0 => ret EmptyString
  | S n =>
    do b <- randbelow 256;
    do rest <- token_hex n;
    ret (hexlify_byte b +:+ rest)
  end.

(** [json.dumps] of a string of hexadecimal digits: nothing to escape, the
    string goes between double quotes. *)
Definition json_dumps_hex (token : string) : string := dquote +:+ token +:+ dquote.

(** [health_check]; [list_secrets] is what the call
    [secrets_client.list_secrets(MaxResults=1)] answers. *)
Definition health_check (list_secrets : Result unit) : M St Health :=
  try_except (
    (* Test AWS service connectivity *)
    do _ <- lift list_secrets;
    do token <- token_hex 8;
    ret (mkHealth "healthy" (json_dumps_hex token)
                  (Some [("secrets_manager", "connected"); ("rds", "connected")])
                  None))
    (fun e =>
       do token <- token_hex 8;
       ret (mkHealth "unhealthy" (json_dumps_hex token) None (Some (str_exc e)))).

End Handler.

(** ** Properties of passwords and stores the statements below use *)

(** [password] contains a character of the class [cls]. *)
Definition contains_one_of (cls password : string) : Prop :=
  exists c, c ∈ list_ascii_of_string password /\ c ∈ list_ascii_of_string cls.

(** The versions of the secret [sid] that carry the label [stage]. *)
Definition labelled (stage sid : string) (st : Store) : list Version :=
  filter (fun v => stage ∈ stages v) (from_option versions [] (st !! sid)).

(** [s] after [n] more draws. *)
Definition drew (n : nat) (s : St) : St := mkSt (store s) (drawn s + n) (events s).

(** The step names of the rotation protocol. *)
Definition step_names : list string :=
  ["createSecret"; "setSecret"; "testSecret"; "finishSecret"].

(** An event of the rotation service for the sample secret. *)
Definition sample_event (step : string) : gmap string string :=
  <["SecretId" := "arn:aws:secretsmanager:eu-west-1:1234:secret:db"]>
    (<["ClientRequestToken" := "tok"]> (<["Step" := step]> ∅)).

(** Identity and content of a version, its labels apart. *)
Definition content (v : Version) : string * SecretString :=
  (version_id v, secret_string v).

(** The database call [ev] runs one statement over a connection opened with
    the credentials of the record [d]. *)
Definition connects_as (d : dict) (ev : Event) : Prop :=
  exists c conn,
    ev = Db c /\
    (c = PgSelect1 conn \/ c = MysqlSelect1 conn \/
     (exists u p, c = PgAlterUser conn u p \/ c = MysqlAlterUser conn u p)) /\
    host conn = d !! "host" /\ user conn = d !! "username" /\
    password conn = d !! "password".

(** The database call [ev] is an [ALTER USER] that gives the account of the
    record [d] the password of [d]. *)
Definition alters_user_of (d : dict) (ev : Event) : Prop :=
  exists conn,
    ev = Db (PgAlterUser conn (d !! "username") (d !! "password")) \/
    ev = Db (MysqlAlterUser conn (d !! "username") (d !! "password")).

(** [e] is the error [set_secret] and [test_secret] raise on an engine they
    do not know. *)
Definition is_unsupported_engine_error (e : Exc) : Prop :=
  exists engine, e = unsupported_engine engine.

Definition supported_engines : list JVal :=
  [JStr "postgres"; JStr "postgresql"; JStr "mysql"].

(** [s'] is [s] after some random draws: same store, same external calls. *)
Definition only_drew (s s' : St) : Prop :=
  store s' = store s /\ events s' = events s.

(** What [get_secret_value] answers on a store; it reads the store only. *)
Definition peek (sid : string) (vid stage : option string) (st : Store) : Result Version :=
  fst (get_secret_value sid vid stage (mkSt st 0 [])).

(** The store [put_secret_value] leaves when it creates the version. *)
Definition with_pending (sid token : string) (text : SecretString) (sec : Secret)
    (st : Store) : Store :=
  <[sid := mkSecret (secret_name sec)
             (map (remove_stages [AWSPENDING]) (versions sec)
              ++ [mkVersion token text [AWSPENDING]])]> st.

(** Whether [create_secret] gets as far as creating a version is decided by
    the store alone: the secret and the current record it then works from. *)
Definition writes (arn tok : string) (st : Store) : option (Secret * dict) :=
  match peek arn (Some tok) (Some AWSPENDING) st with
  | Err e =>
    if decide (e = ResourceNotFoundException) then
      match peek arn None (Some AWSCURRENT) st with
      | Ok cur =>
        match json_loads (secret_string cur), st !! arn with
        | Ok d, Some sec =>
          match find (has_id tok) (versions sec) with
          | None => Some (sec, d)
          | Some _ => None
          end
        | _, _ => None
        end
      | Err _ => None
      end
    else None
  | Ok _ => None
  end.

(** ** A concrete secret, for runs of the handler

    One secret whose current version [v1] holds a record, by default one
    without an ['engine'] key; [sample_rotating] is the state once
    [createSecret] has added the pending version [tok]. *)

Definition sample_arn : string := "arn:aws:secretsmanager:eu-west-1:1234:secret:db".

Definition sample_record : dict :=
  <["username" := JStr "app"]> (<["password" := JStr "old-password"]> ∅).

Definition sample_store_of (record : dict) : Store :=
  <[sample_arn := mkSecret "db" [mkVersion "v1" (JsonObject record) [AWSCURRENT]]]> ∅.

Definition sample_store : Store := sample_store_of sample_record.

Definition sample_env : Env :=
  mkEnv (fun n => 7 * n + 3) (<["SNS_TOPIC_ARN" := "arn:aws:sns:rotation"]> ∅)
        (fun _ => inr 1%Z) (fun _ _ _ => None).

Definition sample_state : St := mkSt sample_store 0 [].

Definition sample_rotating_of (record : dict) : St :=
  snd (create_secret sample_env sample_arn "tok" (mkSt (sample_store_of record) 0 [])).

Definition sample_rotating : St := sample_rotating_of sample_record.

End Rotation.

(* ===================================================================== *)
(** * The maintenance handler ([db-maintenance.py]) *)
(* ===================================================================== *)

Module Maintenance.

Open Scope py_scope.

(** ** Data *)

(** A cell of a row fetched from the database. *)
Inductive Cell :=
| CNull
| CInt (z : Z)
| CText (s : string)
| COther (repr : string).

Abbreviation Row := (list Cell).

(** A row of the table-size query of the disk-usage check; the last column
    is the one the check reads ([t[5]]). *)
Record TableSize := mkTableSize {
  schemaname : string;
  tablename : string;
  total_size : string;
  table_size : string;
  index_size : string;
  total_size_bytes : Z
}.

(** The ['details'] entry of a result, one shape per task. *)
Inductive Details :=
| PerformanceDetails (slow_queries large_tables : list Row) (database_size : string)
| StatisticsDetails (analyzed_tables : list string) (total_tables_needing_analysis : nat)
| CleanupDetails (audit_logs_deleted cache_entries_deleted jobs_deleted
                  sessions_deleted total_deleted : Z)
| DiskDetails (database_size : string) (top_tables : list TableSize)
              (unused_indexes : list Row)
| BlockingDetails (blocking_queries long_running_queries : list Row).

(** A maintenance result: the dict a check returns.  ['task'] and
    ['status'] are always there; a key a result may lack is an [option]
    ([None]: the key is absent). *)
Record TaskResult := mkResult {
  task : string;
  status : string;
  severity : option string;
  issues : option (list string);
  metrics : option (list (string * Z));
  message : option string;
  details : option Details;
  error : option string
}.

Record Summary := mkSummary {
  total_tasks : nat;
  completed_tasks : nat;
  failed_tasks : nat;
  critical_issues : nat;
  warning_issues : nat
}.

Record Report := mkReport {
  timestamp : string;
  overall_status : string;
  summary : Summary;
  tasks : list TaskResult
}.

Record Body := mkBody {
  body_message : string;
  results : list TaskResult;
  report : Report
}.

Record Response := mkResponse {
  statusCode : Z;
  body : Body
}.

(** What [get_database_connection] returns. *)
Record DbConnection := mkDbConnection {
  conn_host : string;
  conn_port : Z;
  conn_database : string;
  conn_username : string;
  conn_password : string;
  conn_engine : string
}.

(** An entry of [DBInstances] in the answer of [describe_db_instances]. *)
Record DbInstance := mkDbInstance {
  TagList : option (list (string * string));
  Endpoint_Address : string;
  Endpoint_Port : Z;
  DBName : option string;
  Engine : string
}.

Record MetricDatum := mkMetricDatum {
  MetricName : string;
  Value : Z;
  Unit : string;
  Dimensions : list (string * string)
}.

(** What each check reads from the database. *)
Record PerformanceData := mkPerformanceData {
  perf_slow_queries : list Row;
  perf_db_size : string * string * Z;
  perf_large_tables : list Row;
  perf_connection_stats : Z * Z * Z
}.

Record StatisticsData := mkStatisticsData {
  tables_to_analyze : list (string * string);
  analyze_raises : string -> string -> bool;
  commit_raises : option Exc
}.

Record CleanupData := mkCleanupData {
  audit_logs_rowcount : Z;
  cache_entries_rowcount : Z;
  jobs_rowcount : Z;
  sessions_rowcount : Z
}.

Record DiskData := mkDiskData {
  disk_db_size : string * Z;
  disk_table_sizes : list TableSize;
  disk_unused_indexes : list Row
}.

Record BlockingData := mkBlockingData {
  blocking_rows : list Row;
  long_rows : list Row
}.

Inductive Event :=
| Session (task : string) (conn : DbConnection)
| PutMetricData (namespace : string) (data : list MetricDatum)
| Publish (topic subject message : string).

(** The outside of the handler.  A database session of a check (connect,
    run the statements, fetch, close) either raises or hands over what was
    fetched; the other fields are the process environment, the clock, the
    three service clients and [json.dumps] on the response body (the
    exception it raises, if any). *)
Record Env := mkEnv {
  environ : gmap string string;
  utcnow : string;
  describe_db_instances : string -> Result (list DbInstance);
  describe_secret : string -> Result string;
  get_secret_value : string -> Result (gmap string string);
  performance_session : DbConnection -> Result PerformanceData;
  statistics_session : DbConnection -> Result StatisticsData;
  cleanup_session : DbConnection -> Result CleanupData;
  disk_session : DbConnection -> Result DiskData;
  blocking_session : DbConnection -> Result BlockingData;
  put_metric_data : string -> list MetricDatum -> option Exc;
  sns_publish : string -> string -> string -> option Exc;
  json_dumps : Body -> option Exc
}.

(** The state: the external calls made so far, oldest first. *)
Abbreviation St := (list Event).

Definition emit (e : Event) : M St unit := fun s => (Ok tt, s ++ [e]).

(** The result every check returns from its [except] clause. *)
Definition failed_result (name : string) (e : Exc) : TaskResult :=
  mkResult name "failed" (Some "critical") None None None None (Some (str_exc e)).

Definition GB : Z := 1024 * 1024 * 1024.

(** [s.upper()] *)
Definition upper_char (c : ascii) : ascii :=
  let n := nat_of_ascii c in
  if bool_decide (97 ≤ n ≤ 122) then ascii_of_nat (n - 32) else c.
Fixpoint upper (s : string) : string :=
  match s with
  | EmptyString => EmptyString
  | String c s => String (upper_char c) (upper s)
  end.

Definition newline : string := String (ascii_of_nat 10) EmptyString.

Section Handler.
Variable env : Env.

(** ** Connection details *)

(** The loop over [TagList]: the value of the first tag named [SecretArn]. *)
Definition secret_arn_tag (tags : list (string * string)) : option string :=
  snd <$> find (fun tag => bool_decide (fst tag = "SecretArn")) tags.

Definition get_database_connection (db_instance_id : string) : M St DbConnection :=
  try_except (
    (* Get RDS instance details *)
    do instances <- lift (describe_db_instances env db_instance_id);
    do db_instance <- match instances with
                      | i :: _ => ret i
                      | [] => raise (IndexError "list index out of range")
                      end;
    (* Get connection details from secrets manager *)
    let secret_arn := secret_arn_tag (default [] (TagList db_instance)) in
    do secret_arn <-
      (if truthy (default "" secret_arn) then ret (default "" secret_arn)
       else
         (* Try to find secret by naming convention *)
         let secret_name := db_instance_id +:+ "-credentials" in
         try_except (lift (describe_secret env secret_name))
           (fun _ => raise (PlainException
              ("Could not find database credentials secret for " +:+ db_instance_id))));
    (* Get secret value *)
    do credentials <- lift (get_secret_value env secret_arn);
    do database <- match DBName db_instance with
                   | Some d => ret d
                   | None => raise (KeyError "DBName")
                   end;
    do username <- match credentials !! "username" with
                   | Some u => ret u
                   | None => raise (KeyError "username")
                   end;
    do password <- match credentials !! "password" with
                   | Some u => ret u
                   | None => raise (KeyError "password")
                   end;
    ret (mkDbConnection (Endpoint_Address db_instance) (Endpoint_Port db_instance)
                        database username password (Engine db_instance)))
    (fun e => raise e).

(** ** The five checks *)

(** [if c: issues.append(issue); severity = level] *)
Definition flag (c : bool) (issue level : string)
    (acc : list string * string) : list string * string :=
  if c then (fst acc ++ [issue], level) else acc.

(** [if c: issues.append(issue); if severity == 'info': severity = level] *)
Definition flag_if_info (c : bool) (issue level : string)
    (acc : list string * string) : list string * string :=
  if c then (fst acc ++ [issue],
             if bool_decide (snd acc = "info") then level else snd acc)
  else acc.

Definition nonempty {A} (l : list A) : bool :=
  match l with [] => false | _ :: _ => true end.

Definition analyze_database_performance (db_connection : DbConnection)
  : M St TaskResult :=
  try_except (
    do _ <- emit (Session "performance_analysis" db_connection);
    do d <- lift (performance_session env db_connection);
    let slow_queries := perf_slow_queries d in
    let '(_, db_size_1, db_size_2) := perf_db_size d in
    let large_tables := perf_large_tables d in
    let '(connection_stats_0, connection_stats_1, connection_stats_2) :=
      perf_connection_stats d in
    (* Analyze results *)
    let acc := ([], "info") in
    let acc := flag (nonempty slow_queries)
      ("Found " +:+ pretty (length slow_queries) +:+ " slow queries (>1s)")
      "warning" acc in
    let acc := flag (bool_decide (connection_stats_1 > 50)%Z)
      ("High active connection count: " +:+ pretty connection_stats_1)
      "warning" acc in
    let acc := flag (bool_decide (db_size_2 > 100 * GB)%Z)
      ("Large database size: " +:+ db_size_1) "warning" acc in
    let '(issues, severity) := acc in
    ret (mkResult "performance_analysis" "completed" (Some severity) (Some issues)
           (Some [("slow_queries_count", Z.of_nat (length slow_queries));
                  ("database_size_bytes", db_size_2);
                  ("total_connections", connection_stats_0);
                  ("active_connections", connection_stats_1);
                  ("idle_connections", connection_stats_2)])
           None
           (Some (PerformanceDetails (take 5 slow_queries) (take 5 large_tables)
                                     db_size_1))
           None))
    (fun e => ret (failed_result "performance_analysis" e)).

(** The loop over [tables_to_analyze]: a table whose [ANALYZE] raises is
    logged and skipped. *)
Definition analyzed (d : StatisticsData) : list string :=
  (fun t => fst t +:+ "." +:+ snd t) <$>
    filter (fun t => analyze_raises d (fst t) (snd t) = false) (tables_to_analyze d).

Definition optimize_database_statistics (db_connection : DbConnection)
  : M St TaskResult :=
  try_except (
    do _ <- emit (Session "statistics_optimization" db_connection);
    do d <- lift (statistics_session env db_connection);
    let analyzed_tables := analyzed d in
    do _ <- match commit_raises d with
            | Some e => raise e
            | None => ret tt
            end;
    ret (mkResult "statistics_optimization" "completed" (Some "info") None None
           (Some ("Analyzed " +:+ pretty (length analyzed_tables) +:+ " tables"))
           (Some (StatisticsDetails analyzed_tables (length (tables_to_analyze d))))
           None))
    (fun e => ret (failed_result "statistics_optimization" e)).

Definition cleanup_old_data (db_connection : DbConnection) : M St TaskResult :=
  try_except (
    do _ <- emit (Session "data_cleanup" db_connection);
    do d <- lift (cleanup_session env db_connection);
    let audit_logs_deleted := audit_logs_rowcount d in
    let cache_entries_deleted := cache_entries_rowcount d in
    let jobs_deleted := jobs_rowcount d in
    let sessions_deleted := sessions_rowcount d in
    let total_deleted :=
      (audit_logs_deleted + cache_entries_deleted + jobs_deleted + sessions_deleted)%Z in
    let severity :=
      if bool_decide (total_deleted > 10000)%Z then "warning" else "info" in
    ret (mkResult "data_cleanup" "completed" (Some severity) None None
           (Some ("Cleaned up " +:+ pretty total_deleted +:+ " old records"))
           (Some (CleanupDetails audit_logs_deleted cache_entries_deleted
                                 jobs_deleted sessions_deleted total_deleted))
           None))
    (fun e => ret (failed_result "data_cleanup" e)).

Definition analyze_disk_usage (db_connection : DbConnection) : M St TaskResult :=
  try_except (
    do _ <- emit (Session "disk_usage_analysis" db_connection);
    do d <- lift (disk_session env db_connection);
    let '(db_size_0, db_size_1) := disk_db_size d in
    let table_sizes := disk_table_sizes d in
    let unused_indexes := disk_unused_indexes d in
    (* Analyze results *)
    let acc := ([], "info") in
    (* Check for large database *)
    let acc := flag (bool_decide (db_size_1 > 500 * GB)%Z)
      ("Very large database: " +:+ db_size_0) "warning" acc in
    (* Check for unused indexes *)
    let acc := flag_if_info (bool_decide (5 < length unused_indexes))
      ("Found " +:+ pretty (length unused_indexes) +:+ " potentially unused indexes")
      "warning" acc in
    (* Check for very large tables *)
    let large_tables :=
      filter (fun t => (total_size_bytes t > 50 * GB)%Z) table_sizes in
    let acc := flag_if_info (nonempty large_tables)
      ("Found " +:+ pretty (length large_tables) +:+ " very large tables (>50GB)")
      "warning" acc in
    let '(issues, severity) := acc in
    ret (mkResult "disk_usage_analysis" "completed" (Some severity) (Some issues)
           (Some [("total_database_size_bytes", db_size_1);
                  ("large_tables_count", Z.of_nat (length large_tables));
                  ("unused_indexes_count", Z.of_nat (length unused_indexes))])
           None
           (Some (DiskDetails db_size_0 (take 10 table_sizes) (take 10 unused_indexes)))
           None))
    (fun e => ret (failed_result "disk_usage_analysis" e)).

Definition check_blocking_queries (db_connection : DbConnection) : M St TaskResult :=
  try_except (
    do _ <- emit (Session "blocking_queries_check" db_connection);
    do d <- lift (blocking_session env db_connection);
    let blocking_queries := blocking_rows d in
    let long_queries := long_rows d in
    (* Analyze results *)
    let acc := ([], "info") in
    let acc := flag (nonempty blocking_queries)
      ("Found " +:+ pretty (length blocking_queries) +:+ " blocking queries")
      "critical" acc in
    let acc := flag_if_info (nonempty long_queries)
      ("Found " +:+ pretty (length long_queries) +:+ " long-running queries (>5 minutes)")
      "warning" acc in
    let '(issues, severity) := acc in
    ret (mkResult "blocking_queries_check" "completed" (Some severity) (Some issues)
           (Some [("blocking_queries_count", Z.of_nat (length blocking_queries));
                  ("long_running_queries_count", Z.of_nat (length long_queries))])
           None
           (Some (BlockingDetails blocking_queries (take 5 long_queries)))
           None))
    (fun e => ret (failed_result "blocking_queries_check" e)).

(** ** Metrics, report and notifications *)

(** The metrics one result contributes: those of its ['metrics'] entry
    when its status is ['completed'] and the key is there, none otherwise. *)
Definition result_metrics (db_instance_id : string) (result : TaskResult)
  : list MetricDatum :=
  match metrics result with
  | Some entries =>
    if bool_decide (status result = "completed") then
      (fun '(metric_name, metric_value) =>
         mkMetricDatum ("DB_" +:+ metric_name) metric_value "Count"
                       [("DBInstanceIdentifier", db_instance_id)]) <$> entries
    else []
  | None => []
  end.

(** The loop of [update_custom_metrics] over the results. *)
Definition collect_metrics (db_instance_id : string)
    (maintenance_results : list TaskResult) : list MetricDatum :=
  flat_map (result_metrics db_instance_id) maintenance_results.

Definition update_custom_metrics (db_instance_id : string)
    (maintenance_results : list TaskResult) : M St unit :=
  try_except (
    let metrics := collect_metrics db_instance_id maintenance_results in
    (* Send metrics to CloudWatch *)
    if nonempty metrics then
      do _ <- emit (PutMetricData "Prismy/Database" metrics);
      match put_metric_data env "Prismy/Database" metrics with
      | Some e => raise e
      | None => ret tt
      end
    else ret tt)
    (fun _ => (* logged, not raised *) ret tt).

Definition generate_maintenance_report (maintenance_results : list TaskResult)
  : Report :=
  let total_tasks := length maintenance_results in
  let completed_tasks := length (filter (fun r => status r = "completed") maintenance_results) in
  let failed_tasks := length (filter (fun r => status r = "failed") maintenance_results) in
  let critical_issues := filter (fun r => severity r = Some "critical") maintenance_results in
  let warning_issues := filter (fun r => severity r = Some "warning") maintenance_results in
  let overall_status :=
    if nonempty critical_issues then "critical"
    else if nonempty warning_issues then "warning"
    else "healthy" in
  mkReport (utcnow env) overall_status
    (mkSummary total_tasks completed_tasks failed_tasks
               (length critical_issues) (length warning_issues))
    maintenance_results.

(** The lines [send_alert_notification] appends for one critical result. *)
Definition issue_lines (issue : TaskResult) : string :=
  newline +:+ "- " +:+ task issue +:+ ": " +:+ default "Unknown error" (error issue)
  +:+ match issues issue with
      | Some ds => foldr (fun detail acc => newline +:+ "  * " +:+ detail +:+ acc)
                         EmptyString ds
      | None => EmptyString
      end.

Definition publish (topic subject msg : string) : M St unit :=
  do _ <- emit (Publish topic subject msg);
  match sns_publish env topic subject msg with
  | Some e => raise e
  | None => ret tt
  end.

(** The head of the alert message, up to the list of critical issues. *)
Definition alert_head (report : Report) : string :=
  newline +:+ "Database Maintenance Alert" +:+ newline +:+ newline
  +:+ "Overall Status: " +:+ upper (overall_status report) +:+ newline
  +:+ "Timestamp: " +:+ timestamp report +:+ newline +:+ newline
  +:+ "Summary:" +:+ newline
  +:+ "- Total Tasks: " +:+ pretty (total_tasks (summary report)) +:+ newline
  +:+ "- Completed: " +:+ pretty (completed_tasks (summary report)) +:+ newline
  +:+ "- Failed: " +:+ pretty (failed_tasks (summary report)) +:+ newline
  +:+ "- Critical Issues: " +:+ pretty (critical_issues (summary report)) +:+ newline
  +:+ "- Warning Issues: " +:+ pretty (warning_issues (summary report)) +:+ newline
  +:+ newline +:+ "Critical Issues:" +:+ newline.

Definition send_alert_notification (sns_topic_arn : string) (report : Report)
    (critical_issues : list TaskResult) : M St unit :=
  try_except (
    let subject := "Database Maintenance Alert - " +:+ upper (overall_status report) in
    let msg := alert_head report in
    let msg := foldl (fun m issue => m +:+ issue_lines issue) msg critical_issues in
    let msg := msg +:+ newline +:+ newline
               +:+ "Full report available in CloudWatch Logs." in
    publish sns_topic_arn subject msg)
    (fun _ => (* logged, not raised *) ret tt).

Definition send_failure_notification (sns_topic_arn : option string)
    (error_message : string) : M St unit :=
  try_except (
    if negb (truthy (default "" sns_topic_arn)) then ret tt
    else
      publish (default "" sns_topic_arn) "Database Maintenance Failed"
        (newline +:+ "Database maintenance failed with error:" +:+ newline +:+ newline
         +:+ error_message +:+ newline +:+ newline
         +:+ "Please check CloudWatch Logs for detailed error information." +:+ newline))
    (fun _ => (* logged, not raised *) ret tt).

(** ** The entry point *)

(** [os.environ[key]] *)
Definition getenv (key : string) : M St string :=
  match environ env !! key with
  | Some v => ret v
  | None => raise (KeyError key)
  end.

(** The part of [lambda_handler] between [maintenance_results = []] and the
    last [maintenance_results.append(...)]: tasks 1 to 5. *)
Definition perform_maintenance_tasks (db_connection : DbConnection)
  : M St (list TaskResult) :=
  let maintenance_results := [] in
  (* 1. Analyze database performance *)
  do performance_analysis <- analyze_database_performance db_connection;
  let maintenance_results := maintenance_results ++ [performance_analysis] in
  (* 2. Optimize database statistics *)
  do statistics_optimization <- optimize_database_statistics db_connection;
  let maintenance_results := maintenance_results ++ [statistics_optimization] in
  (* 3. Clean up old data *)
  do data_cleanup <- cleanup_old_data db_connection;
  let maintenance_results := maintenance_results ++ [data_cleanup] in
  (* 4. Analyze disk usage *)
  do disk_analysis <- analyze_disk_usage db_connection;
  let maintenance_results := maintenance_results ++ [disk_analysis] in
  (* 5. Check for blocking queries *)
  do blocking_queries <- check_blocking_queries db_connection;
  let maintenance_results := maintenance_results ++ [blocking_queries] in
  ret maintenance_results.

Definition lambda_handler : M St Response :=
  try_except (
    do db_instance_id <- getenv "DB_INSTANCE_ID";
    do sns_topic_arn <- getenv "SNS_TOPIC_ARN";
    (* Get database connection details *)
    do db_connection <- get_database_connection db_instance_id;
    (* Perform maintenance tasks *)
    do maintenance_results <- perform_maintenance_tasks db_connection;
    (* 6. Update CloudWatch metrics *)
    do _ <- update_custom_metrics db_instance_id maintenance_results;
    (* 7. Generate maintenance report *)
    let report := generate_maintenance_report maintenance_results in
    (* Send notification if critical issues found *)
    let critical_issues := filter (fun r => severity r = Some "critical") maintenance_results in
    do _ <- (if nonempty critical_issues then
               send_alert_notification sns_topic_arn report critical_issues
             else ret tt);
    let body := mkBody "Database maintenance completed" maintenance_results report in
    do _ <- match json_dumps env body with
            | Some e => raise e
            | None => ret tt
            end;
    ret (mkResponse 200 body))
    (fun e =>
       (* Send failure notification *)
       do _ <- try_except
                 (send_failure_notification (environ env !! "SNS_TOPIC_ARN") (str_exc e))
                 (fun _ => ret tt);
       raise e).

End Handler.

(** ** Notions the statements below use *)

(** [r] is the record of a failure of the task [name] with the exception
    [e]: status ['failed'], severity ['critical'], the text of [e]. *)
Definition records_failure (name : string) (e : Exc) (r : TaskResult) : Prop :=
  task r = name /\ status r = "failed" /\ severity r = Some "critical" /\
  error r = Some (str_exc e).

(** The environment [env] with another metrics sink. *)
Definition with_sink (sink : string -> list MetricDatum -> option Exc) (env : Env) : Env :=
  mkEnv (environ env) (utcnow env) (describe_db_instances env) (describe_secret env)
        (get_secret_value env) (performance_session env) (statistics_session env)
        (cleanup_session env) (disk_session env) (blocking_session env)
        sink (sns_publish env) (json_dumps env).

(** The statistics task fails when its session raises or when the final
    [commit] does. *)
Definition statistics_raises (env : Env) (conn : DbConnection) (e : Exc) : Prop :=
  statistics_session env conn = Err e \/
  exists d, statistics_session env conn = Ok d /\ commit_raises d = Some e.

(** The five sessions of one run, in the order of the tasks. *)
Definition five_sessions (conn : DbConnection) : list Event :=
  [Session "performance_analysis" conn; Session "statistics_optimization" conn;
   Session "data_cleanup" conn; Session "disk_usage_analysis" conn;
   Session "blocking_queries_check" conn].

(** The shape of what a check returns: completed, without an error text and
    with details, critical only for the blocking check; or failed and
    critical, with the error text and nothing else. *)
Definition check_result (r : TaskResult) : Prop :=
  (status r = "completed" /\ error r = None /\ is_Some (details r) /\
   (severity r = Some "info" \/ severity r = Some "warning" \/
    severity r = Some "critical" /\ task r = "blocking_queries_check")) \/
  (status r = "failed" /\ severity r = Some "critical" /\ is_Some (error r) /\
   metrics r = None /\ issues r = None /\ message r = None /\ details r = None).

(** The message of the failure notification for the error text [error_message]. *)
Definition failure_text (error_message : string) : string :=
  newline +:+ "Database maintenance failed with error:" +:+ newline +:+ newline
  +:+ error_message +:+ newline +:+ newline
  +:+ "Please check CloudWatch Logs for detailed error information." +:+ newline.

(** The calls a run makes after its sessions: to CloudWatch, when the
    results carry metrics, and to the topic, when the run fails with [e]. *)
Definition metrics_events (db_instance_id : string) (rs : list TaskResult) : list Event :=
  if nonempty (collect_metrics db_instance_id rs)
  then [PutMetricData "Prismy/Database" (collect_metrics db_instance_id rs)]
  else [].

Definition failure_events (env : Env) (e : Exc) : list Event :=
  match environ env !! "SNS_TOPIC_ARN" with
  | Some topic =>
    if truthy topic
    then [Publish topic "Database Maintenance Failed" (failure_text (str_exc e))]
    else []
  | None => []
  end.

(** The message of the alert for [report] and its critical results. *)
Definition alert_text (report : Report) (critical : list TaskResult) : string :=
  foldl (fun m issue => m +:+ issue_lines issue) (alert_head report) critical
  +:+ newline +:+ newline +:+ "Full report available in CloudWatch Logs.".

(** The call to the topic of a run with the results [rs]: the alert, when
    some result is critical. *)
Definition alert_events (env : Env) (topic : string) (rs : list TaskResult) : list Event :=
  let critical := filter (fun r => severity r = Some "critical") rs in
  if nonempty critical
  then [Publish topic "Database Maintenance Alert - CRITICAL"
          (alert_text (generate_maintenance_report env rs) critical)]
  else [].

(** The run from [s] fails with [e] before any task: a variable of the
    environment is missing, or the connection details cannot be had. *)
Definition early_failure (env : Env) (s : St) (e : Exc) : Prop :=
  match environ env !! "DB_INSTANCE_ID" with
  | None => e = KeyError "DB_INSTANCE_ID"
  | Some db_instance_id =>
    match environ env !! "SNS_TOPIC_ARN" with
    | None => e = KeyError "SNS_TOPIC_ARN"
    | Some _ => fst (get_database_connection env db_instance_id s) = Err e
    end
  end.

(** ** A concrete deployment, for runs of the handler

    One database instance tagged with its secret; every session answers with
    a small, quiet database, except the performance session, which is a
    parameter, as is the answer of the metrics sink. *)

Definition sample_instance : DbInstance :=
  mkDbInstance (Some [("Name", "prismy"); ("SecretArn", "arn:aws:secretsmanager:db")])
               "db.internal" 5432 (Some "prismy") "postgres".

Definition sample_performance : PerformanceData :=
  mkPerformanceData [] ("prismy", "12 MB", 12582912%Z) [] (7, 2, 5)%Z.

Definition sample_env (performance : Result PerformanceData) (sink : option Exc) : Env :=
  mkEnv (<["DB_INSTANCE_ID" := "prismy-db"]> (<["SNS_TOPIC_ARN" := "arn:aws:sns:alerts"]> ∅))
        "2024-01-01T00:00:00"
        (fun _ => Ok [sample_instance])
        (fun _ => Err (ClientError "ResourceNotFoundException"))
        (fun _ => Ok (<["username" := "admin"]> (<["password" := "hunter2"]> ∅)))
        (fun _ => performance)
        (fun _ => Ok (mkStatisticsData [("public", "jobs")] (fun _ _ => false) None))
        (fun _ => Ok (mkCleanupData 3 0 1 4))
        (fun _ => Ok (mkDiskData ("12 MB", 12582912%Z) [] []))
        (fun _ => Ok (mkBlockingData [] []))
        (fun _ _ => sink)
        (fun _ _ _ => None)
        (fun _ => None).

(** The connection details the sample deployment yields. *)
Definition sample_connection : DbConnection :=
  mkDbConnection "db.internal" 5432 "prismy" "admin" "hunter2" "postgres".

(** The environment [env] with another answer of RDS, and with other
    variables. *)
Definition with_instances (instances : Result (list DbInstance)) (env : Env) : Env :=
  mkEnv (environ env) (utcnow env) (fun _ => instances) (describe_secret env)
        (get_secret_value env) (performance_session env) (statistics_session env)
        (cleanup_session env) (disk_session env) (blocking_session env)
        (put_metric_data env) (sns_publish env) (json_dumps env).

Definition with_environ (variables : gmap string string) (env : Env) : Env :=
  mkEnv variables (utcnow env) (describe_db_instances env) (describe_secret env)
        (get_secret_value env) (performance_session env) (statistics_session env)
        (cleanup_session env) (disk_session env) (blocking_session env)
        (put_metric_data env) (sns_publish env) (json_dumps env).

(** A busy database: one slow query, sixty active connections. *)
Definition busy_performance : PerformanceData :=
  mkPerformanceData [[CText "select pg_sleep(2)"; CInt 3]] ("prismy", "12 MB", 12582912%Z)
                    [] (70, 60, 10)%Z.

End Maintenance.

(* ===================================================================== *)
(** * Facts about the deployment runner *)
(* ===================================================================== *)

Module DeployFacts.
Import Deploy.

Section Runs.
Context {W : Type} (host : Host W).
Implicit Types (s : Console W) (l : Line).

Lemma ran_print_if c l s : ran (print_if c l s) = ran s.
Proof. by destruct c. Qed.

Lemma printed_print_if_mono c l l' s : l' ∈ printed s -> l' ∈ printed (print_if c l s).
Proof. destruct c; cbn; set_solver. Qed.

(** What one [run_command] adds to the state: the command and its return
    code at the end of [ran], and lines printed after the earlier ones. *)
Lemma world_print_if c l s : world (print_if c l s) = world s.
Proof. by destruct c. Qed.

Lemma run_command_effect cmd s :
  exists rc,
    fst (run_command host cmd s) = bool_decide (rc = 0%Z) /\
    ran (snd (run_command host cmd s)) = ran s ++ [(cmd, rc)] /\
    world (snd (run_command host cmd s)) =
      snd (subprocess_run host cmd project_dir (world s)) /\
    (forall l, l ∈ printed s -> l ∈ printed (snd (run_command host cmd s))).
Proof.
  unfold run_command.
  destruct (subprocess_run host cmd project_dir (world s)) as [[rc so se] w].
  exists rc. cbn [fst snd returncode stdout stderr].
  case_decide.
  - rewrite bool_decide_eq_true_2 by done. cbn [fst snd].
    rewrite ran_print_if, world_print_if. split_and!; try done.
    intros l Hl. apply printed_print_if_mono. cbn. set_solver.
  - rewrite bool_decide_eq_false_2 by done. cbn [fst snd].
    rewrite ran_print_if, world_print_if. split_and!; try done.
    intros l Hl. apply printed_print_if_mono. cbn. set_solver.
Qed.

Lemma cmd_commit_distinct cmd (rc rc' : Z) :
  cmd ∈ [cmd_status_porcelain; cmd_add; cmd_push] ->
  (cmd_commit, rc) <> (cmd, rc').
Proof.
  intros Hin E. set_unfold in Hin.
  destruct Hin as [->|[->|[->|[]]]]; vm_compute in E; discriminate E.
Qed.

Ltac not_the_commit Hin :=
  exfalso; set_unfold in Hin;
  repeat match type of Hin with _ \/ _ => destruct Hin as [Hin|Hin] end;
  first [ congruence
        | eapply cmd_commit_distinct; [| exact Hin]; set_solver ].

Ltac step cmd st s rc B R P :=
  let b := fresh "b" in
  destruct (run_command_effect cmd st) as (rc & B & R & _ & P);
  destruct (run_command host cmd st) as [b s];
  cbn [fst snd] in B, R, P; subst b; cbn [ran print printed] in R.

Lemma main_run w w' :
  chdir host project_dir w = Some w' ->
  Run (ran (snd (main host w))) (fst (main host w)) /\
  (forall rc, (cmd_commit, rc) ∈ ran (snd (main host w)) -> rc <> 0%Z ->
     Text "Failed to commit (possibly no changes)" ∈ printed (snd (main host w))).
Proof.
  intros Hcd. unfold main. cbn [world print]. rewrite Hcd.
  match goal with |- context [run_command host cmd_status_porcelain ?st] =>
    step cmd_status_porcelain st s0 r0 B0 R0 P0 end.
  match goal with |- context [run_command host cmd_add ?st] =>
    step cmd_add st s1 r1 B1 R1 P1 end.
  rewrite R0 in R1. clear R0 P0 P1.
  case_bool_decide as E1; cbn [negb].
  2:{ cbn [fst snd ran print]. rewrite R1. split; [by apply add_failed |].
      intros rc Hin _. not_the_commit Hin. }
  subst r1.
  match goal with |- context [run_command host cmd_commit ?st] =>
    step cmd_commit st s2 r2 B2 R2 P2 end.
  rewrite R1 in R2. clear R1.
  case_bool_decide as E2; cbn [negb].
  - subst r2. clear P2.
    match goal with |- context [run_command host cmd_push ?st] =>
      step cmd_push st s4 r3 B3 R3 P3 end.
    rewrite R2 in R3. clear R2 P3.
    case_bool_decide as E3; cbn [negb fst snd ran print]; rewrite R3.
    + split.
      * pose proof (committed r0 r3) as H. by rewrite decide_True in H by done.
      * intros rc Hin Hrc. not_the_commit Hin.
    + split.
      * pose proof (committed r0 r3) as H. by rewrite decide_False in H by done.
      * intros rc Hin Hrc. not_the_commit Hin.
  - match goal with |- context [run_command host cmd_status ?st] =>
      step cmd_status st s3 r B R P end.
    rewrite R2 in R. clear R2.
    match goal with |- context [run_command host cmd_push ?st] =>
      step cmd_push st s4 r3 B3 R3 P3 end.
    rewrite R in R3. clear R.
    assert (Text "Failed to commit (possibly no changes)" ∈ printed s4) as Hp.
    { apply P3. cbn. apply elem_of_app. left. apply P. cbn. set_solver. }
    case_bool_decide as E3; cbn [negb fst snd ran print printed]; rewrite R3.
    + split.
      * pose proof (commit_failed r0 r2 r r3 E2) as H. by rewrite decide_True in H by done.
      * intros _ _ _. repeat (apply elem_of_app; left). exact Hp.
    + split.
      * pose proof (commit_failed r0 r2 r r3 E2) as H. by rewrite decide_False in H by done.
      * intros _ _ _. repeat (apply elem_of_app; left). exact Hp.
Qed.

Lemma main_no_directory w :
  chdir host project_dir w = None ->
  fst (main host w) = Raise "FileNotFoundError" /\ ran (snd (main host w)) = [].
Proof. intros Hcd. unfold main. cbn [world print]. by rewrite Hcd. Qed.
End Runs.

Ltac which_command Hin :=
  set_unfold in Hin;
  repeat match type of Hin with _ \/ _ => destruct Hin as [Hin|Hin] end;
  try (exfalso; vm_compute in Hin; discriminate Hin);
  try (injection Hin as ?; subst).

(** C7.  [main] returns the status 1 whenever the push command was run and
    failed, whatever happened before.  A failed commit does not decide the
    status: the run prints the failure, runs [git status], goes on to the
    push, and returns 0 when the push succeeds. *)
Theorem push_failure_decides_status {W} (host : Host W) (w : W) :
  (forall rc, (cmd_push, rc) ∈ ran (snd (main host w)) -> rc <> 0%Z ->
     fst (main host w) = Return 1) /\
  (forall rc, (cmd_commit, rc) ∈ ran (snd (main host w)) -> rc <> 0%Z ->
     exists r0 r r3,
       ran (snd (main host w)) =
         [(cmd_status_porcelain, r0); (cmd_add, 0%Z); (cmd_commit, rc);
          (cmd_status, r); (cmd_push, r3)] /\
       Text "Failed to commit (possibly no changes)" ∈ printed (snd (main host w)) /\
       fst (main host w) = Return (if decide (r3 = 0%Z) then 0 else 1)).
Proof.
  destruct (chdir host project_dir w) as [w'|] eqn:Hcd.
  2:{ destruct (main_no_directory host w Hcd) as [_ ->].
      split; intros rc Hin; by apply elem_of_nil in Hin. }
  destruct (main_run host w w' Hcd) as [HR HP]. split.
  - intros rc Hin Hrc. inversion HR as [r0 r1 ? E O|r0 r3 E O|r0 r2 r r3 ? E O];
      rewrite <- E in Hin; which_command Hin;
      try done; by rewrite decide_False by done.
  - intros rc Hin Hrc. specialize (HP rc Hin Hrc).
    inversion HR as [r0 r1 ? E O|r0 r3 E O|r0 r2 r r3 ? E O];
      rewrite <- E in Hin; which_command Hin; try done.
    by exists r0, r, r3.
Qed.

Section TwoHosts.
Context {W : Type} (h1 h2 : Host W).
Hypothesis Hsame : same_but_status h1 h2.

Lemma tail_eq_print l l' (s1 s2 : Console W) :
  tail_eq s1 s2 -> tail_eq (print l s1) (print l' s2).
Proof. done. Qed.

Lemma tail_eq_run cmd (s1 s2 : Console W) :
  cmd <> cmd_status_porcelain ->
  tail_eq s1 s2 ->
  fst (run_command h1 cmd s1) = fst (run_command h2 cmd s2) /\
  tail_eq (snd (run_command h1 cmd s1)) (snd (run_command h2 cmd s2)).
Proof.
  intros Hcmd (Hw & a & b & t & R1 & R2).
  destruct Hsame as (_ & _ & _ & Hrun).
  unfold run_command. rewrite <- Hw, <- (Hrun cmd) by done.
  destruct (subprocess_run h1 cmd project_dir (world s1)) as [[rc so se] w].
  cbn [returncode stdout stderr]. case_decide; cbn [fst snd]; (split; [done|]).
  - split; [by rewrite !world_print_if |].
    exists a, b, (t ++ [(cmd, rc)]). rewrite !ran_print_if. cbn. by rewrite R1, R2.
  - split; [by rewrite !world_print_if |].
    exists a, b, (t ++ [(cmd, rc)]). rewrite !ran_print_if. cbn. by rewrite R1, R2.
Qed.

Lemma tail_eq_status (s1 s2 : Console W) :
  world s1 = world s2 -> ran s1 = [] -> ran s2 = [] ->
  tail_eq (snd (run_command h1 cmd_status_porcelain s1))
          (snd (run_command h2 cmd_status_porcelain s2)).
Proof.
  intros Hw R1 R2. destruct Hsame as (_ & _ & Hworld & _).
  pose proof (run_command_effect h1 cmd_status_porcelain s1) as (x1 & _ & E1 & W1 & _).
  pose proof (run_command_effect h2 cmd_status_porcelain s2) as (x2 & _ & E2 & W2 & _).
  split.
  - by rewrite W1, W2, Hw, Hworld.
  - rewrite E1, E2, R1, R2. by eexists _, _, [].
Qed.

Ltac two_steps cmd B T' x1 x2 :=
  match goal with |- context [run_command h1 cmd ?s1] =>
    match goal with |- context [run_command h2 cmd ?s2] =>
      destruct (tail_eq_run cmd s1 s2) as [B T'];
      [by vm_compute | by apply tail_eq_print |];
      destruct (run_command h1 cmd s1) as [? x1];
      destruct (run_command h2 cmd s2) as [? x2];
      cbn [fst snd] in B, T'; subst
    end end.

Lemma main_tail_eq w :
  fst (main h1 w) = fst (main h2 w) /\
  (is_Some (chdir h1 project_dir w) -> tail_eq (snd (main h1 w)) (snd (main h2 w))).
Proof.
  destruct Hsame as (Hcd & Hcwd & _ & _).
  unfold main. cbn [world print]. rewrite <- Hcd.
  destruct (chdir h1 project_dir w) as [w'|]; [| split; [done | by intros [? ?]]].
  cbn [printed ran].
  match goal with |- context [run_command h1 cmd_status_porcelain ?s1] =>
    match goal with |- context [run_command h2 cmd_status_porcelain ?s2] =>
      pose proof (tail_eq_status s1 s2 eq_refl eq_refl eq_refl) as T0;
      destruct (run_command h1 cmd_status_porcelain s1) as [? a1];
      destruct (run_command h2 cmd_status_porcelain s2) as [? a2]
    end end.
  cbn [snd] in T0.
  two_steps cmd_add B1 T1 sa1 sa2.
  match goal with |- context [negb ?b] => destruct b end; cbn [negb];
    [| split; [done | intros _; by apply tail_eq_print]].
  two_steps cmd_commit B2 T2 sc1 sc2.
  match goal with |- context [negb ?b] => destruct b end; cbn [negb].
  - two_steps cmd_push B3 T3 sp1 sp2.
    match goal with |- context [negb ?b] => destruct b end; cbn [negb];
      (split; [done | intros _; by repeat apply tail_eq_print]).
  - assert (tail_eq (snd (run_command h1 cmd_status (print (Text "Failed to commit (possibly no changes)") sc1)))
                    (snd (run_command h2 cmd_status (print (Text "Failed to commit (possibly no changes)") sc2)))) as T2'.
    { apply tail_eq_run; [by vm_compute | by apply tail_eq_print]. }
    destruct (run_command h1 cmd_status _) as [? se1].
    destruct (run_command h2 cmd_status _) as [? se2]. cbn [snd] in *.
    two_steps cmd_push B3 T3 sp1 sp2.
    match goal with |- context [negb ?b] => destruct b end; cbn [negb];
      (split; [done | intros _; by repeat apply tail_eq_print]).
Qed.
End TwoHosts.

(** C9.  The value [run_command] returns for [git status --porcelain] is
    dropped.  Hosts that differ only in what that command reports give the
    same exit status, the same world and, after the first entry, the same
    commands with the same return codes; and whatever it reports, the
    command run next is [git add -A]. *)
Theorem status_result_discarded {W} (h1 h2 : Host W) (w : W) :
  same_but_status h1 h2 ->
  fst (main h1 w) = fst (main h2 w) /\
  world (snd (main h1 w)) = world (snd (main h2 w)) /\
  drop 1 (ran (snd (main h1 w))) = drop 1 (ran (snd (main h2 w))) /\
  (is_Some (chdir h1 project_dir w) ->
   exists r0 r1 rest,
     ran (snd (main h1 w)) = (cmd_status_porcelain, r0) :: (cmd_add, r1) :: rest).
Proof.
  intros Hsame. destruct (main_tail_eq h1 h2 Hsame w) as [Ho Ht].
  split; [done|].
  destruct (chdir h1 project_dir w) as [w'|] eqn:Hcd.
  - destruct (Ht (ltac:(done))) as (Hw & a & b & t & R1 & R2).
    split; [done|]. split; [by rewrite R1, R2 |].
    intros _. destruct (main_run h1 w w' Hcd) as [HR _].
    inversion HR; eauto.
  - assert (chdir h2 project_dir w = None) as Hcd2.
    { destruct Hsame as (Hc & _). by rewrite <- Hc. }
    destruct (main_no_directory h1 w Hcd) as [_ R1].
    destruct (main_no_directory h2 w Hcd2) as [_ R2].
    split; [| split; [by rewrite R1, R2 | by intros [? ?]]].
    unfold main. cbn [world print]. by rewrite Hcd, Hcd2.
Qed.

Lemma push_failure_decides_status_witness :
  fst (main (scripted 0) [0; 0; 7]%Z) = Return 1 /\
  exists r0 r r3,
    ran (snd (main (scripted 0) [0; 2; 0; 0]%Z)) =
      [(cmd_status_porcelain, r0); (cmd_add, 0%Z); (cmd_commit, 2%Z);
       (cmd_status, r); (cmd_push, r3)] /\
    Text "Failed to commit (possibly no changes)"
      ∈ printed (snd (main (scripted 0) [0; 2; 0; 0]%Z)) /\
    fst (main (scripted 0) [0; 2; 0; 0]%Z) = Return (if decide (r3 = 0%Z) then 0 else 1).
Proof.
  split.
  - apply (proj1 (push_failure_decides_status (scripted 0) [0; 0; 7]%Z) 7%Z).
    + vm_compute. repeat constructor.
    + done.
  - apply (proj2 (push_failure_decides_status (scripted 0) [0; 2; 0; 0]%Z) 2%Z).
    + vm_compute. repeat constructor.
    + done.
Defined.

Lemma scripted_same_but_status rc rc' : same_but_status (scripted rc) (scripted rc').
Proof.
  repeat split; cbn; intros; try done; case_decide; try done; by destruct w.
Defined.

Lemma status_result_discarded_witness :
  fst (main (scripted 0) [0; 0; 0]%Z) = fst (main (scripted 128) [0; 0; 0]%Z) /\
  world (snd (main (scripted 0) [0; 0; 0]%Z)) = world (snd (main (scripted 128) [0; 0; 0]%Z)) /\
  drop 1 (ran (snd (main (scripted 0) [0; 0; 0]%Z))) =
    drop 1 (ran (snd (main (scripted 128) [0; 0; 0]%Z))) /\
  (is_Some (chdir (scripted 0) project_dir [0; 0; 0]%Z) ->
   exists r0 r1 rest,
     ran (snd (main (scripted 0) [0; 0; 0]%Z)) =
       (cmd_status_porcelain, r0) :: (cmd_add, r1) :: rest).
Proof.
  apply (status_result_discarded (scripted 0) (scripted 128) [0; 0; 0]%Z).
  apply scripted_same_but_status.
Defined.

End DeployFacts.

(* ===================================================================== *)
(** * Facts about the rotation handler *)
(* ===================================================================== *)

Module RotationFacts.
Import Rotation.

(** ** The monad *)

Lemma bind_ok {S A B} (m : M S A) (k : A -> M S B) s a s' :
  m s = (Ok a, s') -> bind m k s = k a s'.
Proof. unfold bind. by intros ->. Qed.

Lemma bind_err {S A B} (m : M S A) (k : A -> M S B) s e s' :
  m s = (Err e, s') -> bind m k s = (Err e, s').
Proof. unfold bind. by intros ->. Qed.

Lemma only_drew_refl s : only_drew s s.
Proof. done. Qed.

Lemma only_drew_trans s1 s2 s3 : only_drew s1 s2 -> only_drew s2 s3 -> only_drew s1 s3.
Proof. intros [A B] [C D]. split; congruence. Qed.

(** ** Password generation *)

Section Passwords.
Variable env : Env.

Lemma choice_ok (seq : string) s :
  seq <> EmptyString ->
  exists c s', choice env seq s = (Ok c, s') /\
               c ∈ list_ascii_of_string seq /\ only_drew s s'.
Proof.
  intros Hne. unfold choice.
  assert (length (list_ascii_of_string seq) <> 0) as Hlen by (by destruct seq).
  rewrite bool_decide_eq_false_2 by done.
  unfold bind, randbelow.
  set (k := entropy env (drawn s) mod length (list_ascii_of_string seq)).
  assert (k < length (list_ascii_of_string seq)) as Hk
    by (apply Nat.mod_upper_bound; done).
  destruct (lookup_lt_is_Some_2 _ _ Hk) as [c Hc]. rewrite Hc.
  eexists c, _. split_and!; [done | by eapply list_elem_of_lookup_2 | done].
Qed.

Lemma fill_ok n : forall password s,
  exists l s', fill env n password s = (Ok (password ++ l), s') /\
               length l = n /\ only_drew s s'.
Proof.
  induction n as [|n IH]; intros password s.
  - exists [], s. by rewrite app_nil_r.
  - destruct (choice_ok PASSWORD_CHARSET s) as (c & s1 & Hc & _ & D1); [done|].
    destruct (IH (password ++ [c]) s1) as (l & s2 & Hl & Hn & D2).
    exists (c :: l), s2. cbn [fill]. rewrite (bind_ok _ _ _ _ _ Hc), Hl.
    split_and!; [by rewrite <- app_assoc | by cbn; rewrite Hn | by eapply only_drew_trans].
Qed.

Lemma swap_ok (x : list ascii) i j s :
  i < length x -> j < length x ->
  exists x', swap x i j s = (Ok x', s) /\ x' ≡ₚ x.
Proof.
  intros Hi Hj. unfold swap.
  destruct (lookup_lt_is_Some_2 _ _ Hi) as [xi Ei].
  destruct (lookup_lt_is_Some_2 _ _ Hj) as [xj Ej].
  rewrite Ei, Ej. eexists. split; [done|].
  by apply Permutation_insert_swap.
Qed.

Lemma shuffle_loop_ok n : forall (x : list ascii) s,
  n < length x ->
  exists x' s', shuffle_loop env n x s = (Ok x', s') /\ x' ≡ₚ x /\ only_drew s s'.
Proof.
  induction n as [|n IH]; intros x s Hn.
  - by exists x, s.
  - cbn [shuffle_loop]. unfold bind at 1. unfold randbelow at 1.
    set (j := entropy env (drawn s) mod (S n + 1)).
    assert (j < S n + 1) as Hj by (apply Nat.mod_upper_bound; lia).
    set (s1 := mkSt _ _ _).
    destruct (swap_ok x (S n) j s1) as (x1 & Hx1 & P1); [lia..|].
    rewrite (bind_ok _ _ _ _ _ Hx1).
    destruct (IH x1 s1) as (x2 & s2 & Hx2 & P2 & D2).
    { apply Permutation_length in P1. lia. }
    exists x2, s2. split_and!; [done | by rewrite P2 | done].
Qed.

Lemma shuffle_ok (x : list ascii) s :
  x <> [] ->
  exists x' s', shuffle env x s = (Ok x', s') /\ x' ≡ₚ x /\ only_drew s s'.
Proof.
  intros Hx. apply shuffle_loop_ok. destruct x; [done | cbn; lia].
Qed.

Lemma length_string_of_list_ascii (l : list ascii) :
  String.length (string_of_list_ascii l) = length l.
Proof. induction l; cbn; congruence. Qed.

Lemma generate_password_ok s :
  exists password s',
    generate_password env s = (Ok password, s') /\
    only_drew s s' /\
    String.length password = PASSWORD_LENGTH /\
    contains_one_of ascii_lowercase password /\
    contains_one_of ascii_uppercase password /\
    contains_one_of digits password /\
    contains_one_of symbols password.
Proof.
  unfold generate_password.
  destruct (choice_ok ascii_lowercase s) as (c1 & s1 & H1 & I1 & D1); [done|].
  destruct (choice_ok ascii_uppercase s1) as (c2 & s2 & H2 & I2 & D2); [done|].
  destruct (choice_ok digits s2) as (c3 & s3 & H3 & I3 & D3); [done|].
  destruct (choice_ok symbols s3) as (c4 & s4 & H4 & I4 & D4); [done|].
  destruct (fill_ok (PASSWORD_LENGTH - 4) [c1; c2; c3; c4] s4)
    as (l & s5 & H5 & L5 & D5).
  destruct (shuffle_ok ([c1; c2; c3; c4] ++ l) s5) as (x & s6 & H6 & P6 & D6); [done|].
  rewrite (bind_ok _ _ _ _ _ H1), (bind_ok _ _ _ _ _ H2), (bind_ok _ _ _ _ _ H3),
          (bind_ok _ _ _ _ _ H4), (bind_ok _ _ _ _ _ H5), (bind_ok _ _ _ _ _ H6).
  eexists _, s6. split; [done|].
  split; [by repeat (eapply only_drew_trans; [eassumption|]) |].
  split.
  { rewrite length_string_of_list_ascii, (Permutation_length P6). cbn. by rewrite L5. }
  unfold contains_one_of. rewrite list_ascii_of_string_of_list_ascii.
  split_and!; [exists c1 | exists c2 | exists c3 | exists c4];
    (split; [rewrite P6; apply elem_of_app; left; repeat constructor | done]).
Qed.
End Passwords.

(** C3.  [generate_password] always returns, whatever the entropy; the
    password has length [PASSWORD_LENGTH] = 32 and contains a lowercase
    letter, an uppercase letter, a digit and one of the symbols [!@#$%^&*]. *)
Theorem generate_password_classes (env : Env) (s : St) :
  exists password s',
    generate_password env s = (Ok password, s') /\
    String.length password = PASSWORD_LENGTH /\
    PASSWORD_LENGTH = 32 /\
    contains_one_of ascii_lowercase password /\
    contains_one_of ascii_uppercase password /\
    contains_one_of digits password /\
    contains_one_of "!@#$%^&*" password.
Proof.
  destruct (generate_password_ok env s) as (p & s' & H & _ & L & C1 & C2 & C3 & C4).
  exists p, s'. by split_and!.
Qed.


(** ** [createSecret] *)

Lemma get_secret_value_peek sid vid stage s :
  get_secret_value sid vid stage s = (peek sid vid stage (store s), s).
Proof.
  unfold peek, get_secret_value, lookup_secret. cbn [store].
  destruct (store s !! sid) as [sec|]; [|done].
  destruct vid as [v|].
  - destruct (find (has_id v) (versions sec)) as [ver|]; [|done].
    destruct stage as [l|]; [|done]. by destruct (has_stage l ver).
  - by destruct (find _ (versions sec)).
Qed.

Lemma find_has_id_remove_stages token ls (vs : list Version) :
  find (has_id token) vs = None ->
  find (has_id token) (map (remove_stages ls) vs) = None.
Proof.
  induction vs as [|v vs IH]; [done|]. cbn.
  unfold has_id at 1 3. cbn. destruct (bool_decide (version_id v = token)); [done | exact IH].
Qed.

Lemma find_app_None {A} (f : A -> bool) (l1 l2 : list A) :
  find f l1 = None -> find f (l1 ++ l2) = find f l2.
Proof.
  induction l1 as [|a l1 IH]; [done|]. cbn. destruct (f a); [done | exact IH].
Qed.

Lemma peek_with_pending sid token text sec st :
  find (has_id token) (versions sec) = None ->
  peek sid (Some token) (Some AWSPENDING) (with_pending sid token text sec st)
  = Ok (mkVersion token text [AWSPENDING]).
Proof.
  intros Hnone. unfold peek, get_secret_value, lookup_secret, with_pending.
  cbn [store]. rewrite lookup_insert_eq. cbn [versions].
  rewrite find_app_None by by apply find_has_id_remove_stages.
  cbn. unfold has_id. cbn. by rewrite bool_decide_eq_true_2.
Qed.

Lemma not_labelled_remove_stages stage (vs : list Version) :
  filter (fun v => stage ∈ stages v) (map (remove_stages [stage]) vs) = [].
Proof.
  induction vs as [|v vs IH]; [done|]. cbn [map].
  rewrite filter_cons_False; [exact IH|].
  cbn. intros [Hn _]%list_elem_of_filter. apply Hn. by left.
Qed.

Lemma labelled_with_pending sid token text sec st :
  labelled AWSPENDING sid (with_pending sid token text sec st)
  = [mkVersion token text [AWSPENDING]].
Proof.
  unfold labelled, with_pending. rewrite lookup_insert_eq. cbn [from_option versions].
  rewrite filter_app, not_labelled_remove_stages, app_nil_l.
  rewrite filter_cons_True; [done|]. cbn. by left.
Qed.

Section Create.
Variable env : Env.

Lemma create_secret_pending arn tok s v :
  peek arn (Some tok) (Some AWSPENDING) (store s) = Ok v ->
  create_secret env arn tok s = (Ok tt, s).
Proof.
  intros Hp. unfold create_secret, log_and_reraise, try_except, bind.
  by rewrite get_secret_value_peek, Hp.
Qed.

Lemma create_secret_spec arn tok s :
  match writes arn tok (store s) with
  | Some (sec, d) =>
    find (has_id tok) (versions sec) = None /\
    exists p s', only_drew s s' /\
      create_secret env arn tok s =
        (Ok tt, set_store (with_pending arn tok (json_dumps (<["password" := JStr p]> d))
                                        sec (store s)) s')
  | None => store (snd (create_secret env arn tok s)) = store s
  end.
Proof.
  unfold writes, create_secret, log_and_reraise, try_except, bind.
  rewrite get_secret_value_peek.
  destruct (peek arn (Some tok) (Some AWSPENDING) (store s)) as [v|e]; [done|].
  case_decide; [|done]. cbn [ret].
  rewrite get_secret_value_peek.
  destruct (peek arn None (Some AWSCURRENT) (store s)) as [cur|e']; [|done].
  unfold lift. destruct (json_loads (secret_string cur)) as [d|e']; [|done].
  destruct (generate_password_ok env s) as (p & s1 & Hp & D1 & _). rewrite Hp.
  pose proof D1 as [D _].
  destruct s1 as [st1 n1 ev1]. cbn [store] in D. subst st1.
  unfold put_secret_value, lookup_secret. cbn [store].
  destruct (store s !! arn) as [sec|]; [|done].
  destruct (find (has_id tok) (versions sec)) as [ver|] eqn:Hf.
  - by case_decide.
  - split; [done|]. by eexists p, _.
Qed.
End Create.

(** C4.  [create_secret] is idempotent in the request token.  If a pending
    version exists for the token, the call returns without touching the
    state.  A call that wrote a version leaves exactly one version labelled
    pending, the one of the token, and is followed, for the same token, by
    calls that return without change; and in every case a second call with
    the token leaves the store as the first one left it. *)
Theorem create_secret_idempotent (env env' : Env) (arn tok : string) (s : St) :
  (forall v, fst (get_secret_value arn (Some tok) (Some AWSPENDING) s) = Ok v ->
     create_secret env arn tok s = (Ok tt, s)) /\
  (forall s1, create_secret env arn tok s = (Ok tt, s1) -> store s1 <> store s ->
     create_secret env' arn tok s1 = (Ok tt, s1) /\
     exists v, labelled AWSPENDING arn (store s1) = [v] /\ version_id v = tok) /\
  store (snd (create_secret env' arn tok (snd (create_secret env arn tok s))))
  = store (snd (create_secret env arn tok s)).
Proof.
  pose proof (create_secret_spec env arn tok s) as Hfirst.
  destruct (writes arn tok (store s)) as [[sec d]|] eqn:Hw.
  - destruct Hfirst as (Hnone & p & s' & _ & Hfirst).
    assert (create_secret env' arn tok (snd (create_secret env arn tok s))
            = (Ok tt, snd (create_secret env arn tok s))) as Hsecond.
    { rewrite Hfirst. eapply create_secret_pending. cbn [snd store set_store].
      by apply peek_with_pending. }
    split_and!.
    + intros v Hv. rewrite get_secret_value_peek in Hv. by eapply create_secret_pending.
    + intros s1 E _. rewrite E in Hsecond. split; [done|].
      rewrite Hfirst in E. injection E as <-. cbn [store set_store].
      rewrite labelled_with_pending. by eexists.
    + by rewrite Hsecond.
  - split_and!.
    + intros v Hv. rewrite get_secret_value_peek in Hv. by eapply create_secret_pending.
    + intros s1 E Hne. by rewrite E in Hfirst.
    + pose proof (create_secret_spec env' arn tok (snd (create_secret env arn tok s)))
        as Hsecond.
      rewrite Hfirst, Hw in Hsecond. by rewrite Hsecond.
Qed.

(** ** [setSecret] and [testSecret]: the engine dispatch *)

Section Engines.
Variable env : Env.

Lemma db_call_error c s e :
  fst (db_call env c s) = Err e -> exists msg, e = DriverError msg.
Proof. unfold db_call. cbn. destruct (driver env c); [|done]. intros [= <-]. eauto. Qed.

(** The database routines raise what the driver raises, or the plain
    exception of a failed test query: never the unsupported-engine error. *)
Lemma routine_errors_supported (m : M St unit) s e :
  (exists cur new, m = set_postgres_password env cur new \/ m = set_mysql_password env cur new) \/
  (exists d, m = test_postgres_connection env d \/ m = test_mysql_connection env d) ->
  fst (m s) = Err e -> ~ is_unsupported_engine_error e.
Proof.
  intros Hm He [engine ->].
  destruct Hm as [(cur & new & [-> | ->]) | (d & [-> | ->])];
    revert He;
    unfold set_postgres_password, set_mysql_password, test_postgres_connection,
      test_mysql_connection, log_and_reraise, try_except, bind, db_call;
    cbn; destruct (driver env _) as [msg|z]; cbn; try done;
    by case_bool_decide.
Qed.

Lemma set_secret_dispatch arn tok s pending current pd cd :
  fst (get_secret_value arn (Some tok) (Some AWSPENDING) s) = Ok pending ->
  json_loads (secret_string pending) = Ok pd ->
  fst (get_secret_value arn None (Some AWSCURRENT) s) = Ok current ->
  json_loads (secret_string current) = Ok cd ->
  set_secret env arn tok s =
    match cd !! "engine" with
    | None => set_postgres_password env cd pd s
    | Some engine =>
      if bool_decide (engine ∈ [JStr "postgres"; JStr "postgresql"]) then
        set_postgres_password env cd pd s
      else if bool_decide (engine = JStr "mysql") then set_mysql_password env cd pd s
      else (Err (unsupported_engine engine), s)
    end.
Proof.
  rewrite !get_secret_value_peek. cbn [fst]. intros Hp Hpd Hc Hcd.
  unfold set_secret, log_and_reraise at 1, try_except at 1, bind, lift.
  rewrite !get_secret_value_peek, Hp, Hpd, Hc, Hcd.
  destruct (cd !! "engine") as [engine|].
  - repeat case_bool_decide; try done.
    + by destruct (set_postgres_password env cd pd s) as [[|] ?].
    + by destruct (set_mysql_password env cd pd s) as [[|] ?].
  - by destruct (set_postgres_password env cd pd s) as [[|] ?].
Qed.

Lemma test_secret_dispatch arn tok s pending pd :
  fst (get_secret_value arn (Some tok) (Some AWSPENDING) s) = Ok pending ->
  json_loads (secret_string pending) = Ok pd ->
  test_secret env arn tok s =
    match pd !! "engine" with
    | None => test_postgres_connection env pd s
    | Some engine =>
      if bool_decide (engine ∈ [JStr "postgres"; JStr "postgresql"]) then
        test_postgres_connection env pd s
      else if bool_decide (engine = JStr "mysql") then test_mysql_connection env pd s
      else (Err (unsupported_engine engine), s)
    end.
Proof.
  rewrite !get_secret_value_peek. cbn [fst]. intros Hp Hpd.
  unfold test_secret, log_and_reraise at 1, try_except at 1, bind, lift.
  rewrite !get_secret_value_peek, Hp, Hpd.
  destruct (pd !! "engine") as [engine|].
  - repeat case_bool_decide; try done.
    + by destruct (test_postgres_connection env pd s) as [[|] ?].
    + by destruct (test_mysql_connection env pd s) as [[|] ?].
  - by destruct (test_postgres_connection env pd s) as [[|] ?].
Qed.

Lemma unsupported_not_supported engine :
  engine ∉ [JStr "postgres"; JStr "postgresql"] -> engine <> JStr "mysql" ->
  engine ∉ supported_engines.
Proof.
  intros [A [B _]%not_elem_of_cons]%not_elem_of_cons C Hin.
  unfold supported_engines in Hin.
  repeat (apply elem_of_cons in Hin as [Hin|Hin]; [done|]).
  by apply elem_of_nil in Hin.
Qed.

Lemma supported_dispatch engine :
  engine ∉ supported_engines ->
  bool_decide (engine ∈ [JStr "postgres"; JStr "postgresql"]) = false /\
  bool_decide (engine = JStr "mysql") = false.
Proof.
  unfold supported_engines. intros Hn.
  split; apply bool_decide_eq_false_2; intros H; apply Hn.
  - apply elem_of_cons in H as [->|H]; [by left|].
    apply elem_of_cons in H as [->|H]; [right; by left|]. by apply elem_of_nil in H.
  - subst. right. right. by left.
Qed.

Lemma peek_error sid vid stage st e :
  peek sid vid stage st = Err e -> exists code, e = ClientError code.
Proof.
  unfold peek, get_secret_value, lookup_secret. cbn [store].
  destruct (st !! sid) as [sec|]; [| intros [= <-]; by eexists].
  destruct vid as [v|].
  - destruct (find (has_id v) (versions sec)) as [ver|]; [| intros [= <-]; by eexists].
    destruct stage as [l|]; [|done].
    destruct (has_stage l ver); [done | intros [= <-]; by eexists].
  - destruct (find _ (versions sec)); [done | intros [= <-]; by eexists].
Qed.

Lemma json_loads_error t e : json_loads t = Err e -> exists msg, e = TypeError msg.
Proof. destruct t; [done | intros [= <-]; by eexists]. Qed.

Ltac not_unsupported H :=
  let v := fresh in
  let E := fresh in
  intros [= <-] [v E];
  first [ apply peek_error in H as [? ->] | apply json_loads_error in H as [? ->] ];
  discriminate E.

Lemma set_secret_unsupported arn tok s e :
  fst (set_secret env arn tok s) = Err e -> is_unsupported_engine_error e ->
  exists current cd engine,
    fst (get_secret_value arn None (Some AWSCURRENT) s) = Ok current /\
    json_loads (secret_string current) = Ok cd /\
    cd !! "engine" = Some engine /\ engine ∉ supported_engines.
Proof.
  unfold set_secret, log_and_reraise at 1, try_except at 1, bind, lift.
  rewrite !get_secret_value_peek. cbn [fst].
  destruct (peek arn (Some tok) _ _) as [pending|e1] eqn:Hp; [| not_unsupported Hp].
  destruct (json_loads (secret_string pending)) as [pd|e1] eqn:Hpd; [| not_unsupported Hpd].
  destruct (peek arn None _ _) as [current|e1] eqn:Hc; [| not_unsupported Hc].
  destruct (json_loads (secret_string current)) as [cd|e1] eqn:Hcd; [| not_unsupported Hcd].
  assert (forall m : M St unit,
            (exists cur new, m = set_postgres_password env cur new \/
                             m = set_mysql_password env cur new) ->
            fst (let (r, s0) := m s in
                 match r with Ok a => (Ok a, s0) | Err e0 => raise e0 s0 end) = Err e ->
            ~ is_unsupported_engine_error e) as Hroutine.
  { intros m Hm He. eapply (routine_errors_supported m s); [by left|].
    by destruct (m s) as [[|] ?]. }
  destruct (cd !! "engine") as [engine|] eqn:He.
  - case_bool_decide as E1.
    { intros H1 H2. exfalso. eapply Hroutine; [| exact H1 | exact H2]. eauto. }
    case_bool_decide as E2.
    { intros H1 H2. exfalso. eapply Hroutine; [| exact H1 | exact H2]. eauto. }
    intros _ _. exists current, cd, engine. split_and!; try done.
    by apply unsupported_not_supported.
  - intros H1 H2. exfalso. eapply Hroutine; [| exact H1 | exact H2]. eauto.
Qed.

Lemma test_secret_unsupported arn tok s e :
  fst (test_secret env arn tok s) = Err e -> is_unsupported_engine_error e ->
  exists pending pd engine,
    fst (get_secret_value arn (Some tok) (Some AWSPENDING) s) = Ok pending /\
    json_loads (secret_string pending) = Ok pd /\
    pd !! "engine" = Some engine /\ engine ∉ supported_engines.
Proof.
  unfold test_secret, log_and_reraise at 1, try_except at 1, bind, lift.
  rewrite !get_secret_value_peek. cbn [fst].
  destruct (peek arn (Some tok) _ _) as [pending|e1] eqn:Hp; [| not_unsupported Hp].
  destruct (json_loads (secret_string pending)) as [pd|e1] eqn:Hpd; [| not_unsupported Hpd].
  assert (forall m : M St unit,
            (exists d, m = test_postgres_connection env d \/
                       m = test_mysql_connection env d) ->
            fst (let (r, s0) := m s in
                 match r with Ok a => (Ok a, s0) | Err e0 => raise e0 s0 end) = Err e ->
            ~ is_unsupported_engine_error e) as Hroutine.
  { intros m Hm He. eapply (routine_errors_supported m s); [by right|].
    by destruct (m s) as [[|] ?]. }
  destruct (pd !! "engine") as [engine|] eqn:He.
  - case_bool_decide as E1.
    { intros H1 H2. exfalso. eapply Hroutine; [| exact H1 | exact H2]. eauto. }
    case_bool_decide as E2.
    { intros H1 H2. exfalso. eapply Hroutine; [| exact H1 | exact H2]. eauto. }
    intros _ _. exists pending, pd, engine. split_and!; try done.
    by apply unsupported_not_supported.
  - intros H1 H2. exfalso. eapply Hroutine; [| exact H1 | exact H2]. eauto.
Qed.
End Engines.

(** C8.  The engine dispatch of [set_secret] (on the current record) and of
    [test_secret] (on the pending record).  Without an ['engine'] key the
    step is the PostgreSQL routine, and so raises no unsupported-engine
    error; with a key that is none of ['postgres'], ['postgresql'],
    ['mysql'] the step raises that error; and the error is raised in no
    other case. *)
Theorem engine_defaults_to_postgres (env : Env) (arn tok : string) (s : St) :
  (forall pending current pd cd,
     fst (get_secret_value arn (Some tok) (Some AWSPENDING) s) = Ok pending ->
     json_loads (secret_string pending) = Ok pd ->
     fst (get_secret_value arn None (Some AWSCURRENT) s) = Ok current ->
     json_loads (secret_string current) = Ok cd ->
     (cd !! "engine" = None ->
        set_secret env arn tok s = set_postgres_password env cd pd s /\
        forall e, fst (set_secret env arn tok s) = Err e -> ~ is_unsupported_engine_error e) /\
     (pd !! "engine" = None ->
        test_secret env arn tok s = test_postgres_connection env pd s /\
        forall e, fst (test_secret env arn tok s) = Err e -> ~ is_unsupported_engine_error e) /\
     (forall engine, cd !! "engine" = Some engine -> engine ∉ supported_engines ->
        set_secret env arn tok s = (Err (unsupported_engine engine), s)) /\
     (forall engine, pd !! "engine" = Some engine -> engine ∉ supported_engines ->
        test_secret env arn tok s = (Err (unsupported_engine engine), s))) /\
  (forall e, fst (set_secret env arn tok s) = Err e -> is_unsupported_engine_error e ->
     exists current cd engine,
       fst (get_secret_value arn None (Some AWSCURRENT) s) = Ok current /\
       json_loads (secret_string current) = Ok cd /\
       cd !! "engine" = Some engine /\ engine ∉ supported_engines) /\
  (forall e, fst (test_secret env arn tok s) = Err e -> is_unsupported_engine_error e ->
     exists pending pd engine,
       fst (get_secret_value arn (Some tok) (Some AWSPENDING) s) = Ok pending /\
       json_loads (secret_string pending) = Ok pd /\
       pd !! "engine" = Some engine /\ engine ∉ supported_engines).
Proof.
  split_and!; [| apply set_secret_unsupported | apply test_secret_unsupported].
  intros pending current pd cd Hp Hpd Hc Hcd.
  pose proof (set_secret_dispatch env arn tok s _ _ _ _ Hp Hpd Hc Hcd) as Hset.
  pose proof (test_secret_dispatch env arn tok s _ _ Hp Hpd) as Htest.
  split_and!.
  - intros Hnone. rewrite Hnone in Hset. split; [done|].
    intros e He Hu.
    destruct (set_secret_unsupported env arn tok s e He Hu) as (c' & cd' & engine & Hc' & Hcd' & He' & _).
    rewrite Hc in Hc'. injection Hc' as <-. rewrite Hcd in Hcd'. injection Hcd' as <-.
    by rewrite Hnone in He'.
  - intros Hnone. rewrite Hnone in Htest. split; [done|].
    intros e He Hu.
    destruct (test_secret_unsupported env arn tok s e He Hu) as (p' & pd' & engine & Hp' & Hpd' & He' & _).
    rewrite Hp in Hp'. injection Hp' as <-. rewrite Hpd in Hpd'. injection Hpd' as <-.
    by rewrite Hnone in He'.
  - intros engine He [E1 E2]%supported_dispatch. by rewrite He, E1, E2 in Hset.
  - intros engine He [E1 E2]%supported_dispatch. by rewrite He, E1, E2 in Htest.
Qed.


(** ** [finishSecret] *)

Lemma send_rotation_notification_ok env arn status msg s :
  exists s', send_rotation_notification env arn status msg s = (Ok tt, s') /\
             store s' = store s.
Proof.
  unfold send_rotation_notification, try_except.
  destruct (environ env !! "SNS_TOPIC_ARN") as [topic|]; [| by exists s].
  destruct (truthy topic); cbn [negb]; [| by exists s].
  case_bool_decide; destruct (sns_publish env topic _ _); by eexists.
Qed.

(** The keyword [ClientRequestToken] is not a member of the input shape of
    [UpdateSecretVersionStage]: the call of [finish_secret] is refused
    before it reaches the store. *)
Lemma update_refuses_client_request_token arn tok current s :
  update_secret_version_stage
    [("SecretId", arn); ("VersionStage", AWSCURRENT);
     ("ClientRequestToken", tok); ("RemoveFromVersionId", current)] s
  = (Err (ParamValidationError
            ("Unknown parameter in input: " +:+ dquote +:+ "ClientRequestToken" +:+ dquote)),
     s).
Proof. reflexivity. Qed.

(** C6.  [finish_secret] as written never succeeds: every call raises and
    leaves the store as it was, so the pending version is never promoted.
    When the current version can be read, the exception is the
    [ParamValidationError] of the keyword [ClientRequestToken]. *)
Theorem finish_secret_never_promotes (env : Env) (arn tok : string) (s : St) :
  exists e s',
    finish_secret env arn tok s = (Err e, s') /\
    store s' = store s /\
    match fst (get_secret_value arn None (Some AWSCURRENT) s) with
    | Ok _ => e = ParamValidationError
                    ("Unknown parameter in input: " +:+ dquote +:+ "ClientRequestToken" +:+ dquote)
    | Err e' => e = e'
    end.
Proof.
  unfold finish_secret, try_except at 1, bind at 1, bind at 1.
  unfold get_current_version_id, log_and_reraise, try_except at 1, bind at 1.
  rewrite get_secret_value_peek. cbn [fst].
  destruct (peek arn None (Some AWSCURRENT) (store s)) as [current|e].
  - cbn [ret]. rewrite update_refuses_client_request_token.
    destruct (send_rotation_notification_ok env arn "FAILED"
                (Some (str_exc (ParamValidationError
                   ("Unknown parameter in input: " +:+ dquote +:+ "ClientRequestToken" +:+ dquote)))) s)
      as (s' & Hn & Hs).
    unfold bind. rewrite Hn. by eexists _, s'.
  - cbn [raise].
    destruct (send_rotation_notification_ok env arn "FAILED" (Some (str_exc e)) s)
      as (s' & Hn & Hs).
    unfold bind. rewrite Hn. by eexists _, s'.
Qed.


(** *** What the call would do with the keyword [MoveToVersionId]

    The service operation behind the call does move the label: from a store
    where exactly one version is current, the call with [MoveToVersionId]
    in place of [ClientRequestToken] leaves exactly one version current,
    the one named by the token. *)

Lemma version_id_relabel stage rm mv v :
  version_id (relabel stage rm mv v) = version_id v.
Proof.
  unfold relabel, add_stage, remove_stage.
  repeat (case_bool_decide || case_match); done.
Qed.

Lemma stage_remove_stage l l' v :
  l ∈ stages (remove_stage l' v) <-> l <> l' /\ l ∈ stages v.
Proof. unfold remove_stage. cbn. by rewrite list_elem_of_filter. Qed.

Lemma stage_add_stage l l' v :
  l ∈ stages (add_stage l' v) <-> l = l' \/ l ∈ stages v.
Proof.
  unfold add_stage, has_stage. case_bool_decide; cbn.
  - split; [by right | by intros [->|]].
  - rewrite elem_of_app, list_elem_of_singleton. tauto.
Qed.

Lemma current_relabel cur tok v :
  (AWSCURRENT ∈ stages v -> version_id v = cur) ->
  AWSCURRENT ∈ stages (relabel AWSCURRENT (Some cur) (Some tok) v)
  <-> version_id v = tok.
Proof.
  intros Hheld. unfold relabel.
  assert (AWSCURRENT <> AWSPREVIOUS) as Hne by done.
  repeat case_bool_decide;
    rewrite ?stage_add_stage, ?stage_remove_stage, ?stage_add_stage, ?stage_remove_stage;
    cbn [version_id add_stage remove_stage] in *; intuition congruence.
Qed.

Lemma filter_none {A} (P : A -> Prop) `{!forall x, Decision (P x)} (l : list A) :
  (forall x, x ∈ l -> ~ P x) -> filter P l = [].
Proof.
  induction l as [|a l IH]; [done|]. intros Hall.
  rewrite filter_cons_False by (apply Hall; by left).
  apply IH. intros x Hx. apply Hall. by right.
Qed.

Lemma filter_relabel_unique cur tok (vs : list Version) v0 :
  NoDup (version_id <$> vs) ->
  v0 ∈ vs -> version_id v0 = tok ->
  (forall v, v ∈ vs -> AWSCURRENT ∈ stages v -> version_id v = cur) ->
  filter (fun v => AWSCURRENT ∈ stages v) (map (relabel AWSCURRENT (Some cur) (Some tok)) vs)
  = [relabel AWSCURRENT (Some cur) (Some tok) v0].
Proof.
  induction vs as [|v vs IH]; intros Hnd Hin Hid Hheld.
  { by apply elem_of_nil in Hin. }
  rewrite fmap_cons in Hnd. apply NoDup_cons in Hnd as [Hnotin Hnd].
  cbn [map].
  assert (forall u, u ∈ vs -> AWSCURRENT ∈ stages u -> version_id u = cur) as Hheld'.
  { intros u Hu. apply Hheld. by right. }
  destruct (decide (version_id v = tok)) as [Hv|Hv].
  - assert (v0 = v) as ->.
    { apply elem_of_cons in Hin as [->|Hin]; [done|]. exfalso. apply Hnotin.
      rewrite Hv, <- Hid. by apply list_elem_of_fmap_2. }
    rewrite filter_cons_True by (apply current_relabel; [apply Hheld; by left | done]).
    f_equal. apply filter_none.
    intros u' [u [-> Hu]]%list_elem_of_fmap.
    rewrite current_relabel by (by apply Hheld').
    intros Hu'. apply Hnotin. rewrite Hv, <- Hu'. by apply list_elem_of_fmap_2.
  - rewrite filter_cons_False by (rewrite current_relabel; [done | apply Hheld; by left]).
    apply IH; try done.
    apply elem_of_cons in Hin as [->|Hin]; done.
Qed.

Lemma find_Some_elem {A} (f : A -> bool) (l : list A) a :
  find f l = Some a -> a ∈ l /\ f a = true.
Proof.
  induction l as [|b l IH]; [done|]. cbn. destruct (f b) eqn:Hb.
  - intros [= ->]. split; [by left | done].
  - intros [? ?]%IH. split; [by right | done].
Qed.

Lemma find_filter_head {A} (P : A -> Prop) `{!forall x, Decision (P x)} (l : list A) a :
  filter P l = [a] -> find (fun x => bool_decide (P x)) l = Some a.
Proof.
  induction l as [|b l IH]; [done|]. cbn [find].
  destruct (decide (P b)) as [Hb|Hb].
  - rewrite filter_cons_True, bool_decide_eq_true_2 by done. by intros [= ->].
  - rewrite filter_cons_False, bool_decide_eq_false_2 by done. exact IH.
Qed.

Lemma update_with_move_promotes arn cur tok sec vcur (s : St) :
  store s !! arn = Some sec ->
  NoDup (version_id <$> versions sec) ->
  labelled AWSCURRENT arn (store s) = [vcur] -> version_id vcur = cur ->
  is_Some (find (has_id tok) (versions sec)) ->
  exists s' v,
    update_secret_version_stage
      [("SecretId", arn); ("VersionStage", AWSCURRENT);
       ("MoveToVersionId", tok); ("RemoveFromVersionId", cur)] s = (Ok tt, s') /\
    labelled AWSCURRENT arn (store s') = [v] /\ version_id v = tok.
Proof.
  intros Hsec Hnd Hlab Hcur [vtok Htok].
  unfold labelled in Hlab. rewrite Hsec in Hlab. cbn [from_option] in Hlab.
  pose proof (find_filter_head _ _ _ Hlab) as Hholder.
  apply find_Some_elem in Htok as Htok'. destruct Htok' as [Hin Hid].
  apply bool_decide_eq_true_1 in Hid.
  unfold update_secret_version_stage.
  change (validate_kwargs _ _ _) with (@Ok unit tt). cbn match.
  change (default "" (kwarg "SecretId" _)) with arn.
  change (default "" (kwarg "VersionStage" _)) with AWSCURRENT.
  change (kwarg "RemoveFromVersionId" _) with (Some cur).
  change (kwarg "MoveToVersionId" _) with (Some tok).
  unfold lookup_secret. rewrite Hsec.
  unfold move_stage, has_stage. rewrite Hholder. cbn [fmap option_fmap option_map].
  rewrite Hcur.
  rewrite bool_decide_eq_false_2 by (intros [_ ?]; done).
  cbn [from_option]. rewrite Htok.
  rewrite bool_decide_eq_false_2 by (intros [_ ?]; done).
  rewrite bool_decide_eq_false_2 by (intros (_ & _ & _ & ?); done).
  eexists _, _. split; [done|].
  unfold labelled. cbn [store set_store]. rewrite lookup_insert_eq.
  cbn [from_option versions].
  rewrite (filter_relabel_unique cur tok (versions sec) vtok); try done.
  - split; [done|]. by rewrite version_id_relabel.
  - intros v Hv Hst.
    assert (v ∈ filter (fun v => AWSCURRENT ∈ stages v) (versions sec)) as Hvf
      by (by apply list_elem_of_filter).
    rewrite Hlab in Hvf. apply list_elem_of_singleton in Hvf. by subst.
Qed.


(** ** Runs on the sample secret *)

(** The failing run of [finish_secret]: on the sample secret in rotation
    the call raises, [v1] is still the only current version, and the only
    external call made is the failure notification. *)
Lemma finish_secret_sample_run :
  fst (finish_secret sample_env sample_arn "tok" sample_rotating)
  = Err (ParamValidationError
           ("Unknown parameter in input: " +:+ dquote +:+ "ClientRequestToken" +:+ dquote)) /\
  version_id <$> labelled AWSCURRENT sample_arn
                   (store (snd (finish_secret sample_env sample_arn "tok" sample_rotating)))
  = ["v1"] /\
  version_id <$> labelled AWSPENDING sample_arn
                   (store (snd (finish_secret sample_env sample_arn "tok" sample_rotating)))
  = ["tok"] /\
  length (events (snd (finish_secret sample_env sample_arn "tok" sample_rotating))) = 1.
Proof. by vm_compute. Qed.

Lemma create_secret_idempotent_witness :
  create_secret sample_env sample_arn "tok" sample_rotating = (Ok tt, sample_rotating) /\
  (create_secret sample_env sample_arn "tok" sample_rotating = (Ok tt, sample_rotating) /\
   exists v, labelled AWSPENDING sample_arn (store sample_rotating) = [v] /\
             version_id v = "tok").
Proof.
  split.
  - eapply (proj1 (create_secret_idempotent sample_env sample_env sample_arn "tok"
                     sample_rotating)).
    vm_compute. reflexivity.
  - apply (proj1 (proj2 (create_secret_idempotent sample_env sample_env sample_arn "tok"
                           sample_state))).
    + vm_compute. reflexivity.
    + intros E.
      apply (f_equal (fun st => length (from_option versions [] (st !! sample_arn)))) in E.
      vm_compute in E. discriminate E.
Defined.

Lemma engine_defaults_to_postgres_witness :
  (exists pd,
     set_secret sample_env sample_arn "tok" sample_rotating
     = set_postgres_password sample_env sample_record pd sample_rotating /\
     test_secret sample_env sample_arn "tok" sample_rotating
     = test_postgres_connection sample_env pd sample_rotating) /\
  set_secret sample_env sample_arn "tok"
             (sample_rotating_of (<["engine" := JStr "oracle"]> sample_record))
  = (Err (unsupported_engine (JStr "oracle")),
     sample_rotating_of (<["engine" := JStr "oracle"]> sample_record)).
Proof.
  split.
  - eexists.
    edestruct (proj1 (engine_defaults_to_postgres sample_env sample_arn "tok" sample_rotating))
      as (Hset & Htest & _).
    + vm_compute. reflexivity.
    + reflexivity.
    + vm_compute. reflexivity.
    + reflexivity.
    + split; [apply Hset | apply Htest]; by vm_compute.
  - edestruct (proj1 (engine_defaults_to_postgres sample_env sample_arn "tok"
                        (sample_rotating_of (<["engine" := JStr "oracle"]> sample_record))))
      as (_ & _ & Hset & _).
    + vm_compute. reflexivity.
    + reflexivity.
    + vm_compute. reflexivity.
    + reflexivity.
    + apply Hset; [by vm_compute|].
      intros Hin. unfold supported_engines in Hin.
      repeat (apply elem_of_cons in Hin as [Hin|Hin]; [discriminate Hin|]).
      by apply elem_of_nil in Hin.
Defined.

End RotationFacts.

(* ===================================================================== *)
(** * Facts about the maintenance handler *)
(* ===================================================================== *)

Module MaintenanceFacts.
Import Maintenance.

(** ** The report *)

Lemma nonempty_filter {A} (P : A -> Prop) `{!forall x, Decision (P x)} (l : list A) :
  nonempty (filter P l) = true <-> exists x, x ∈ l /\ P x.
Proof.
  split.
  - destruct (filter P l) as [|x l'] eqn:E; [done|]. intros _.
    exists x. apply and_comm, (list_elem_of_filter P). rewrite E. by left.
  - intros (x & Hx & HP).
    assert (x ∈ filter P l) as Hin by (by apply list_elem_of_filter).
    by destruct (filter P l); [apply elem_of_nil in Hin|].
Qed.

(** C2.  The overall status of the report is ['critical'] iff some result
    has severity ['critical'], ['warning'] iff none has and some result has
    severity ['warning'], and ['healthy'] otherwise. *)
Theorem overall_status_worst_severity (env : Env) (maintenance_results : list TaskResult) :
  let overall := overall_status (generate_maintenance_report env maintenance_results) in
  let some_critical := exists r, r ∈ maintenance_results /\ severity r = Some "critical" in
  let some_warning := exists r, r ∈ maintenance_results /\ severity r = Some "warning" in
  (overall = "critical" <-> some_critical) /\
  (overall = "warning" <-> ~ some_critical /\ some_warning) /\
  (overall = "healthy" <-> ~ some_critical /\ ~ some_warning).
Proof.
  cbn zeta. unfold generate_maintenance_report. cbn [overall_status].
  rewrite <- !(nonempty_filter (fun r => severity r = Some _)).
  destruct (nonempty (filter (fun r => severity r = Some "critical") _));
    destruct (nonempty (filter (fun r => severity r = Some "warning") _));
    split_and!; split; try done; intros [? ?]; done.
Qed.

(** ** The checks *)

Section Checks.
Variable env : Env.
Variable conn : DbConnection.

Ltac check_total session :=
  intros s;
  unfold analyze_database_performance, optimize_database_statistics, cleanup_old_data,
    analyze_disk_usage, check_blocking_queries, try_except, bind, emit, lift;
  destruct (session env conn) as [d|e];
  [ repeat match goal with
           | |- context [perf_db_size d] => destruct (perf_db_size d) as [[? ?] ?]
           | |- context [perf_connection_stats d] =>
               destruct (perf_connection_stats d) as [[? ?] ?]
           | |- context [disk_db_size d] => destruct (disk_db_size d) as [? ?]
           end;
    cbn [fst snd];
    repeat match goal with
           | |- context [flag ?a ?b ?c (?l, ?v)] => destruct (flag a b c (l, v))
           | |- context [flag_if_info ?a ?b ?c (?l, ?v)] =>
               destruct (flag_if_info a b c (l, v))
           end;
    eexists; split_and!; [reflexivity | done | by intros ? [=]]
  | eexists; split_and!; [reflexivity | done | by intros ? [= <-]] ].

Lemma analyze_database_performance_total : forall s,
  exists r, analyze_database_performance env conn s
            = (Ok r, s ++ [Session "performance_analysis" conn]) /\
            task r = "performance_analysis" /\
            forall e, performance_session env conn = Err e ->
                      records_failure "performance_analysis" e r.
Proof. check_total performance_session. Qed.

Lemma cleanup_old_data_total : forall s,
  exists r, cleanup_old_data env conn s = (Ok r, s ++ [Session "data_cleanup" conn]) /\
            task r = "data_cleanup" /\
            forall e, cleanup_session env conn = Err e ->
                      records_failure "data_cleanup" e r.
Proof. check_total cleanup_session. Qed.

Lemma analyze_disk_usage_total : forall s,
  exists r, analyze_disk_usage env conn s
            = (Ok r, s ++ [Session "disk_usage_analysis" conn]) /\
            task r = "disk_usage_analysis" /\
            forall e, disk_session env conn = Err e ->
                      records_failure "disk_usage_analysis" e r.
Proof. check_total disk_session. Qed.

Lemma check_blocking_queries_total : forall s,
  exists r, check_blocking_queries env conn s
            = (Ok r, s ++ [Session "blocking_queries_check" conn]) /\
            task r = "blocking_queries_check" /\
            forall e, blocking_session env conn = Err e ->
                      records_failure "blocking_queries_check" e r.
Proof. check_total blocking_session. Qed.

Lemma optimize_database_statistics_total : forall s,
  exists r, optimize_database_statistics env conn s
            = (Ok r, s ++ [Session "statistics_optimization" conn]) /\
            task r = "statistics_optimization" /\
            forall e, statistics_raises env conn e ->
                      records_failure "statistics_optimization" e r.
Proof.
  intros s. unfold optimize_database_statistics, try_except, bind, emit, lift,
    statistics_raises.
  destruct (statistics_session env conn) as [d|e].
  - destruct (commit_raises d) as [e|] eqn:Hc.
    + eexists. split_and!; [reflexivity | done |].
      intros e' [[=]|(d' & [= <-] & Hd)]. rewrite Hc in Hd. by injection Hd as <-.
    + eexists. split_and!; [reflexivity | done |].
      intros e' [[=]|(d' & [= <-] & Hd)]. by rewrite Hc in Hd.
  - eexists. split_and!; [reflexivity | done |].
    intros e' [[= <-]|(d' & [=] & _)]. done.
Qed.
End Checks.

Ltac run_five_tasks env conn s :=
  let E1 := fresh "E1" in let E2 := fresh "E2" in let E3 := fresh "E3" in
  let E4 := fresh "E4" in let E5 := fresh "E5" in
  destruct (analyze_database_performance_total env conn s) as (?r1 & E1 & ?T1 & ?F1);
  destruct (optimize_database_statistics_total env conn
              (s ++ [Session "performance_analysis" conn])) as (?r2 & E2 & ?T2 & ?F2);
  destruct (cleanup_old_data_total env conn
              ((s ++ [Session "performance_analysis" conn])
               ++ [Session "statistics_optimization" conn])) as (?r3 & E3 & ?T3 & ?F3);
  destruct (analyze_disk_usage_total env conn
              (((s ++ [Session "performance_analysis" conn])
                ++ [Session "statistics_optimization" conn])
               ++ [Session "data_cleanup" conn])) as (?r4 & E4 & ?T4 & ?F4);
  destruct (check_blocking_queries_total env conn
              ((((s ++ [Session "performance_analysis" conn])
                 ++ [Session "statistics_optimization" conn])
                ++ [Session "data_cleanup" conn])
               ++ [Session "disk_usage_analysis" conn])) as (?r5 & E5 & ?T5 & ?F5);
  assert (perform_maintenance_tasks env conn s
          = (Ok [r1; r2; r3; r4; r5], s ++ five_sessions conn))
    by (unfold perform_maintenance_tasks, bind; rewrite E1, E2, E3, E4, E5;
        unfold five_sessions; cbn [ret app]; by rewrite <- !app_assoc).

(** The run of the five tasks returns five results, after five sessions. *)
Lemma perform_maintenance_tasks_returns (env : Env) (conn : DbConnection) (s : St) :
  exists r1 r2 r3 r4 r5,
    perform_maintenance_tasks env conn s
    = (Ok [r1; r2; r3; r4; r5], s ++ five_sessions conn).
Proof. run_five_tasks env conn s. by eexists _, _, _, _, _. Qed.

(** C5.  Whatever the sessions do, the five tasks all run, in order, and
    the run of the tasks returns their five results.  A task whose session
    raises records that as its own result, with status ['failed'] and
    severity ['critical'], and the tasks after it run all the same. *)
Theorem failed_task_is_recorded (env : Env) (conn : DbConnection) (s : St) :
  exists r1 r2 r3 r4 r5,
    perform_maintenance_tasks env conn s
    = (Ok [r1; r2; r3; r4; r5], s ++ five_sessions conn) /\
    task <$> [r1; r2; r3; r4; r5]
    = ["performance_analysis"; "statistics_optimization"; "data_cleanup";
       "disk_usage_analysis"; "blocking_queries_check"] /\
    (forall e, performance_session env conn = Err e ->
               records_failure "performance_analysis" e r1) /\
    (forall e, statistics_raises env conn e ->
               records_failure "statistics_optimization" e r2) /\
    (forall e, cleanup_session env conn = Err e ->
               records_failure "data_cleanup" e r3) /\
    (forall e, disk_session env conn = Err e ->
               records_failure "disk_usage_analysis" e r4) /\
    (forall e, blocking_session env conn = Err e ->
               records_failure "blocking_queries_check" e r5).
Proof.
  run_five_tasks env conn s.
  exists r1, r2, r3, r4, r5. split_and!; try done.
  cbn. by rewrite T1, T2, T3, T4, T5.
Qed.

(** ** Metrics and notifications *)

Section Sinks.
Variable env : Env.

Lemma update_custom_metrics_total db_instance_id maintenance_results s :
  update_custom_metrics env db_instance_id maintenance_results s
  = (Ok tt,
     if nonempty (collect_metrics db_instance_id maintenance_results)
     then s ++ [PutMetricData "Prismy/Database"
                  (collect_metrics db_instance_id maintenance_results)]
     else s).
Proof.
  unfold update_custom_metrics, try_except, bind, emit.
  destruct (nonempty _); [|done].
  by destruct (put_metric_data env _ _).
Qed.

Lemma publish_attempt topic subject msg s :
  snd (publish env topic subject msg s) = s ++ [Publish topic subject msg].
Proof. unfold publish, bind, emit. by destruct (sns_publish env _ _ _). Qed.

Lemma send_alert_notification_total topic report critical s :
  exists s', send_alert_notification env topic report critical s = (Ok tt, s').
Proof.
  unfold send_alert_notification, try_except.
  destruct (publish env _ _ _ s) as [[[]|e] s']; by eexists.
Qed.

Lemma send_failure_notification_total topic msg s :
  exists s', send_failure_notification env topic msg s = (Ok tt, s').
Proof.
  unfold send_failure_notification, try_except.
  destruct (negb _); [by eexists|].
  destruct (publish env _ _ _ s) as [[[]|e] s']; by eexists.
Qed.
End Sinks.

(** ** The handler *)

Section Handler.
Variable env : Env.

(** The outer [except] clause notifies, best effort, and raises again. *)
Lemma failure_clause_raises e s :
  exists s',
    bind (try_except
            (send_failure_notification env (environ env !! "SNS_TOPIC_ARN") (str_exc e))
            (fun _ => ret tt))
         (fun _ => raise (A := Response) e) s = (Err e, s').
Proof.
  unfold bind, try_except.
  destruct (send_failure_notification_total env (environ env !! "SNS_TOPIC_ARN")
              (str_exc e) s) as [s' ->].
  by eexists.
Qed.

(** What a returning run went through, and what it returns. *)
Lemma lambda_handler_returns s resp s' :
  lambda_handler env s = (Ok resp, s') ->
  exists db_instance_id sns_topic_arn conn s1 maintenance_results,
    environ env !! "DB_INSTANCE_ID" = Some db_instance_id /\
    environ env !! "SNS_TOPIC_ARN" = Some sns_topic_arn /\
    get_database_connection env db_instance_id s = (Ok conn, s1) /\
    perform_maintenance_tasks env conn s1
    = (Ok maintenance_results, s1 ++ five_sessions conn) /\
    json_dumps env (body resp) = None /\
    resp = mkResponse 200
             (mkBody "Database maintenance completed" maintenance_results
                     (generate_maintenance_report env maintenance_results)).
Proof.
  unfold lambda_handler. unfold try_except at 1.
  match goal with |- context [match ?m s with _ => _ end] =>
    destruct (m s) as [[resp'|e] s2] eqn:Hbody end.
  2:{ destruct (failure_clause_raises e s2) as [s3 ->]. done. }
  intros [= -> ->]. revert Hbody. unfold bind at 1, getenv at 1.
  destruct (environ env !! "DB_INSTANCE_ID") as [db_instance_id|]; [|done]. cbn [ret].
  unfold bind at 1, getenv at 1.
  destruct (environ env !! "SNS_TOPIC_ARN") as [sns_topic_arn|]; [|done]. cbn [ret].
  unfold bind at 1.
  destruct (get_database_connection env db_instance_id s) as [[conn|e] s1] eqn:Hconn;
    [|done].
  unfold bind at 1.
  destruct (perform_maintenance_tasks_returns env conn s1) as (r1 & r2 & r3 & r4 & r5 & Htasks).
  rewrite Htasks.
  unfold bind at 1. rewrite update_custom_metrics_total.
  unfold bind at 1.
  match goal with |- context [if ?c then send_alert_notification _ ?t ?r ?l else _] =>
    destruct c;
    [ match goal with |- context [send_alert_notification _ _ _ _ ?st] =>
        destruct (send_alert_notification_total env t r l st) as [s3 ->] end
    | cbn [ret] ]
  end.
  all: unfold bind;
    destruct (json_dumps env _) as [e|] eqn:Hjson; [done|];
    cbn [ret]; intros [= <- <-];
    by eexists _, _, _, _, _.
Qed.

(** A run that gets its connection returns, unless [json.dumps] refuses
    the body. *)
Lemma lambda_handler_completes s db_instance_id sns_topic_arn conn s1 :
  environ env !! "DB_INSTANCE_ID" = Some db_instance_id ->
  environ env !! "SNS_TOPIC_ARN" = Some sns_topic_arn ->
  get_database_connection env db_instance_id s = (Ok conn, s1) ->
  (forall b, json_dumps env b = None) ->
  exists maintenance_results s',
    perform_maintenance_tasks env conn s1
    = (Ok maintenance_results, s1 ++ five_sessions conn) /\
    lambda_handler env s
    = (Ok (mkResponse 200
             (mkBody "Database maintenance completed" maintenance_results
                     (generate_maintenance_report env maintenance_results))), s').
Proof.
  intros Hid Htopic Hconn Hjson.
  destruct (perform_maintenance_tasks_returns env conn s1) as (r1 & r2 & r3 & r4 & r5 & Htasks).
  exists [r1; r2; r3; r4; r5].
  unfold lambda_handler, try_except at 1.
  unfold bind at 1, getenv at 1. rewrite Hid. cbn [ret].
  unfold bind at 1, getenv at 1. rewrite Htopic. cbn [ret].
  unfold bind at 1. rewrite Hconn.
  unfold bind at 1. rewrite Htasks.
  unfold bind at 1. rewrite update_custom_metrics_total.
  unfold bind at 1.
  match goal with |- context [if ?c then send_alert_notification _ ?t ?r ?l else _] =>
    destruct c;
    [ match goal with |- context [send_alert_notification _ _ _ _ ?st] =>
        destruct (send_alert_notification_total env t r l st) as [s3 ->] end
    | cbn [ret] ]
  end.
  all: unfold bind; rewrite Hjson; cbn [ret]; by eexists.
Qed.
End Handler.

Lemma try_except_cong {S A} (m m' : M S A) (h : Exc -> M S A) s :
  m s = m' s -> try_except m h s = try_except m' h s.
Proof. unfold try_except. by intros ->. Qed.

Lemma bind_cong {S A B} (m : M S A) (k k' : A -> M S B) s :
  (forall a s', k a s' = k' a s') -> bind m k s = bind m k' s.
Proof. intros H. unfold bind. destruct (m s) as [[a|e] s']; [apply H | done]. Qed.

(** The handler does not depend on what the metrics sink answers. *)
Lemma lambda_handler_sink env sink s :
  lambda_handler (with_sink sink env) s = lambda_handler env s.
Proof.
  unfold lambda_handler.
  apply (try_except_cong _ _ _ s).
  apply bind_cong. intros db_instance_id s1.
  apply bind_cong. intros sns_topic_arn s2.
  apply bind_cong. intros db_connection s3.
  apply bind_cong. intros maintenance_results s4.
  unfold bind at 1. rewrite update_custom_metrics_total.
  symmetry. unfold bind at 1. by rewrite update_custom_metrics_total.
Qed.


(** C1, as the handler has it.  The run of the tasks yields five results, so
    the report built from them counts five tasks, whichever of them failed;
    and a response the handler returns carries a report of five tasks. *)
Theorem report_counts_five_tasks (env : Env) (s : St) :
  (forall conn, exists maintenance_results s',
     perform_maintenance_tasks env conn s = (Ok maintenance_results, s') /\
     total_tasks (summary (generate_maintenance_report env maintenance_results)) = 5) /\
  (forall resp s', lambda_handler env s = (Ok resp, s') ->
     length (results (body resp)) = 5 /\
     total_tasks (summary (report (body resp))) = 5).
Proof.
  split.
  - intros conn.
    destruct (perform_maintenance_tasks_returns env conn s) as (r1 & r2 & r3 & r4 & r5 & E).
    by eexists _, _.
  - intros resp s' H.
    apply lambda_handler_returns in H
      as (id & topic & conn & s1 & rs & _ & _ & _ & Htasks & _ & ->).
    destruct (perform_maintenance_tasks_returns env conn s1) as (r1 & r2 & r3 & r4 & r5 & E).
    rewrite Htasks in E. by injection E as ->.
Qed.

Lemma result_metrics_elem db_instance_id r d :
  d ∈ result_metrics db_instance_id r <->
  exists entries name value,
    status r = "completed" /\ metrics r = Some entries /\ (name, value) ∈ entries /\
    d = mkMetricDatum ("DB_" +:+ name) value "Count"
                      [("DBInstanceIdentifier", db_instance_id)].
Proof.
  unfold result_metrics. destruct (metrics r) as [entries|].
  - case_bool_decide as Hst.
    + rewrite list_elem_of_fmap. split.
      * intros ([name value] & -> & Hin). by exists entries, name, value.
      * intros (entries' & name & value & _ & [= <-] & Hin & ->). by exists (name, value).
    + split; [by intros ?%elem_of_nil | by intros (? & ? & ? & ? & _)].
  - split; [by intros ?%elem_of_nil | by intros (? & ? & ? & _ & ? & _)].
Qed.

(** C10.  [update_custom_metrics] returns whatever the sink does, so the
    handler is the same function of its other inputs whatever the sink
    answers: a run that has its connection returns the report even when
    the sink raises.  The metrics sent are those of the results with status
    ['completed'] that have a ['metrics'] entry; a failed result adds none. *)
Theorem metrics_failure_is_swallowed (env : Env) (sink : string -> list MetricDatum -> option Exc)
    (db_instance_id : string) (maintenance_results : list TaskResult) (s : St) :
  (exists s', update_custom_metrics (with_sink sink env) db_instance_id maintenance_results s
              = (Ok tt, s')) /\
  lambda_handler (with_sink sink env) s = lambda_handler env s /\
  (forall sns_topic_arn conn s1,
     environ env !! "DB_INSTANCE_ID" = Some db_instance_id ->
     environ env !! "SNS_TOPIC_ARN" = Some sns_topic_arn ->
     get_database_connection env db_instance_id s = (Ok conn, s1) ->
     (forall b, json_dumps env b = None) ->
     exists results s',
       lambda_handler (with_sink sink env) s
       = (Ok (mkResponse 200
                (mkBody "Database maintenance completed" results
                        (generate_maintenance_report env results))), s')) /\
  (forall d, d ∈ collect_metrics db_instance_id maintenance_results <->
     exists r entries name value,
       r ∈ maintenance_results /\ status r = "completed" /\
       metrics r = Some entries /\ (name, value) ∈ entries /\
       d = mkMetricDatum ("DB_" +:+ name) value "Count"
                         [("DBInstanceIdentifier", db_instance_id)]) /\
  (forall r, status r = "failed" -> result_metrics db_instance_id r = []).
Proof.
  split_and!.
  - rewrite update_custom_metrics_total. by eexists.
  - apply lambda_handler_sink.
  - intros topic conn s1 Hid Htopic Hconn Hjson. rewrite lambda_handler_sink.
    destruct (lambda_handler_completes env s _ _ _ _ Hid Htopic Hconn Hjson)
      as (rs & s' & _ & H).
    by exists rs, s'.
  - intros d. unfold collect_metrics.
    rewrite list_elem_of_In, in_flat_map. split.
    + intros (r & Hr%list_elem_of_In & Hd%list_elem_of_In).
      apply result_metrics_elem in Hd as (entries & name & value & Hd).
      by exists r, entries, name, value.
    + intros (r & entries & name & value & Hr & Hd).
      exists r. rewrite <- !list_elem_of_In. split; [done|].
      apply result_metrics_elem. by exists entries, name, value.
  - intros r Hst. unfold result_metrics. destruct (metrics r); [|done].
    rewrite bool_decide_eq_false_2; [done|]. by rewrite Hst.
Qed.

(** ** Runs on the sample deployment *)

(** The report of a run counts five tasks, not six: with every task
    completing, and with the performance task failing. *)
Lemma total_tasks_is_not_six :
  (exists resp s',
     lambda_handler (sample_env (Ok sample_performance) None) [] = (Ok resp, s') /\
     total_tasks (summary (report (body resp))) <> 6) /\
  (exists resp s',
     lambda_handler (sample_env (Err (DriverError "connection refused")) None) []
     = (Ok resp, s') /\
     failed_tasks (summary (report (body resp))) = 1 /\
     total_tasks (summary (report (body resp))) <> 6).
Proof.
  split; eexists _, _; (split; [vm_compute; reflexivity | by vm_compute]).
Qed.

Lemma report_counts_five_tasks_witness :
  exists resp s',
    lambda_handler (sample_env (Err (DriverError "connection refused")) None) []
    = (Ok resp, s') /\
    length (results (body resp)) = 5 /\
    total_tasks (summary (report (body resp))) = 5.
Proof.
  destruct (lambda_handler (sample_env (Err (DriverError "connection refused")) None) [])
    as [[resp|e] s'] eqn:E.
  - exists resp, s'. split; [done|].
    exact (proj2 (report_counts_five_tasks
                    (sample_env (Err (DriverError "connection refused")) None) [])
                 resp s' E).
  - vm_compute in E. discriminate E.
Defined.

Lemma failed_task_is_recorded_witness :
  exists r1 rest s',
    perform_maintenance_tasks
      (sample_env (Err (DriverError "connection refused")) None)
      (mkDbConnection "db.internal" 5432 "prismy" "admin" "hunter2" "postgres") []
    = (Ok (r1 :: rest), s') /\
    records_failure "performance_analysis" (DriverError "connection refused") r1 /\
    (status <$> rest) = ["completed"; "completed"; "completed"; "completed"].
Proof.
  destruct (failed_task_is_recorded
              (sample_env (Err (DriverError "connection refused")) None)
              (mkDbConnection "db.internal" 5432 "prismy" "admin" "hunter2" "postgres") [])
    as (r1 & r2 & r3 & r4 & r5 & E & _ & F1 & _).
  exists r1, [r2; r3; r4; r5]. eexists. split; [exact E|].
  split; [by apply F1 |].
  vm_compute in E. by injection E as <- <- <- <- <-.
Defined.

Lemma metrics_failure_is_swallowed_witness :
  exists results s',
    lambda_handler
      (with_sink (fun _ _ => Some (ClientError "Throttling"))
                 (sample_env (Ok sample_performance) None)) []
    = (Ok (mkResponse 200
             (mkBody "Database maintenance completed" results
                (generate_maintenance_report (sample_env (Ok sample_performance) None)
                                             results))), s').
Proof.
  eapply (proj1 (proj2 (proj2
            (metrics_failure_is_swallowed (sample_env (Ok sample_performance) None)
               (fun _ _ => Some (ClientError "Throttling")) "prismy-db" [] [])))).
  - by vm_compute.
  - by vm_compute.
  - vm_compute. reflexivity.
  - done.
Defined.

End MaintenanceFacts.

(* ===================================================================== *)
(** * More about the deployment runner *)
(* ===================================================================== *)

Module DeployMore.
Import Deploy DeployFacts.

Ltac in_run Hin :=
  repeat (apply elem_of_cons in Hin as [Hin|Hin];
          [ first [ exfalso; vm_compute in Hin; discriminate Hin
                  | injection Hin as ?; subst ] | ]);
  try (by apply elem_of_nil in Hin).

(** X1.  [main] returns 0 exactly when the push command was run and
    returned 0. *)
Theorem success_iff_push_succeeded {W} (host : Host W) (w : W) :
  fst (main host w) = Return 0 <-> (cmd_push, 0%Z) ∈ ran (snd (main host w)).
Proof.
  destruct (chdir host project_dir w) as [w'|] eqn:Hcd.
  2:{ destruct (main_no_directory host w Hcd) as [-> ->].
      split; [done | by intros ?%elem_of_nil]. }
  destruct (main_run host w w' Hcd) as [HR _].
  inversion HR as [r0 r1 ? E O|r0 r3 E O|r0 r2 r r3 ? E O]; split.
  - intros [=].
  - intros Hin. in_run Hin.
  - case_decide as E3; [| intros [=]]. intros _. subst r3.
    repeat constructor.
  - intros Hin. in_run Hin. by rewrite decide_True.
  - case_decide as E3; [| intros [=]]. intros _. subst r3.
    repeat constructor.
  - intros Hin. in_run Hin. by rewrite decide_True.
Qed.

(** X2.  A failed [git add -A] ends the run: the status is 1, and neither
    the commit nor the push is run. *)
Theorem add_failure_aborts {W} (host : Host W) (w : W) (rc : Z) :
  (cmd_add, rc) ∈ ran (snd (main host w)) -> rc <> 0%Z ->
  fst (main host w) = Return 1 /\
  exists r0, ran (snd (main host w)) = [(cmd_status_porcelain, r0); (cmd_add, rc)].
Proof.
  intros Hin Hrc.
  destruct (chdir host project_dir w) as [w'|] eqn:Hcd.
  2:{ destruct (main_no_directory host w Hcd) as [_ R]. rewrite R in Hin.
      by apply elem_of_nil in Hin. }
  destruct (main_run host w w' Hcd) as [HR _].
  inversion HR as [r0 r1 ? E O|r0 r3 E O|r0 r2 r r3 ? E O];
    rewrite <- E in Hin; in_run Hin; try done.
  split; [done | by exists r0].
Qed.

(** X3.  The plain [git status] is run exactly when the commit was run and
    failed. *)
Theorem status_rerun_iff_commit_failed {W} (host : Host W) (w : W) :
  (exists r, (cmd_status, r) ∈ ran (snd (main host w))) <->
  (exists rc, (cmd_commit, rc) ∈ ran (snd (main host w)) /\ rc <> 0%Z).
Proof.
  destruct (chdir host project_dir w) as [w'|] eqn:Hcd.
  2:{ destruct (main_no_directory host w Hcd) as [_ ->].
      split; [intros [r Hin] | intros [r [Hin _]]]; by apply elem_of_nil in Hin. }
  destruct (main_run host w w' Hcd) as [HR _].
  inversion HR as [r0 r1 ? E O|r0 r3 E O|r0 r2 r r3 ? E O]; split.
  - intros [x Hin]. in_run Hin.
  - intros [x [Hin Hx]]. in_run Hin.
  - intros [x Hin]. in_run Hin.
  - intros [x [Hin Hx]]. in_run Hin. done.
  - intros _. exists r2. split; [repeat constructor | done].
  - intros _. exists r. repeat constructor.
Qed.

(** X4.  The last line printed tells how the run ended: it is the Vercel
    line exactly when [main] returns 0, and one of the two failure lines
    when it returns 1. *)
Theorem last_line_tells_outcome {W} (host : Host W) (w : W) :
  is_Some (chdir host project_dir w) ->
  (fst (main host w) = Return 0 <->
   last (printed (snd (main host w)))
   = Some (Text "Vercel will automatically deploy from GitHub.")) /\
  (fst (main host w) = Return 1 <->
   last (printed (snd (main host w))) = Some (Text "Failed to add files") \/
   last (printed (snd (main host w))) = Some (Text "Failed to push to GitHub")).
Proof.
  intros [w' Hcd]. unfold main. cbn [world print]. rewrite Hcd.
  destruct (run_command host cmd_status_porcelain _) as [b0 s0].
  destruct (run_command host cmd_add _) as [[] s1]; cbn [negb];
    [ destruct (run_command host cmd_commit _) as [b2 s2];
      destruct (run_command host cmd_push _) as [[] s3]; cbn [negb] | ];
    cbn [fst snd printed print]; rewrite last_snoc;
    split; split; intros H;
    first [ done | discriminate H | by left | by right
          | destruct H as [H|H]; discriminate H ].
Qed.

Lemma add_failure_aborts_witness :
  fst (main (scripted 0) [3]%Z) = Return 1 /\
  exists r0, ran (snd (main (scripted 0) [3]%Z))
             = [(cmd_status_porcelain, r0); (cmd_add, 3%Z)].
Proof.
  apply (add_failure_aborts (scripted 0) [3]%Z 3%Z).
  - vm_compute. repeat constructor.
  - done.
Defined.

Lemma last_line_tells_outcome_witness :
  (fst (main (scripted 0) [0; 0; 1]%Z) = Return 0 <->
   last (printed (snd (main (scripted 0) [0; 0; 1]%Z)))
   = Some (Text "Vercel will automatically deploy from GitHub.")) /\
  (fst (main (scripted 0) [0; 0; 1]%Z) = Return 1 <->
   last (printed (snd (main (scripted 0) [0; 0; 1]%Z))) = Some (Text "Failed to add files") \/
   last (printed (snd (main (scripted 0) [0; 0; 1]%Z))) = Some (Text "Failed to push to GitHub")).
Proof.
  apply (last_line_tells_outcome (scripted 0) [0; 0; 1]%Z). by eexists.
Defined.

End DeployMore.


(* ===================================================================== *)
(** * More about the rotation handler *)
(* ===================================================================== *)

Module RotationMore.
Import Rotation RotationFacts.

(** ** Randomness *)

Lemma drew_0 s : drew 0 s = s.
Proof. destruct s. unfold drew. cbn. by rewrite Nat.add_0_r. Qed.

Lemma drew_drew n m s : drew m (drew n s) = drew (n + m) s.
Proof. unfold drew. cbn. by rewrite Nat.add_assoc. Qed.

Lemma append_cons c (s t : string) : String c s +:+ t = String c (s +:+ t).
Proof. reflexivity. Qed.

Lemma append_nil_r (s : string) : s +:+ EmptyString = s.
Proof. induction s as [|c s IH]; [done|]. by rewrite append_cons, IH. Qed.

Lemma append_assoc (s t u : string) : (s +:+ t) +:+ u = s +:+ (t +:+ u).
Proof. induction s as [|c s IH]; [done|]. by rewrite !append_cons, IH. Qed.

Lemma list_ascii_of_string_app (s1 s2 : string) :
  list_ascii_of_string (s1 +:+ s2) = list_ascii_of_string s1 ++ list_ascii_of_string s2.
Proof.
  induction s1 as [|c s1 IH]; [done|]. rewrite append_cons. cbn. by f_equal.
Qed.

Section Draws.
Variable env : Env.

Lemma randbelow_drew n s :
  randbelow env n s = (Ok (entropy env (drawn s) mod n), drew 1 s).
Proof. unfold randbelow, drew. by rewrite Nat.add_1_r. Qed.

Lemma choice_drew (seq : string) s :
  seq <> EmptyString ->
  exists c, choice env seq s = (Ok c, drew 1 s) /\ c ∈ list_ascii_of_string seq.
Proof.
  intros Hne. unfold choice.
  assert (length (list_ascii_of_string seq) <> 0) as Hlen by (by destruct seq).
  rewrite bool_decide_eq_false_2 by done.
  unfold bind. rewrite randbelow_drew.
  set (k := entropy env (drawn s) mod length (list_ascii_of_string seq)).
  assert (k < length (list_ascii_of_string seq)) as Hk
    by (apply Nat.mod_upper_bound; done).
  destruct (lookup_lt_is_Some_2 _ _ Hk) as [c Hc]. rewrite Hc.
  exists c. split; [done | by eapply list_elem_of_lookup_2].
Qed.

Lemma fill_drew n : forall password s,
  exists l, fill env n password s = (Ok (password ++ l), drew n s) /\
            length l = n /\
            forall c, c ∈ l -> c ∈ list_ascii_of_string PASSWORD_CHARSET.
Proof.
  induction n as [|n IH]; intros password s.
  - exists []. rewrite app_nil_r, drew_0. split_and!; [done..|].
    by intros c ?%elem_of_nil.
  - destruct (choice_drew PASSWORD_CHARSET s) as (c & Hc & Hin); [done|].
    destruct (IH (password ++ [c]) (drew 1 s)) as (l & Hl & Hn & Hall).
    exists (c :: l). cbn [fill]. rewrite (bind_ok _ _ _ _ _ Hc), Hl, drew_drew.
    split_and!; [by rewrite <- app_assoc | by cbn; rewrite Hn |].
    intros c' [->|Hc']%elem_of_cons; [done | by apply Hall].
Qed.

Lemma shuffle_loop_drew n : forall (x : list ascii) s,
  n < length x ->
  exists x', shuffle_loop env n x s = (Ok x', drew n s) /\ x' ≡ₚ x.
Proof.
  induction n as [|n IH]; intros x s Hn.
  - exists x. by rewrite drew_0.
  - cbn [shuffle_loop]. unfold bind at 1. rewrite randbelow_drew.
    set (j := entropy env (drawn s) mod (S n + 1)).
    assert (j < S n + 1) as Hj by (apply Nat.mod_upper_bound; lia).
    destruct (swap_ok x (S n) j (drew 1 s)) as (x1 & Hx1 & P1); [lia..|].
    rewrite (bind_ok _ _ _ _ _ Hx1).
    destruct (IH x1 (drew 1 s)) as (x2 & Hx2 & P2).
    { apply Permutation_length in P1. lia. }
    exists x2. rewrite Hx2, drew_drew. split; [done | by rewrite P2].
Qed.
End Draws.

(** X5.  [generate_password] draws 63 random numbers (4 for the classes,
    28 to fill, 31 to shuffle), touches neither the store nor any service,
    and every character of the password is one of [PASSWORD_CHARSET]. *)
Theorem generate_password_charset (env : Env) (s : St) :
  exists password,
    generate_password env s
    = (Ok password, mkSt (store s) (drawn s + 63) (events s)) /\
    forall c, c ∈ list_ascii_of_string password ->
              c ∈ list_ascii_of_string PASSWORD_CHARSET.
Proof.
  unfold generate_password.
  destruct (choice_drew env ascii_lowercase s) as (c1 & H1 & I1); [done|].
  destruct (choice_drew env ascii_uppercase (drew 1 s)) as (c2 & H2 & I2); [done|].
  destruct (choice_drew env digits (drew 1 (drew 1 s))) as (c3 & H3 & I3); [done|].
  destruct (choice_drew env symbols (drew 1 (drew 1 (drew 1 s)))) as (c4 & H4 & I4); [done|].
  destruct (fill_drew env (PASSWORD_LENGTH - 4) [c1; c2; c3; c4]
              (drew 1 (drew 1 (drew 1 (drew 1 s))))) as (l & H5 & L5 & A5).
  destruct (shuffle_loop_drew env (length ([c1; c2; c3; c4] ++ l) - 1)
              ([c1; c2; c3; c4] ++ l)
              (drew (PASSWORD_LENGTH - 4) (drew 1 (drew 1 (drew 1 (drew 1 s))))))
    as (x & H6 & P6); [cbn; lia|].
  unfold shuffle.
  rewrite (bind_ok _ _ _ _ _ H1), (bind_ok _ _ _ _ _ H2), (bind_ok _ _ _ _ _ H3),
          (bind_ok _ _ _ _ _ H4), (bind_ok _ _ _ _ _ H5), (bind_ok _ _ _ _ _ H6).
  eexists. split.
  { cbn [ret]. f_equal. rewrite !drew_drew. unfold drew. f_equal.
    rewrite length_app, L5. cbn. lia. }
  rewrite list_ascii_of_string_of_list_ascii. intros c Hc. rewrite P6 in Hc.
  assert (forall cls c', c' ∈ list_ascii_of_string cls ->
            (exists pre post, PASSWORD_CHARSET = pre +:+ cls +:+ post) ->
            c' ∈ list_ascii_of_string PASSWORD_CHARSET) as Hsub.
  { intros cls c' Hc' (pre & post & ->).
    rewrite !list_ascii_of_string_app, !elem_of_app. auto. }
  apply elem_of_app in Hc as [Hc|Hc]; [| by apply A5].
  repeat (apply elem_of_cons in Hc as [->|Hc]); [ | | | | by apply elem_of_nil in Hc].
  - apply (Hsub ascii_lowercase); [done|].
    by exists EmptyString, (ascii_uppercase +:+ digits +:+ symbols).
  - apply (Hsub ascii_uppercase); [done|].
    by exists ascii_lowercase, (digits +:+ symbols).
  - apply (Hsub digits); [done|].
    by exists ascii_letters, symbols.
  - apply (Hsub symbols); [done|].
    by exists (ascii_letters +:+ digits), EmptyString.
Qed.

(** ** The secret name of a notification *)

Lemma last_segment_from_spec (s acc : string) :
  ~ (":"%char ∈ list_ascii_of_string acc) ->
  ~ (":"%char ∈ list_ascii_of_string (last_segment_from acc s)) /\
  (exists pre, acc +:+ s = pre +:+ last_segment_from acc s) /\
  (~ (":"%char ∈ list_ascii_of_string s) -> last_segment_from acc s = acc +:+ s).
Proof.
  revert acc. induction s as [|c s IH]; intros acc Hacc.
  - cbn [last_segment_from]. rewrite append_nil_r. split_and!; [done | | done].
    by exists EmptyString.
  - cbn [last_segment_from]. destruct (Ascii.eqb c ":") eqn:Hc.
    + apply Ascii.eqb_eq in Hc as ->.
      destruct (IH EmptyString) as (H1 & [pre H2] & H3); [by intros ?%elem_of_nil|].
      change (EmptyString +:+ s) with s in H2.
      split_and!; [done | |].
      * exists (acc +:+ String ":" pre).
        by rewrite append_assoc, append_cons, <- H2.
      * intros Hn. exfalso. apply Hn. cbn. by left.
    + apply Ascii.eqb_neq in Hc.
      destruct (IH (acc +:+ String c EmptyString)) as (H1 & [pre H2] & H3).
      { rewrite list_ascii_of_string_app. intros [?|Hin]%elem_of_app; [done|].
        cbn in Hin. apply elem_of_cons in Hin as [Hin|Hin]; [by subst|].
        by apply elem_of_nil in Hin. }
      rewrite append_assoc in H2, H3.
      change (String c EmptyString +:+ s) with (String c s) in H2, H3.
      split_and!; [done | by exists pre |].
      intros Hn. apply H3. intros Hin. apply Hn. cbn. by right.
Qed.

(** X6.  [last_segment], the [split(':')[-1]] of the notification: the
    result has no colon and ends the input; an input without a colon is
    returned as it is. *)
Theorem last_segment_is_suffix (s : string) :
  ~ (":"%char ∈ list_ascii_of_string (last_segment s)) /\
  (exists pre, s = pre +:+ last_segment s) /\
  (~ (":"%char ∈ list_ascii_of_string s) -> last_segment s = s).
Proof.
  unfold last_segment.
  destruct (last_segment_from_spec s EmptyString) as (H1 & H2 & H3);
    [by intros ?%elem_of_nil|].
  done.
Qed.

(** ** The health check *)

Lemma hexlify_byte_hex (b : nat) :
  String.length (hexlify_byte b) = 2 /\
  forall c, c ∈ list_ascii_of_string (hexlify_byte b) ->
            c ∈ list_ascii_of_string hex_digits.
Proof.
  split; [done|]. unfold hexlify_byte. cbn [list_ascii_of_string].
  assert (forall k, default "0"%char (list_ascii_of_string hex_digits !! k)
                    ∈ list_ascii_of_string hex_digits) as Hd.
  { intros k. destruct (list_ascii_of_string hex_digits !! k) as [c|] eqn:Hk.
    - by eapply list_elem_of_lookup_2.
    - cbn. by left. }
  intros c [->|[->|Hc]%elem_of_cons]%elem_of_cons; [apply Hd.. |].
  by apply elem_of_nil in Hc.
Qed.

Lemma length_append (s t : string) :
  String.length (s +:+ t) = String.length s + String.length t.
Proof. induction s as [|c s IH]; [done|]. rewrite append_cons. cbn. by rewrite IH. Qed.

Lemma token_hex_spec env n : forall s,
  exists token,
    token_hex env n s = (Ok token, drew n s) /\
    String.length token = 2 * n /\
    forall c, c ∈ list_ascii_of_string token -> c ∈ list_ascii_of_string hex_digits.
Proof.
  induction n as [|n IH]; intros s.
  - exists EmptyString. rewrite drew_0. split_and!; [done..|]. by intros c ?%elem_of_nil.
  - cbn [token_hex]. unfold bind at 1. rewrite randbelow_drew.
    destruct (IH (drew 1 s)) as (rest & Hrest & Hlen & Hall).
    unfold bind. rewrite Hrest, drew_drew. eexists. split; [done|].
    destruct (hexlify_byte_hex (entropy env (drawn s) mod 256)) as [Hl Hb].
    split.
    + rewrite length_append, Hl, Hlen. lia.
    + intros c. rewrite list_ascii_of_string_app. intros [?|?]%elem_of_app; auto.
Qed.

(** X7.  [health_check] never raises.  It answers ['healthy'] when the
    listing call succeeds and ['unhealthy'] with the text of the exception
    when it fails; in both cases the ['timestamp'] is a fresh token of 16
    hexadecimal digits between double quotes (8 random bytes), and nothing
    else is touched. *)
Theorem health_check_never_raises (env : Env) (list_secrets : Result unit) (s : St) :
  exists h token,
    health_check env list_secrets s
    = (Ok h, mkSt (store s) (drawn s + 8) (events s)) /\
    health_timestamp h = dquote +:+ token +:+ dquote /\
    String.length token = 16 /\
    (forall c, c ∈ list_ascii_of_string token ->
               c ∈ list_ascii_of_string "0123456789abcdef") /\
    match list_secrets with
    | Ok _ => health_status h = "healthy" /\ health_error h = None
    | Err e => health_status h = "unhealthy" /\ health_error h = Some (str_exc e) /\
               health_services h = None
    end.
Proof.
  destruct (token_hex_spec env 8 s) as (token & Htok & Hlen & Hall).
  unfold health_check, try_except, bind, lift.
  destruct list_secrets as [[]|e]; rewrite Htok; by eexists _, token.
Qed.

(** ** [createSecret] *)

(** Either [create_secret] changes neither the store nor the calls made, or
    it returns after adding, under the token, the current record with a new
    password. *)
Lemma create_secret_outcome env arn tok s :
  (store (snd (create_secret env arn tok s)) = store s /\
   events (snd (create_secret env arn tok s)) = events s) \/
  exists cur d sec p s',
    peek arn None (Some AWSCURRENT) (store s) = Ok cur /\
    json_loads (secret_string cur) = Ok d /\
    store s !! arn = Some sec /\
    find (has_id tok) (versions sec) = None /\
    String.length p = PASSWORD_LENGTH /\
    only_drew s s' /\
    create_secret env arn tok s
    = (Ok tt, set_store (with_pending arn tok (json_dumps (<["password" := JStr p]> d))
                                      sec (store s)) s').
Proof.
  unfold create_secret, log_and_reraise, try_except, bind.
  rewrite get_secret_value_peek.
  destruct (peek arn (Some tok) (Some AWSPENDING) (store s)) as [v|e]; [by left|].
  case_decide; [|by left]. cbn [ret].
  rewrite get_secret_value_peek.
  destruct (peek arn None (Some AWSCURRENT) (store s)) as [cur|e'] eqn:Hcur; [|by left].
  unfold lift. destruct (json_loads (secret_string cur)) as [d|e'] eqn:Hd; [|by left].
  destruct (generate_password_ok env s) as (p & s1 & Hp & D1 & Hlen & _). rewrite Hp.
  pose proof D1 as [D D'].
  destruct s1 as [st1 n1 ev1]. cbn [store events] in D, D'. subst st1 ev1.
  unfold put_secret_value, lookup_secret. cbn [store].
  destruct (store s !! arn) as [sec|] eqn:Hsec; [|by left].
  destruct (find (has_id tok) (versions sec)) as [ver|] eqn:Hf.
  - case_decide; by left.
  - right. by eexists cur, d, sec, p, _.
Qed.

Lemma filter_relabelled (P : Version -> Prop) `{!forall v, Decision (P v)}
    (f : Version -> Version) (vs : list Version) :
  (forall v, P (f v) <-> P v) -> (forall v, version_id (f v) = version_id v) ->
  version_id <$> filter P (map f vs) = version_id <$> filter P vs.
Proof.
  intros HP Hid. induction vs as [|v vs IH]; [done|]. cbn [map].
  destruct (decide (P v)) as [Hv|Hv].
  - rewrite (filter_cons_True P (f v)) by (by apply HP).
    rewrite (filter_cons_True P v) by done. cbn. by rewrite Hid, IH.
  - rewrite (filter_cons_False P (f v)) by (by rewrite HP).
    rewrite (filter_cons_False P v) by done. exact IH.
Qed.

Lemma content_remove_stages ls (vs : list Version) :
  content <$> map (remove_stages ls) vs = content <$> vs.
Proof. induction vs as [|v vs IH]; [done|]. cbn. by rewrite <- IH. Qed.

(** X8.  A call of [create_secret] that changes the store adds one version:
    its id is the token, its only label is [AWSPENDING], and its record is
    the current record with the password replaced by a new one of 32
    characters.  The versions there before keep their ids and contents, and
    the versions labelled [AWSCURRENT] stay the same. *)
Theorem create_secret_new_version (env : Env) (arn tok : string) (s s1 : St) :
  create_secret env arn tok s = (Ok tt, s1) -> store s1 <> store s ->
  exists cur d p sec sec1,
    fst (get_secret_value arn None (Some AWSCURRENT) s) = Ok cur /\
    json_loads (secret_string cur) = Ok d /\
    String.length p = 32 /\
    store s !! arn = Some sec /\ store s1 !! arn = Some sec1 /\
    secret_name sec1 = secret_name sec /\
    content <$> versions sec1
    = (content <$> versions sec) ++ [(tok, JsonObject (<["password" := JStr p]> d))] /\
    labelled AWSPENDING arn (store s1)
    = [mkVersion tok (JsonObject (<["password" := JStr p]> d)) [AWSPENDING]] /\
    version_id <$> labelled AWSCURRENT arn (store s1)
    = version_id <$> labelled AWSCURRENT arn (store s).
Proof.
  intros Hrun Hne.
  destruct (create_secret_outcome env arn tok s)
    as [[Hst _]|(cur & d & sec & p & s' & Hcur & Hd & Hsec & Hnone & Hlen & _ & Hw)].
  { by rewrite Hrun in Hst. }
  rewrite Hrun in Hw. injection Hw as ->.
  eexists cur, d, p, sec, _. rewrite get_secret_value_peek.
  cbn [fst store set_store]. unfold with_pending at 1. rewrite lookup_insert_eq.
  split_and!; try done.
  - cbn [versions]. by rewrite fmap_app, content_remove_stages.
  - apply labelled_with_pending.
  - unfold labelled, with_pending. rewrite lookup_insert_eq, Hsec.
    cbn [from_option versions]. rewrite filter_app.
    rewrite (filter_cons_False _ (mkVersion _ _ _)); [|cbn; by intros [= ]%list_elem_of_singleton].
    rewrite filter_nil, app_nil_r.
    apply (filter_relabelled (fun v => AWSCURRENT ∈ stages v)); [|done].
    intros v. unfold remove_stages. cbn [stages]. rewrite list_elem_of_filter.
    split; [by intros [_ ?] |]. intros Hv. split; [|done].
    by intros [= ]%list_elem_of_singleton.
Qed.

(** X9.  [create_secret] calls neither the database nor the notification
    service, and leaves every other secret of the store as it is. *)
Theorem create_secret_is_local (env : Env) (arn tok : string) (s : St) :
  events (snd (create_secret env arn tok s)) = events s /\
  forall other, other <> arn ->
    store (snd (create_secret env arn tok s)) !! other = store s !! other.
Proof.
  destruct (create_secret_outcome env arn tok s)
    as [[Hst Hev]|(cur & d & sec & p & s' & _ & _ & _ & _ & _ & [_ Hev] & Hw)].
  - split; [done|]. intros other _. by rewrite Hst.
  - rewrite Hw. cbn [snd store events set_store]. split; [done|].
    intros other Hne. unfold with_pending. by rewrite lookup_insert_ne.
Qed.

Lemma create_secret_new_version_witness :
  exists cur d p sec sec1,
    fst (get_secret_value sample_arn None (Some AWSCURRENT) sample_state) = Ok cur /\
    json_loads (secret_string cur) = Ok d /\
    String.length p = 32 /\
    store sample_state !! sample_arn = Some sec /\
    store sample_rotating !! sample_arn = Some sec1 /\
    secret_name sec1 = secret_name sec /\
    content <$> versions sec1
    = (content <$> versions sec) ++ [("tok", JsonObject (<["password" := JStr p]> d))] /\
    labelled AWSPENDING sample_arn (store sample_rotating)
    = [mkVersion "tok" (JsonObject (<["password" := JStr p]> d)) [AWSPENDING]] /\
    version_id <$> labelled AWSCURRENT sample_arn (store sample_rotating)
    = version_id <$> labelled AWSCURRENT sample_arn (store sample_state).
Proof.
  apply (create_secret_new_version sample_env sample_arn "tok" sample_state sample_rotating).
  - vm_compute. reflexivity.
  - intros E.
    apply (f_equal (fun st => length (from_option versions [] (st !! sample_arn)))) in E.
    vm_compute in E. discriminate E.
Defined.

(** ** [setSecret] and [testSecret] *)

Section Steps.
Variable env : Env.

(** The routines that change a password: one database call, run with the
    credentials of the first record for the account of the second. *)
Lemma set_password_effect (m : dict -> dict -> M St unit) cur new s :
  m = set_postgres_password env \/ m = set_mysql_password env ->
  store (snd (m cur new s)) = store s /\
  exists ev, events (snd (m cur new s)) = events s ++ [ev] /\
             connects_as cur ev /\ alters_user_of new ev.
Proof.
  intros [-> | ->];
    unfold set_postgres_password, set_mysql_password, log_and_reraise, try_except,
      bind, db_call;
    destruct (driver env _); cbn; (split; [done|]);
    (eexists; split; [done|]);
    (split;
     [ eexists _, _; split; [reflexivity|]; split;
       [ right; right; eexists _, _; first [left; reflexivity | right; reflexivity]
       | done ]
     | eexists; first [left; reflexivity | right; reflexivity] ]).
Qed.

(** The routines that test a connection: one [SELECT 1], run with the
    credentials of the record and a timeout of 10 seconds; the routine
    returns exactly when the query answers 1. *)
Lemma test_connection_effect (m : dict -> M St unit) d s :
  m = test_postgres_connection env \/ m = test_mysql_connection env ->
  store (snd (m d s)) = store s /\
  exists c conn,
    events (snd (m d s)) = events s ++ [Db c] /\
    (c = PgSelect1 conn \/ c = MysqlSelect1 conn) /\
    connects_as d (Db c) /\ connect_timeout conn = Some 10%Z /\
    (fst (m d s) = Ok tt <-> driver env c = inr 1%Z) /\
    (forall z, driver env c = inr z -> z <> 1%Z ->
               fst (m d s) = Err (PlainException "Database test query failed")).
Proof.
  intros [-> | ->];
    unfold test_postgres_connection, test_mysql_connection, log_and_reraise, try_except,
      bind, db_call;
    (destruct (driver env _) as [msg|z] eqn:Hdrv; cbn;
     [| case_bool_decide as Hz; cbn]);
    (split; [done|]); eexists _, _; (split; [reflexivity|]);
    (split; [first [left; reflexivity | right; reflexivity]|]);
    (split; [eexists _, _; split; [reflexivity|]; split;
             [first [left; reflexivity | right; left; reflexivity] | done] |]);
    (split; [done|]); rewrite Hdrv.
  all: split;
    [ split; intros H;
      first [ discriminate H | done | f_equal; lia
            | injection H as ?; subst; done ]
    | intros z' H Hz'; first [ discriminate H | injection H as <-; done ] ].
Qed.
End Steps.


Lemma dispatch_supported (engine : JVal) :
  engine ∈ supported_engines ->
  bool_decide (engine ∈ [JStr "postgres"; JStr "postgresql"]) = true \/
  (bool_decide (engine ∈ [JStr "postgres"; JStr "postgresql"]) = false /\
   bool_decide (engine = JStr "mysql") = true).
Proof.
  unfold supported_engines. intros Hin.
  repeat (apply elem_of_cons in Hin as [->|Hin]); [by left | by left | by right |].
  by apply elem_of_nil in Hin.
Qed.

(** X10.  With both records fetched and an engine that is absent or
    supported, [set_secret] makes exactly one database call: an
    [ALTER USER] over a connection opened with the credentials of the
    current record, which gives the account named in the pending record the
    pending password.  It never changes the secrets store. *)
Theorem set_secret_uses_current_credentials (env : Env) (arn tok : string) (s : St)
    (pending current : Version) (pd cd : dict) :
  fst (get_secret_value arn (Some tok) (Some AWSPENDING) s) = Ok pending ->
  json_loads (secret_string pending) = Ok pd ->
  fst (get_secret_value arn None (Some AWSCURRENT) s) = Ok current ->
  json_loads (secret_string current) = Ok cd ->
  (cd !! "engine" = None \/
   exists engine, cd !! "engine" = Some engine /\ engine ∈ supported_engines) ->
  store (snd (set_secret env arn tok s)) = store s /\
  exists ev, events (snd (set_secret env arn tok s)) = events s ++ [ev] /\
             connects_as cd ev /\ alters_user_of pd ev.
Proof.
  intros Hp Hpd Hc Hcd Hengine.
  rewrite (set_secret_dispatch env arn tok s _ _ _ _ Hp Hpd Hc Hcd).
  destruct Hengine as [-> | (engine & -> & [-> | [-> ->]]%dispatch_supported)];
    first [ apply (set_password_effect env (set_postgres_password env)); auto
          | apply (set_password_effect env (set_mysql_password env)); auto ].
Qed.

(** X11.  With the pending record fetched and an engine that is absent or
    supported, [test_secret] makes exactly one database call: a [SELECT 1]
    over a connection opened with the pending credentials and a timeout of
    10 seconds.  The step succeeds exactly when the query answers 1, and
    raises "Database test query failed" on any other answer.  It never
    changes the secrets store. *)
Theorem test_secret_checks_pending (env : Env) (arn tok : string) (s : St)
    (pending : Version) (pd : dict) :
  fst (get_secret_value arn (Some tok) (Some AWSPENDING) s) = Ok pending ->
  json_loads (secret_string pending) = Ok pd ->
  (pd !! "engine" = None \/
   exists engine, pd !! "engine" = Some engine /\ engine ∈ supported_engines) ->
  store (snd (test_secret env arn tok s)) = store s /\
  exists c conn,
    events (snd (test_secret env arn tok s)) = events s ++ [Db c] /\
    (c = PgSelect1 conn \/ c = MysqlSelect1 conn) /\
    connects_as pd (Db c) /\ connect_timeout conn = Some 10%Z /\
    (fst (test_secret env arn tok s) = Ok tt <-> driver env c = inr 1%Z) /\
    (forall z, driver env c = inr z -> z <> 1%Z ->
       fst (test_secret env arn tok s)
       = Err (PlainException "Database test query failed")).
Proof.
  intros Hp Hpd Hengine.
  rewrite (test_secret_dispatch env arn tok s _ _ Hp Hpd).
  destruct Hengine as [-> | (engine & -> & [-> | [-> ->]]%dispatch_supported)];
    first [ apply (test_connection_effect env (test_postgres_connection env)); auto
          | apply (test_connection_effect env (test_mysql_connection env)); auto ].
Qed.

(** X12.  [set_secret] and [test_secret] never change the secrets store and
    never publish; whatever happens, each makes at most one database call. *)
Theorem steps_leave_the_store (env : Env) (arn tok : string) (s : St) :
  (store (snd (set_secret env arn tok s)) = store s /\
   (events (snd (set_secret env arn tok s)) = events s \/
    exists c, events (snd (set_secret env arn tok s)) = events s ++ [Db c])) /\
  (store (snd (test_secret env arn tok s)) = store s /\
   (events (snd (test_secret env arn tok s)) = events s \/
    exists c, events (snd (test_secret env arn tok s)) = events s ++ [Db c])).
Proof.
  assert (forall m : dict -> dict -> M St unit, forall cd pd,
            m = set_postgres_password env \/ m = set_mysql_password env ->
            store (snd (m cd pd s)) = store s /\
            (events (snd (m cd pd s)) = events s \/
             exists c, events (snd (m cd pd s)) = events s ++ [Db c])) as Hset.
  { intros m cd pd Hm.
    destruct (set_password_effect env m cd pd s Hm) as (Hst & ev & Hev & (c & ? & -> & _) & _).
    split; [done|]. right. by exists c. }
  assert (forall m : dict -> M St unit, forall pd,
            m = test_postgres_connection env \/ m = test_mysql_connection env ->
            store (snd (m pd s)) = store s /\
            (events (snd (m pd s)) = events s \/
             exists c, events (snd (m pd s)) = events s ++ [Db c])) as Htest.
  { intros m pd Hm.
    destruct (test_connection_effect env m pd s Hm) as (Hst & c & ? & Hev & _).
    split; [done|]. right. by exists c. }
  split.
  - destruct (fst (get_secret_value arn (Some tok) (Some AWSPENDING) s)) as [pending|e] eqn:Hp.
    2:{ unfold set_secret, log_and_reraise, try_except, bind.
        rewrite get_secret_value_peek in *. cbn [fst] in Hp. rewrite Hp. cbn. auto. }
    destruct (json_loads (secret_string pending)) as [pd|e] eqn:Hpd.
    2:{ unfold set_secret, log_and_reraise, try_except, bind, lift.
        rewrite get_secret_value_peek in *. cbn [fst] in Hp. rewrite Hp, Hpd. cbn. auto. }
    destruct (fst (get_secret_value arn None (Some AWSCURRENT) s)) as [current|e] eqn:Hc.
    2:{ unfold set_secret, log_and_reraise, try_except, bind, lift.
        rewrite !get_secret_value_peek in *. cbn [fst] in Hp, Hc. rewrite Hp, Hpd, Hc.
        cbn. auto. }
    destruct (json_loads (secret_string current)) as [cd|e] eqn:Hcd.
    2:{ unfold set_secret, log_and_reraise, try_except, bind, lift.
        rewrite !get_secret_value_peek in *. cbn [fst] in Hp, Hc.
        rewrite Hp, Hpd, Hc, Hcd. cbn. auto. }
    rewrite (set_secret_dispatch env arn tok s _ _ _ _ Hp Hpd Hc Hcd).
    destruct (cd !! "engine") as [engine|];
      [| apply (Hset (set_postgres_password env)); auto].
    repeat case_bool_decide;
      [ apply (Hset (set_postgres_password env)); auto
      | apply (Hset (set_mysql_password env)); auto | cbn; auto ].
  - destruct (fst (get_secret_value arn (Some tok) (Some AWSPENDING) s)) as [pending|e] eqn:Hp.
    2:{ unfold test_secret, log_and_reraise, try_except, bind.
        rewrite get_secret_value_peek in *. cbn [fst] in Hp. rewrite Hp. cbn. auto. }
    destruct (json_loads (secret_string pending)) as [pd|e] eqn:Hpd.
    2:{ unfold test_secret, log_and_reraise, try_except, bind, lift.
        rewrite get_secret_value_peek in *. cbn [fst] in Hp. rewrite Hp, Hpd. cbn. auto. }
    rewrite (test_secret_dispatch env arn tok s _ _ Hp Hpd).
    destruct (pd !! "engine") as [engine|];
      [| apply (Htest (test_postgres_connection env)); auto].
    repeat case_bool_decide;
      [ apply (Htest (test_postgres_connection env)); auto
      | apply (Htest (test_mysql_connection env)); auto | cbn; auto ].
Qed.

(** ** Notifications *)

(** X13.  [send_rotation_notification] never raises and never touches the
    store.  Without a topic in [SNS_TOPIC_ARN] (unset or empty) it
    publishes nothing; with one it publishes once, to that topic, under a
    subject that names the last segment of the secret identifier and says
    "Successful" for the status [SUCCESS] and "Failed" for any other. *)
Theorem notification_never_raises (env : Env) (arn status : string)
    (error_message : option string) (s : St) :
  exists s',
    send_rotation_notification env arn status error_message s = (Ok tt, s') /\
    store s' = store s /\
    match environ env !! "SNS_TOPIC_ARN" with
    | Some topic =>
      if truthy topic then
        exists message,
          events s' = events s ++
            [Publish topic
               ((if bool_decide (status = "SUCCESS")
                 then "Secret Rotation Successful: "
                 else "Secret Rotation Failed: ") +:+ last_segment arn)
               message]
      else events s' = events s
    | None => events s' = events s
    end.
Proof.
  unfold send_rotation_notification, try_except.
  destruct (environ env !! "SNS_TOPIC_ARN") as [topic|]; [| by exists s].
  destruct (truthy topic); cbn [negb]; [| by exists s].
  case_bool_decide; destruct (sns_publish env topic _ _);
    eexists; (split; [done|]); (split; [done|]); by eexists.
Qed.

(** ** The entry point *)

(** X14.  Requests that break the protocol are refused before anything is
    done: a missing event key raises [KeyError] for the first key missing,
    an unknown secret raises [ResourceNotFoundException], and an unknown
    step name raises [ValueError]; in each case the state is untouched. *)
Theorem protocol_violation_raises (env : Env) (event : gmap string string) (s : St) :
  (event !! "SecretId" = None ->
   lambda_handler env event s = (Err (KeyError "SecretId"), s)) /\
  (is_Some (event !! "SecretId") -> event !! "ClientRequestToken" = None ->
   lambda_handler env event s = (Err (KeyError "ClientRequestToken"), s)) /\
  (is_Some (event !! "SecretId") -> is_Some (event !! "ClientRequestToken") ->
   event !! "Step" = None ->
   lambda_handler env event s = (Err (KeyError "Step"), s)) /\
  (forall arn tok step,
     event !! "SecretId" = Some arn -> event !! "ClientRequestToken" = Some tok ->
     event !! "Step" = Some step ->
     (store s !! arn = None ->
      lambda_handler env event s = (Err ResourceNotFoundException, s)) /\
     (is_Some (store s !! arn) -> step ∉ step_names ->
      lambda_handler env event s = (Err (ValueError ("Invalid step: " +:+ step)), s))).
Proof.
  unfold lambda_handler, log_and_reraise, try_except, bind, getitem.
  split_and!.
  - by intros ->.
  - by intros [? ->] ->.
  - by intros [? ->] [? ->] ->.
  - intros arn tok step -> -> ->. cbn [ret].
    unfold describe_secret, lookup_secret. split.
    + by intros ->.
    + intros [sec ->] Hstep. unfold step_names in Hstep.
      repeat (case_bool_decide; [exfalso; apply Hstep; subst step;
                                  repeat constructor |]).
      reflexivity.
Qed.

(** X15.  A response of [lambda_handler] is always the 200 response for one
    of the four step names, given after the function of that step
    returned; the state is the one that function left. *)
Theorem response_follows_step (env : Env) (event : gmap string string)
    (s s' : St) (resp : Response) :
  lambda_handler env event s = (Ok resp, s') ->
  exists arn tok step,
    event !! "SecretId" = Some arn /\ event !! "ClientRequestToken" = Some tok /\
    event !! "Step" = Some step /\
    resp = mkResponse 200
             ("Secret rotation step " +:+ step +:+ " completed successfully") arn /\
    ((step = "createSecret" /\ create_secret env arn tok s = (Ok tt, s')) \/
     (step = "setSecret" /\ set_secret env arn tok s = (Ok tt, s')) \/
     (step = "testSecret" /\ test_secret env arn tok s = (Ok tt, s')) \/
     (step = "finishSecret" /\ finish_secret env arn tok s = (Ok tt, s'))).
Proof.
  unfold lambda_handler, log_and_reraise, try_except at 1, bind, getitem.
  destruct (event !! "SecretId") as [arn|]; [|done].
  destruct (event !! "ClientRequestToken") as [tok|]; [|done].
  destruct (event !! "Step") as [step|]; [|done]. cbn [ret].
  unfold describe_secret, lookup_secret.
  destruct (store s !! arn) as [sec|]; [|done].
  repeat case_bool_decide; subst;
    match goal with
    | |- context [?f env arn tok s] =>
        destruct (f env arn tok s) as [[[]|e] s1] eqn:Hstep; [|done];
        intros [= <- <-]; eexists _, _, _; split_and!; try done; auto
    | |- _ => done
    end.
Qed.

(** ** Runs on the sample secret *)

Lemma last_segment_is_suffix_witness :
  last_segment "db-credentials" = "db-credentials" /\
  last_segment sample_arn = "db".
Proof.
  split.
  - apply (proj2 (proj2 (last_segment_is_suffix "db-credentials"))).
    vm_compute. intros Hin.
    repeat (apply elem_of_cons in Hin as [Hin|Hin]; [discriminate Hin|]).
    by apply elem_of_nil in Hin.
  - reflexivity.
Defined.

Lemma set_secret_uses_current_credentials_witness :
  store (snd (set_secret sample_env sample_arn "tok" sample_rotating))
  = store sample_rotating /\
  exists ev pd,
    events (snd (set_secret sample_env sample_arn "tok" sample_rotating))
    = events sample_rotating ++ [ev] /\
    connects_as sample_record ev /\ alters_user_of pd ev.
Proof.
  edestruct (set_secret_uses_current_credentials sample_env sample_arn "tok" sample_rotating)
    as (Hst & ev & Hev & Hc & Ha).
  - vm_compute. reflexivity.
  - reflexivity.
  - vm_compute. reflexivity.
  - reflexivity.
  - left. by vm_compute.
  - split; [exact Hst|]. eexists ev, _. split_and!; [exact Hev | exact Hc | exact Ha].
Defined.

Lemma test_secret_checks_pending_witness :
  store (snd (test_secret sample_env sample_arn "tok" sample_rotating))
  = store sample_rotating /\
  fst (test_secret sample_env sample_arn "tok" sample_rotating) = Ok tt.
Proof.
  edestruct (test_secret_checks_pending sample_env sample_arn "tok" sample_rotating)
    as (Hst & c & conn & Hev & Hc & _ & _ & Hok & _).
  - vm_compute. reflexivity.
  - reflexivity.
  - left. by vm_compute.
  - split; [exact Hst|]. apply Hok. reflexivity.
Defined.

Lemma protocol_violation_raises_witness :
  lambda_handler sample_env ∅ sample_state = (Err (KeyError "SecretId"), sample_state) /\
  lambda_handler sample_env (sample_event "rotate") sample_state
  = (Err (ValueError "Invalid step: rotate"), sample_state).
Proof.
  split.
  - apply (proj1 (protocol_violation_raises sample_env ∅ sample_state)). reflexivity.
  - apply (proj2 (proj2 (proj2 (proj2
             (protocol_violation_raises sample_env (sample_event "rotate") sample_state)))
             sample_arn "tok" "rotate" eq_refl eq_refl eq_refl)).
    + vm_compute. by eexists.
    + intros Hin. unfold step_names in Hin.
      repeat (apply elem_of_cons in Hin as [Hin|Hin]; [discriminate Hin|]).
      by apply elem_of_nil in Hin.
Defined.

Lemma response_follows_step_witness :
  exists resp s',
    lambda_handler sample_env (sample_event "testSecret") sample_rotating = (Ok resp, s') /\
    statusCode resp = 200%Z /\
    test_secret sample_env sample_arn "tok" sample_rotating = (Ok tt, s').
Proof.
  destruct (lambda_handler sample_env (sample_event "testSecret") sample_rotating)
    as [[resp|e] s'] eqn:E.
  - exists resp, s'. split; [done|].
    destruct (response_follows_step sample_env (sample_event "testSecret")
                sample_rotating s' resp E)
      as (arn & tok & step & Ha & Ht & Hs & -> & Hstep).
    split; [done|].
    injection Ha as <-. injection Ht as <-. injection Hs as <-.
    destruct Hstep as [[Hn _]|[[Hn _]|[[_ H]|[Hn _]]]]; try discriminate Hn.
    exact H.
  - vm_compute in E. discriminate E.
Defined.

End RotationMore.

(* ===================================================================== *)
(** * More about the maintenance handler *)
(* ===================================================================== *)

Module MaintenanceMore.
Import Maintenance MaintenanceFacts.

(** ** What each check concludes *)

Section Checks.
Variable env : Env.
Variable conn : DbConnection.

Ltac run_check H :=
  unfold analyze_database_performance, optimize_database_statistics, cleanup_old_data,
    analyze_disk_usage, check_blocking_queries, try_except, bind, emit, lift;
  rewrite H.

(** X16.  A performance analysis whose session answers completes with
    severity ['warning'] when there is a slow query, more than 50 active
    connections or a database above 100 GB, and with ['info'] otherwise; the
    list of issues is empty exactly in the second case and has one entry per
    finding. *)
Theorem performance_severity (s : St) (d : PerformanceData) :
  performance_session env conn = Ok d ->
  let slow := perf_slow_queries d <> [] in
  let busy := (50 < (perf_connection_stats d).1.2)%Z in
  let large := (100 * GB < (perf_db_size d).2)%Z in
  exists r found,
    analyze_database_performance env conn s
    = (Ok r, s ++ [Session "performance_analysis" conn]) /\
    status r = "completed" /\ issues r = Some found /\
    (severity r = Some "warning" <-> slow \/ busy \/ large) /\
    (severity r = Some "info" <-> ~ (slow \/ busy \/ large)) /\
    (found = [] <-> severity r = Some "info") /\
    length found = (if decide slow then 1 else 0) + (if decide busy then 1 else 0)
                   + (if decide large then 1 else 0).
Proof.
  intros H. cbn zeta. run_check H.
  destruct (perf_db_size d) as [[name pretty_size] bytes].
  destruct (perf_connection_stats d) as [[total active] idle].
  cbn [fst snd].
  destruct (perf_slow_queries d) as [|q qs]; cbn [nonempty flag fst snd];
    repeat case_bool_decide; cbn [flag fst snd app ret];
    eexists _, _; (split_and!; [reflexivity | reflexivity | reflexivity | | | |]);
    cbn [severity]; repeat case_decide; try lia; try done;
    try (split; [done|]); try (split; [|done]); intuition (try lia; try done).
Qed.



(** X19.  A cleanup whose session answers completes; its total is the sum
    of the four row counts, and its severity is ['warning'] when the total
    is above 10000 and ['info'] otherwise. *)
Theorem cleanup_severity (s : St) (d : CleanupData) :
  cleanup_session env conn = Ok d ->
  let total := (audit_logs_rowcount d + cache_entries_rowcount d
                + jobs_rowcount d + sessions_rowcount d)%Z in
  exists r,
    cleanup_old_data env conn s = (Ok r, s ++ [Session "data_cleanup" conn]) /\
    status r = "completed" /\
    (severity r = Some "warning" <-> (10000 < total)%Z) /\
    (severity r = Some "info" <-> (total <= 10000)%Z) /\
    message r = Some ("Cleaned up " +:+ pretty total +:+ " old records") /\
    details r = Some (CleanupDetails (audit_logs_rowcount d) (cache_entries_rowcount d)
                                     (jobs_rowcount d) (sessions_rowcount d) total) /\
    metrics r = None.
Proof.
  intros H. cbn zeta. run_check H. cbn [ret].
  eexists. split_and!; try reflexivity; cbn [severity];
    case_bool_decide; split; (done || lia).
Qed.

End Checks.

(** ** The shape of the results *)

Section Shapes.
Variable env : Env.
Variable conn : DbConnection.

Ltac check_shape session :=
  intros s;
  unfold analyze_database_performance, optimize_database_statistics, cleanup_old_data,
    analyze_disk_usage, check_blocking_queries, try_except, bind, emit, lift;
  destruct (session env conn) as [d|e];
  [ repeat match goal with
           | |- context [perf_db_size d] => destruct (perf_db_size d) as [[? ?] ?]
           | |- context [perf_connection_stats d] =>
               destruct (perf_connection_stats d) as [[? ?] ?]
           | |- context [disk_db_size d] => destruct (disk_db_size d) as [? ?]
           | |- context [commit_raises d] => destruct (commit_raises d)
           end;
    cbn [fst snd ret];
    repeat match goal with
           | |- context [flag ?c _ _ _] => destruct c; cbn [flag fst snd]
           | |- context [flag_if_info ?c _ _ _] => destruct c; cbn [flag_if_info fst snd]
           | |- context [bool_decide ?P] => destruct (bool_decide P)
           end
  | ];
  eexists; (split; [reflexivity|]);
  unfold check_result, failed_result; cbn;
  first [ solve [left; split_and!; eauto] | solve [right; split_and!; eauto] ].

Lemma analyze_database_performance_shape : forall s,
  exists r, analyze_database_performance env conn s
            = (Ok r, s ++ [Session "performance_analysis" conn]) /\ check_result r.
Proof. check_shape performance_session. Qed.

Lemma optimize_database_statistics_shape : forall s,
  exists r, optimize_database_statistics env conn s
            = (Ok r, s ++ [Session "statistics_optimization" conn]) /\ check_result r.
Proof. check_shape statistics_session. Qed.

Lemma cleanup_old_data_shape : forall s,
  exists r, cleanup_old_data env conn s
            = (Ok r, s ++ [Session "data_cleanup" conn]) /\ check_result r.
Proof. check_shape cleanup_session. Qed.

Lemma analyze_disk_usage_shape : forall s,
  exists r, analyze_disk_usage env conn s
            = (Ok r, s ++ [Session "disk_usage_analysis" conn]) /\ check_result r.
Proof. check_shape disk_session. Qed.

Lemma check_blocking_queries_shape : forall s,
  exists r, check_blocking_queries env conn s
            = (Ok r, s ++ [Session "blocking_queries_check" conn]) /\ check_result r.
Proof. check_shape blocking_session. Qed.

(** X21.  Each of the five results of a run is either completed, without
    an error text, or failed with severity ['critical'] and the error text
    only; a completed result is critical only when it is the one of the
    blocking-queries check. *)
Theorem results_are_well_formed (s : St) :
  exists rs,
    perform_maintenance_tasks env conn s = (Ok rs, s ++ five_sessions conn) /\
    Forall check_result rs.
Proof.
  destruct (analyze_database_performance_shape s) as (r1 & E1 & S1).
  destruct (optimize_database_statistics_shape
              (s ++ [Session "performance_analysis" conn])) as (r2 & E2 & S2).
  destruct (cleanup_old_data_shape
              ((s ++ [Session "performance_analysis" conn])
               ++ [Session "statistics_optimization" conn])) as (r3 & E3 & S3).
  destruct (analyze_disk_usage_shape
              (((s ++ [Session "performance_analysis" conn])
                ++ [Session "statistics_optimization" conn])
               ++ [Session "data_cleanup" conn])) as (r4 & E4 & S4).
  destruct (check_blocking_queries_shape
              ((((s ++ [Session "performance_analysis" conn])
                 ++ [Session "statistics_optimization" conn])
                ++ [Session "data_cleanup" conn])
               ++ [Session "disk_usage_analysis" conn])) as (r5 & E5 & S5).
  exists [r1; r2; r3; r4; r5]. split.
  - unfold perform_maintenance_tasks, bind. rewrite E1, E2, E3, E4, E5.
    unfold five_sessions. cbn [ret app]. by rewrite <- !app_assoc.
  - repeat (apply Forall_cons_2; [assumption|]). apply Forall_nil_2.
Qed.
End Shapes.

(** ** The report *)

(** X22.  The counts of a report are consistent: the critical and the
    warning results are disjoint, as are the completed and the failed ones;
    and when the results are those of checks, every result is completed or
    failed, every failed one is critical, and the critical ones beyond the
    failed ones are results of the blocking-queries check. *)
Theorem report_counts_consistent (env : Env) (rs : list TaskResult) :
  let sm := summary (generate_maintenance_report env rs) in
  tasks (generate_maintenance_report env rs) = rs /\
  critical_issues sm + warning_issues sm <= total_tasks sm /\
  completed_tasks sm + failed_tasks sm <= total_tasks sm /\
  (Forall check_result rs ->
   completed_tasks sm + failed_tasks sm = total_tasks sm /\
   failed_tasks sm <= critical_issues sm /\
   critical_issues sm
   <= failed_tasks sm
      + length (filter (fun r => task r = "blocking_queries_check") rs)).
Proof.
  cbn zeta. unfold generate_maintenance_report.
  cbn [summary tasks critical_issues warning_issues total_tasks completed_tasks failed_tasks].
  split; [done|].
  induction rs as [|r rs (IH1 & IH2 & IH3)].
  - split_and!; [done | done | intros _; done].
  - rewrite !filter_cons. split_and!.
    + repeat case_decide; cbn [length]; try lia. congruence.
    + repeat case_decide; cbn [length]; try lia. congruence.
    + intros [Hr Hrs]%Forall_cons. specialize (IH3 Hrs).
      unfold check_result in Hr.
      repeat case_decide; cbn [length]; try lia;
        intuition (try congruence; try lia).
Qed.

(** ** Connection details *)

Section Connection.
Variable env : Env.

Lemma get_database_connection_state db_instance_id s :
  snd (get_database_connection env db_instance_id s) = s.
Proof.
  unfold get_database_connection, try_except, bind, lift, raise, ret.
  repeat match goal with
         | |- context [match ?x with _ => _ end] =>
             match x with
             | context [match _ with _ => _ end] => fail 1
             | _ => destruct x; cbn [fst snd]
             end
         end; reflexivity.
Qed.

(** X23.  The tag loop takes the value of the first tag whose key is
    [SecretArn], whatever comes after it. *)
Theorem secret_arn_tag_first (tags : list (string * string)) (v : string) :
  secret_arn_tag tags = Some v <->
  exists before after,
    tags = before ++ ("SecretArn", v) :: after /\
    Forall (fun tag => tag.1 <> "SecretArn") before.
Proof.
  unfold secret_arn_tag. induction tags as [|[k w] tags IH]; cbn [find fst].
  - split; [done|]. intros (before & after & H & _). by destruct before.
  - case_bool_decide as Hk.
    + cbn. split.
      * intros [= ->]. exists [], tags. cbn in Hk. subst k. split; [done|]. apply Forall_nil_2.
      * intros ([|[k' w'] before] & after & H & Hb).
        -- by injection H as -> ->.
        -- injection H as -> -> ->. apply Forall_cons in Hb as [Hb _]. done.
    + rewrite IH. split.
      * intros (before & after & -> & Hb). exists ((k, w) :: before), after.
        split; [done|]. by apply Forall_cons_2.
      * intros ([|[k' w'] before] & after & H & Hb).
        -- injection H as -> -> ->. done.
        -- injection H as -> -> ->. apply Forall_cons in Hb as [_ Hb].
           by exists before, after.
Qed.

(** X24.  The connection details a run obtains: host, port, database and
    engine are those of the first instance in the answer of RDS, user name
    and password those of one secret, the one named by the [SecretArn] tag
    of the instance when it has a non-empty one, and otherwise the one the
    secrets manager knows as [<instance>-credentials].  Obtaining them
    makes no call that the trace records. *)
Theorem connection_from_instance_and_secret (db_instance_id : string) (s s' : St)
    (conn : DbConnection) :
  get_database_connection env db_instance_id s = (Ok conn, s') ->
  s' = s /\
  exists i rest arn credentials,
    describe_db_instances env db_instance_id = Ok (i :: rest) /\
    (secret_arn_tag (default [] (TagList i)) = Some arn /\ arn <> ""
     \/ truthy (default "" (secret_arn_tag (default [] (TagList i)))) = false /\
        describe_secret env (db_instance_id +:+ "-credentials") = Ok arn) /\
    get_secret_value env arn = Ok credentials /\
    credentials !! "username" = Some (conn_username conn) /\
    credentials !! "password" = Some (conn_password conn) /\
    conn_host conn = Endpoint_Address i /\ conn_port conn = Endpoint_Port i /\
    DBName i = Some (conn_database conn) /\ conn_engine conn = Engine i.
Proof.
  intros H. split.
  { rewrite <- (get_database_connection_state db_instance_id s). by rewrite H. }
  revert H. unfold get_database_connection, try_except, bind, lift, raise, ret.
  destruct (describe_db_instances env db_instance_id) as [[|i rest]|e]; try (by cbn).
  destruct (secret_arn_tag (default [] (TagList i))) as [arn|] eqn:Htag; cbn [default from_option id].
  - destruct (truthy arn) eqn:Harn.
    + destruct (get_secret_value env arn) as [credentials|e] eqn:Hval; [|by cbn].
      destruct (DBName i) as [database|] eqn:Hdb; [|by cbn].
      destruct (credentials !! "username") as [username|] eqn:Hu; [|by cbn].
      destruct (credentials !! "password") as [password|] eqn:Hp; [|by cbn].
      cbn. intros [= <- _]. exists i, rest, arn, credentials. split_and!; try done.
      left. split; [done|]. by intros ->.
    + destruct (describe_secret env _) as [found|e] eqn:Hd; [|by cbn].
      destruct (get_secret_value env found) as [credentials|e] eqn:Hval; [|by cbn].
      destruct (DBName i) as [database|] eqn:Hdb; [|by cbn].
      destruct (credentials !! "username") as [username|] eqn:Hu; [|by cbn].
      destruct (credentials !! "password") as [password|] eqn:Hp; [|by cbn].
      cbn. intros [= <- _]. exists i, rest, found, credentials. split_and!; try done.
      right. by rewrite Htag.
  - cbn [truthy].
    destruct (describe_secret env _) as [found|e] eqn:Hd; [|by cbn].
    destruct (get_secret_value env found) as [credentials|e] eqn:Hval; [|by cbn].
    destruct (DBName i) as [database|] eqn:Hdb; [|by cbn].
    destruct (credentials !! "username") as [username|] eqn:Hu; [|by cbn].
    destruct (credentials !! "password") as [password|] eqn:Hp; [|by cbn].
    cbn. intros [= <- _]. exists i, rest, found, credentials. split_and!; try done.
    right. by rewrite Htag.
Qed.

End Connection.

(** ** Notifications *)

Section Notifications.
Variable env : Env.

Lemma publish_swallowed topic subject msg s :
  try_except (publish env topic subject msg) (fun _ => ret tt) s
  = (Ok tt, s ++ [Publish topic subject msg]).
Proof.
  unfold try_except, publish, bind, emit. by destruct (sns_publish env _ _ _).
Qed.

Lemma send_failure_notification_run topic error_message s :
  send_failure_notification env topic error_message s
  = (Ok tt, s ++ match topic with
                 | Some t =>
                   if truthy t
                   then [Publish t "Database Maintenance Failed" (failure_text error_message)]
                   else []
                 | None => []
                 end).
Proof.
  unfold send_failure_notification.
  destruct topic as [[|c t]|]; cbn [default from_option id truthy negb].
  - unfold try_except, ret. by rewrite app_nil_r.
  - apply publish_swallowed.
  - unfold try_except, ret. by rewrite app_nil_r.
Qed.

Lemma send_alert_notification_run topic report critical s :
  send_alert_notification env topic report critical s
  = (Ok tt, s ++ [Publish topic ("Database Maintenance Alert - "
                                  +:+ upper (overall_status report))
                    (alert_text report critical)]).
Proof. unfold send_alert_notification. apply publish_swallowed. Qed.

(** X26.  Neither notification ever raises, whatever the topic answers.
    An alert is one message to the topic, its subject ending in the overall
    status in capitals; a failure notification is one message with the
    error text when a non-empty topic is given, and nothing otherwise. *)
Theorem notifications_never_raise (topic : string) (report : Report)
    (critical : list TaskResult) (failure_topic : option string)
    (error_message : string) (s : St) :
  send_alert_notification env topic report critical s
  = (Ok tt, s ++ [Publish topic ("Database Maintenance Alert - "
                                  +:+ upper (overall_status report))
                    (alert_text report critical)]) /\
  (forall t, failure_topic = Some t -> t <> "" ->
     send_failure_notification env failure_topic error_message s
     = (Ok tt, s ++ [Publish t "Database Maintenance Failed"
                       (failure_text error_message)])) /\
  (failure_topic = None \/ failure_topic = Some "" ->
     send_failure_notification env failure_topic error_message s = (Ok tt, s)).
Proof.
  split_and!.
  - apply send_alert_notification_run.
  - intros t -> Ht. rewrite send_failure_notification_run.
    destruct t; [done|]. reflexivity.
  - intros [-> | ->]; rewrite send_failure_notification_run; cbn; by rewrite app_nil_r.
Qed.

Lemma failure_clause_run e s :
  bind (try_except
          (send_failure_notification env (environ env !! "SNS_TOPIC_ARN") (str_exc e))
          (fun _ => ret tt))
       (fun _ => raise (A := Response) e) s
  = (Err e, s ++ failure_events env e).
Proof.
  unfold bind, try_except. rewrite send_failure_notification_run. reflexivity.
Qed.
End Notifications.

(** ** Runs of the handler *)

Section Runs.
Variable env : Env.

Lemma lambda_handler_early s e :
  early_failure env s e -> lambda_handler env s = (Err e, s ++ failure_events env e).
Proof.
  unfold early_failure, lambda_handler. intros H.
  unfold try_except at 1.
  unfold bind at 1, getenv at 1.
  destruct (environ env !! "DB_INSTANCE_ID") as [db_instance_id|].
  2:{ subst e. cbn [raise]. apply failure_clause_run. }
  cbn [ret]. unfold bind at 1, getenv at 1.
  destruct (environ env !! "SNS_TOPIC_ARN") as [sns_topic_arn|] eqn:Htopic.
  2:{ subst e. cbn [raise]. rewrite <- Htopic. apply failure_clause_run. }
  cbn [ret]. unfold bind at 1.
  pose proof (get_database_connection_state env db_instance_id s) as Hs.
  destruct (get_database_connection env db_instance_id s) as [[conn|e'] s1].
  { discriminate H. }
  cbn in H, Hs. injection H as ->. subst s1.
  rewrite <- Htopic. apply failure_clause_run.
Qed.

Lemma alert_subject rs :
  nonempty (filter (fun r => severity r = Some "critical") rs) = true ->
  upper (overall_status (generate_maintenance_report env rs)) = "CRITICAL".
Proof.
  unfold generate_maintenance_report. cbn [overall_status]. by intros ->.
Qed.

Lemma lambda_handler_late s db_instance_id sns_topic_arn conn :
  environ env !! "DB_INSTANCE_ID" = Some db_instance_id ->
  environ env !! "SNS_TOPIC_ARN" = Some sns_topic_arn ->
  fst (get_database_connection env db_instance_id s) = Ok conn ->
  exists rs,
    perform_maintenance_tasks env conn s = (Ok rs, s ++ five_sessions conn) /\
    let body := mkBody "Database maintenance completed" rs
                       (generate_maintenance_report env rs) in
    let s' := s ++ five_sessions conn ++ metrics_events db_instance_id rs
                ++ alert_events env sns_topic_arn rs in
    lambda_handler env s
    = match json_dumps env body with
      | None => (Ok (mkResponse 200 body), s')
      | Some e => (Err e, s' ++ failure_events env e)
      end.
Proof.
  intros Hid Htopic Hconn.
  pose proof (get_database_connection_state env db_instance_id s) as Hs.
  destruct (get_database_connection env db_instance_id s) as [r s1] eqn:Hget.
  cbn in Hconn, Hs. subst r s1.
  destruct (perform_maintenance_tasks_returns env conn s) as (r1 & r2 & r3 & r4 & r5 & Htasks).
  exists [r1; r2; r3; r4; r5]. split; [exact Htasks|].
  cbn zeta. set (rs := [r1; r2; r3; r4; r5]) in *.
  unfold lambda_handler, try_except at 1.
  unfold bind at 1, getenv at 1. rewrite Hid. cbn [ret].
  unfold bind at 1, getenv at 1. rewrite Htopic. cbn [ret].
  unfold bind at 1. rewrite Hget.
  unfold bind at 1. rewrite Htasks.
  unfold bind at 1. rewrite update_custom_metrics_total.
  unfold bind at 1.
  assert (forall st,
            (if nonempty (filter (fun r => severity r = Some "critical") rs)
             then send_alert_notification env sns_topic_arn
                    (generate_maintenance_report env rs)
                    (filter (fun r => severity r = Some "critical") rs)
             else ret tt) st
            = (Ok tt, st ++ alert_events env sns_topic_arn rs)) as Halert.
  { intros st. unfold alert_events. cbn zeta.
    destruct (nonempty (filter _ rs)) eqn:Hc.
    - rewrite send_alert_notification_run. by rewrite (alert_subject rs Hc).
    - unfold ret. by rewrite app_nil_r. }
  rewrite Halert.
  assert ((if nonempty (collect_metrics db_instance_id rs)
           then (s ++ five_sessions conn)
                ++ [PutMetricData "Prismy/Database" (collect_metrics db_instance_id rs)]
           else s ++ five_sessions conn)
          = (s ++ five_sessions conn) ++ metrics_events db_instance_id rs) as ->.
  { unfold metrics_events.
    destruct (nonempty (collect_metrics db_instance_id rs)); [done | by rewrite app_nil_r]. }
  rewrite <- !app_assoc.
  unfold bind at 1.
  destruct (json_dumps env _) as [e|]; cbn [raise ret].
  - rewrite <- Htopic. apply failure_clause_run.
  - reflexivity.
Qed.

(** Every run is of one of two kinds. *)
Lemma lambda_handler_cases s :
  (exists e, early_failure env s e) \/
  (exists db_instance_id sns_topic_arn conn,
     environ env !! "DB_INSTANCE_ID" = Some db_instance_id /\
     environ env !! "SNS_TOPIC_ARN" = Some sns_topic_arn /\
     fst (get_database_connection env db_instance_id s) = Ok conn).
Proof.
  unfold early_failure.
  destruct (environ env !! "DB_INSTANCE_ID") as [db_instance_id|]; [|left; by eexists].
  destruct (environ env !! "SNS_TOPIC_ARN") as [sns_topic_arn|]; [|left; by eexists].
  destruct (get_database_connection env db_instance_id s) as [[conn|e] s1] eqn:E.
  - right. exists db_instance_id, sns_topic_arn, conn. by rewrite E.
  - left. exists e. reflexivity.
Qed.


(** X28.  A run raises for one of two reasons only: it fails before any
    task (a variable of the environment is missing or the connection
    details cannot be had), or [json.dumps] refuses the body after all
    tasks have run.  In both cases the last thing it does is to send the
    failure notification, when a topic is configured; the exception it
    raises is the original one, whatever the topic answers. *)
Theorem raising_run_is_notified (s s' : St) (e : Exc) :
  lambda_handler env s = (Err e, s') ->
  (early_failure env s e /\ s' = s ++ failure_events env e) \/
  (exists db_instance_id sns_topic_arn conn rs,
     environ env !! "DB_INSTANCE_ID" = Some db_instance_id /\
     environ env !! "SNS_TOPIC_ARN" = Some sns_topic_arn /\
     perform_maintenance_tasks env conn s = (Ok rs, s ++ five_sessions conn) /\
     json_dumps env (mkBody "Database maintenance completed" rs
                            (generate_maintenance_report env rs)) = Some e /\
     s' = (s ++ five_sessions conn ++ metrics_events db_instance_id rs
             ++ alert_events env sns_topic_arn rs) ++ failure_events env e).
Proof.
  intros H.
  destruct (lambda_handler_cases s) as [[e' He]|(id & topic & conn & Hid & Htopic & Hconn)].
  - left. rewrite (lambda_handler_early s e' He) in H. injection H as <- <-. done.
  - right. destruct (lambda_handler_late s id topic conn Hid Htopic Hconn)
      as (rs & Htasks & Hrun).
    cbn zeta in Hrun. rewrite Hrun in H.
    destruct (json_dumps env _) as [e'|] eqn:Hjson; [|discriminate H].
    injection H as <- <-. by exists id, topic, conn, rs.
Qed.

(** X29.  A run without [DB_INSTANCE_ID] raises the [KeyError] for it
    and opens no session; it still sends the failure notification, with the
    quoted name of the variable as error text, when a topic is configured.
    A run without [SNS_TOPIC_ARN] raises the [KeyError] for that and makes
    no call at all. *)
Theorem missing_environment (s : St) :
  (environ env !! "DB_INSTANCE_ID" = None ->
   lambda_handler env s
   = (Err (KeyError "DB_INSTANCE_ID"),
      s ++ match environ env !! "SNS_TOPIC_ARN" with
           | Some topic =>
             if truthy topic
             then [Publish topic "Database Maintenance Failed"
                     (failure_text "'DB_INSTANCE_ID'")]
             else []
           | None => []
           end)) /\
  (is_Some (environ env !! "DB_INSTANCE_ID") -> environ env !! "SNS_TOPIC_ARN" = None ->
   lambda_handler env s = (Err (KeyError "SNS_TOPIC_ARN"), s)).
Proof.
  split.
  - intros Hid. rewrite (lambda_handler_early s (KeyError "DB_INSTANCE_ID")).
    + reflexivity.
    + unfold early_failure. by rewrite Hid.
  - intros [id Hid] Htopic. rewrite (lambda_handler_early s (KeyError "SNS_TOPIC_ARN")).
    + unfold failure_events. rewrite Htopic. by rewrite app_nil_r.
    + unfold early_failure. by rewrite Hid, Htopic.
Qed.
End Runs.

(** ** Metrics *)

Section Metrics.
Variable env : Env.
Variable conn : DbConnection.
Variable db_instance_id : string.

Ltac check_metrics session :=
  intros s;
  unfold analyze_database_performance, optimize_database_statistics, cleanup_old_data,
    analyze_disk_usage, check_blocking_queries, try_except, bind, emit, lift;
  destruct (session env conn) as [d|e];
  [ repeat match goal with
           | |- context [perf_db_size d] => destruct (perf_db_size d) as [[? ?] ?]
           | |- context [perf_connection_stats d] =>
               destruct (perf_connection_stats d) as [[? ?] ?]
           | |- context [disk_db_size d] => destruct (disk_db_size d) as [? ?]
           | |- context [commit_raises d] => destruct (commit_raises d)
           end;
    cbn [fst snd ret];
    repeat match goal with
           | |- context [flag ?c _ _ _] => destruct c; cbn [flag fst snd]
           | |- context [flag_if_info ?c _ _ _] => destruct c; cbn [flag_if_info fst snd]
           end
  | ];
  eexists; (split; [reflexivity|]); reflexivity.

Lemma analyze_database_performance_metrics : forall s,
  exists r, analyze_database_performance env conn s
            = (Ok r, s ++ [Session "performance_analysis" conn]) /\
            length (result_metrics db_instance_id r)
            = match performance_session env conn with Ok _ => 5 | Err _ => 0 end.
Proof. check_metrics performance_session. Qed.

Lemma optimize_database_statistics_metrics : forall s,
  exists r, optimize_database_statistics env conn s
            = (Ok r, s ++ [Session "statistics_optimization" conn]) /\
            length (result_metrics db_instance_id r) = 0.
Proof. check_metrics statistics_session. Qed.

Lemma cleanup_old_data_metrics : forall s,
  exists r, cleanup_old_data env conn s
            = (Ok r, s ++ [Session "data_cleanup" conn]) /\
            length (result_metrics db_instance_id r) = 0.
Proof. check_metrics cleanup_session. Qed.

Lemma analyze_disk_usage_metrics : forall s,
  exists r, analyze_disk_usage env conn s
            = (Ok r, s ++ [Session "disk_usage_analysis" conn]) /\
            length (result_metrics db_instance_id r)
            = match disk_session env conn with Ok _ => 3 | Err _ => 0 end.
Proof. check_metrics disk_session. Qed.

Lemma check_blocking_queries_metrics : forall s,
  exists r, check_blocking_queries env conn s
            = (Ok r, s ++ [Session "blocking_queries_check" conn]) /\
            length (result_metrics db_instance_id r)
            = match blocking_session env conn with Ok _ => 2 | Err _ => 0 end.
Proof. check_metrics blocking_session. Qed.

Lemma collect_metrics_form (rs : list TaskResult) :
  Forall (fun m => Unit m = "Count" /\
                   Dimensions m = [("DBInstanceIdentifier", db_instance_id)] /\
                   exists name, MetricName m = "DB_" +:+ name)
         (collect_metrics db_instance_id rs).
Proof.
  apply Forall_forall. intros m Hm. unfold collect_metrics in Hm.
  apply list_elem_of_In, in_flat_map in Hm as (r & _ & Hm%list_elem_of_In).
  apply result_metrics_elem in Hm as (entries & name & value & _ & _ & _ & ->).
  split_and!; [done | done | by exists name].
Qed.

(** X30.  The metrics of a run: five for a performance analysis that
    completed, three for a disk-usage analysis, two for a blocking-queries
    check, none for the two other tasks and none for a task that failed; at
    most ten, then.  Each is a count named [DB_...] for the instance, and
    CloudWatch is called exactly when there is at least one. *)
Theorem metrics_per_task (s : St) :
  exists rs,
    perform_maintenance_tasks env conn s = (Ok rs, s ++ five_sessions conn) /\
    length (collect_metrics db_instance_id rs)
    = match performance_session env conn with Ok _ => 5 | Err _ => 0 end
      + match disk_session env conn with Ok _ => 3 | Err _ => 0 end
      + match blocking_session env conn with Ok _ => 2 | Err _ => 0 end /\
    Forall (fun m => Unit m = "Count" /\
                     Dimensions m = [("DBInstanceIdentifier", db_instance_id)] /\
                     exists name, MetricName m = "DB_" +:+ name)
           (collect_metrics db_instance_id rs) /\
    forall s0,
      update_custom_metrics env db_instance_id rs s0
      = (Ok tt,
         if bool_decide (length (collect_metrics db_instance_id rs) = 0) then s0
         else s0 ++ [PutMetricData "Prismy/Database" (collect_metrics db_instance_id rs)]).
Proof.
  destruct (analyze_database_performance_metrics s) as (r1 & E1 & M1).
  destruct (optimize_database_statistics_metrics
              (s ++ [Session "performance_analysis" conn])) as (r2 & E2 & M2).
  destruct (cleanup_old_data_metrics
              ((s ++ [Session "performance_analysis" conn])
               ++ [Session "statistics_optimization" conn])) as (r3 & E3 & M3).
  destruct (analyze_disk_usage_metrics
              (((s ++ [Session "performance_analysis" conn])
                ++ [Session "statistics_optimization" conn])
               ++ [Session "data_cleanup" conn])) as (r4 & E4 & M4).
  destruct (check_blocking_queries_metrics
              ((((s ++ [Session "performance_analysis" conn])
                 ++ [Session "statistics_optimization" conn])
                ++ [Session "data_cleanup" conn])
               ++ [Session "disk_usage_analysis" conn])) as (r5 & E5 & M5).
  exists [r1; r2; r3; r4; r5]. split_and!.
  - unfold perform_maintenance_tasks, bind. rewrite E1, E2, E3, E4, E5.
    unfold five_sessions. cbn [ret app]. by rewrite <- !app_assoc.
  - unfold collect_metrics. cbn [flat_map]. rewrite !length_app, M1, M2, M3, M4, M5.
    cbn [length]. lia.
  - apply collect_metrics_form.
  - intros s0. rewrite update_custom_metrics_total.
    destruct (collect_metrics db_instance_id [r1; r2; r3; r4; r5]); reflexivity.
Qed.
End Metrics.

(** ** Runs on the sample deployment *)

Lemma performance_severity_witness :
  exists r,
    analyze_database_performance (sample_env (Ok busy_performance) None)
      sample_connection []
    = (Ok r, [Session "performance_analysis" sample_connection]) /\
    severity r = Some "warning" /\ (length <$> issues r) = Some 2.
Proof.
  destruct (performance_severity (sample_env (Ok busy_performance) None)
              sample_connection [] busy_performance eq_refl)
    as (r & found & E & _ & Hi & Hw & _ & _ & Hn).
  exists r. split; [exact E|]. split.
  - apply Hw. left. done.
  - rewrite Hi. cbn [fmap option_fmap option_map]. by rewrite Hn.
Defined.



Lemma cleanup_severity_witness :
  exists r,
    cleanup_old_data (sample_env (Ok sample_performance) None) sample_connection []
    = (Ok r, [Session "data_cleanup" sample_connection]) /\
    severity r = Some "info" /\
    message r = Some "Cleaned up 8 old records".
Proof.
  destruct (cleanup_severity (sample_env (Ok sample_performance) None)
              sample_connection [] (mkCleanupData 3 0 1 4) eq_refl)
    as (r & E & _ & _ & Hinfo & Hm & _).
  exists r. split; [exact E|]. split.
  - apply Hinfo. cbn. lia.
  - exact Hm.
Defined.


Lemma report_counts_consistent_witness :
  let sm := summary (generate_maintenance_report (sample_env (Ok sample_performance) None)
                       [failed_result "data_cleanup" (DriverError "connection refused")]) in
  completed_tasks sm + failed_tasks sm = total_tasks sm /\
  failed_tasks sm <= critical_issues sm.
Proof.
  cbn zeta.
  destruct (report_counts_consistent (sample_env (Ok sample_performance) None)
              [failed_result "data_cleanup" (DriverError "connection refused")])
    as (_ & _ & _ & H).
  destruct H as (H1 & H2 & _).
  - apply Forall_cons_2; [|apply Forall_nil_2].
    right. cbn. split_and!; eauto.
  - by split.
Defined.

Lemma connection_from_instance_and_secret_witness :
  exists i rest,
    describe_db_instances (sample_env (Ok sample_performance) None) "prismy-db"
    = Ok (i :: rest) /\
    Endpoint_Address i = "db.internal".
Proof.
  destruct (connection_from_instance_and_secret (sample_env (Ok sample_performance) None)
              "prismy-db" [] [] sample_connection)
    as (_ & i & rest & arn & credentials & Hi & _ & _ & _ & _ & Hhost & _).
  - vm_compute. reflexivity.
  - exists i, rest. split; [exact Hi|]. by rewrite <- Hhost.
Defined.


Lemma notifications_never_raise_witness :
  send_failure_notification (sample_env (Ok sample_performance) None)
    (Some "arn:aws:sns:alerts") "connection refused" []
  = (Ok tt, [Publish "arn:aws:sns:alerts" "Database Maintenance Failed"
               (failure_text "connection refused")]).
Proof.
  apply (proj1 (proj2 (notifications_never_raise (sample_env (Ok sample_performance) None)
           "arn:aws:sns:alerts"
           (generate_maintenance_report (sample_env (Ok sample_performance) None) [])
           [] (Some "arn:aws:sns:alerts") "connection refused" []))
         "arn:aws:sns:alerts" eq_refl).
  done.
Defined.


Lemma raising_run_is_notified_witness :
  exists e s',
    lambda_handler (with_instances (Ok []) (sample_env (Ok sample_performance) None)) []
    = (Err e, s') /\
    s' = [Publish "arn:aws:sns:alerts" "Database Maintenance Failed"
            (failure_text (str_exc e))].
Proof.
  destruct (lambda_handler (with_instances (Ok []) (sample_env (Ok sample_performance) None)) [])
    as [[resp|e] s'] eqn:E.
  - vm_compute in E. discriminate E.
  - exists e, s'. split; [done|].
    destruct (raising_run_is_notified
                (with_instances (Ok []) (sample_env (Ok sample_performance) None)) [] s' e E)
      as [[_ ->]|(id & topic & conn & rs & _ & _ & _ & Hjson & _)].
    + reflexivity.
    + discriminate Hjson.
Defined.

Lemma missing_environment_witness :
  lambda_handler
    (with_environ (<["SNS_TOPIC_ARN" := "arn:aws:sns:alerts"]> ∅)
                  (sample_env (Ok sample_performance) None)) []
  = (Err (KeyError "DB_INSTANCE_ID"),
     [Publish "arn:aws:sns:alerts" "Database Maintenance Failed"
        (failure_text "'DB_INSTANCE_ID'")]).
Proof.
  rewrite (proj1 (missing_environment
                    (with_environ (<["SNS_TOPIC_ARN" := "arn:aws:sns:alerts"]> ∅)
                                  (sample_env (Ok sample_performance) None)) []))
    by reflexivity.
  reflexivity.
Defined.

End MaintenanceMore.
